(** * Document perturbations of retrieval-exploration

    A shallow embedding of [retrieval_exploration/perturbations.py]: the
    [Perturber] class, its six perturbation methods and [_select_docs],
    together with the properties the specification states about them.

    Python values are modelled as follows.
    - [str] is [string]; a list of documents is [list string].
    - [float] is the binary64 type [PrimFloat.float]; [math.ceil] is
      computed on the exact value of its argument.
    - [int] is [Z]; lengths are [nat].
    - An exception is a value of [exception]; a call that may raise and
      that may use [self._rng] or emit a warning runs in the monad [M]. *)

From Stdlib Require Import ZArith List String Ascii Bool Lia Permutation.
From Stdlib Require Import Floats Uint63.
Import ListNotations.

Open Scope Z_scope.
Open Scope string_scope.

(** ** Python numbers *)

Module PyFloat.

(** [math.ceil x] on the exact value [(-1)^s * m * 2^e] of a finite
    float.  [math.ceil] raises on a NaN ([ValueError]) and on an
    infinity ([OverflowError]); both are [None] here. *)
Definition SF_ceil (x : spec_float) : option Z :=
  match x with
  | S754_zero _ => Some 0
  | S754_finite s m e =>
      let v := if s then Zneg m else Zpos m in
      Some (match e with
            | Zneg p => - ((- v) / Z.pow_pos 2 p)
            | _ => v * 2 ^ e
            end)
  | S754_infinity _ | S754_nan => None
  end.

Definition math_ceil (x : float) : option Z := SF_ceil (Prim2SF x).

(** The conversion [float(n)] of a length [n]; a Python length is below
    [2^63], where [Uint63.of_Z] is exact. *)
Definition float_of_len (n : nat) : float :=
  of_uint63 (Uint63.of_Z (Z.of_nat n)).

(** [math.ceil(perturbed_frac * num_docs)]. *)
Definition ceil_mul (perturbed_frac : float) (num_docs : nat) : option Z :=
  math_ceil (perturbed_frac * float_of_len num_docs)%float.

(** [not perturbed_frac] for a float: true on [0.0] and [-0.0] only. *)
Definition float_falsey (x : float) : bool := PrimFloat.eqb x 0%float.

Definition f_0_34 : float := 0x1.5c28f5c28f5c3p-2%float.
Definition f_0_5 : float := 0.5%float.

End PyFloat.
Import PyFloat.

(** ** Python built-ins on strings and lists *)

Module Py.

(** [c.isspace()] on the ASCII range. *)
Definition isspace (c : ascii) : bool :=
  let n := nat_of_ascii c in
  ((9 <=? n) && (n <=? 13) || (28 <=? n) && (n <=? 32))%nat.

Fixpoint lstrip (s : string) : string :=
  match s with
  | EmptyString => EmptyString
  | String c s' => if isspace c then lstrip s' else s
  end.

Fixpoint rstrip (s : string) : string :=
  match s with
  | EmptyString => EmptyString
  | String c s' =>
      match rstrip s' with
      | EmptyString => if isspace c then EmptyString else String c EmptyString
      | r => String c r
      end
  end.

(** [s.strip()]. *)
Definition strip (s : string) : string := rstrip (lstrip s).

(** [sep.join(l)]. *)
Definition join (sep : string) (l : list string) : string := String.concat sep l.

(** [x in l]. *)
Definition contains (l : list string) (x : string) : bool :=
  existsb (String.eqb x) l.

(** [l.index(x)]: the first position holding [x]; [None] when Python
    raises [ValueError]. *)
Fixpoint index (l : list string) (x : string) : option nat :=
  match l with
  | [] => None
  | y :: l' => if String.eqb y x then Some O else option_map S (index l' x)
  end.

(** [l[i] = x] for [0 <= i]; [None] when Python raises [IndexError]. *)
Fixpoint setitem {A : Type} (l : list A) (i : nat) (x : A) : option (list A) :=
  match l, i with
  | [], _ => None
  | _ :: l', O => Some (x :: l')
  | y :: l', S i' => option_map (cons y) (setitem l' i' x)
  end.

(** [list(dict.fromkeys(l))]: first occurrences, in order. *)
Fixpoint fromkeys_from (seen l : list string) : list string :=
  match l with
  | [] => []
  | x :: l' =>
      if contains seen x then fromkeys_from seen l'
      else x :: fromkeys_from (x :: seen) l'
  end.

Definition fromkeys (l : list string) : list string := fromkeys_from [] l.

(** [itertools.zip_longest(a, b)], filling with [None]. *)
Fixpoint zip_longest {A B : Type} (a : list A) (b : list B)
  : list (option A * option B) :=
  match a, b with
  | [], [] => []
  | x :: a', [] => (Some x, None) :: zip_longest a' []
  | [], y :: b' => (None, Some y) :: map (fun y => (None, Some y)) b'
  | x :: a', y :: b' => (Some x, Some y) :: zip_longest a' b'
  end.

(** [enumerate(l)]. *)
Fixpoint enumerate_from {A : Type} (i : nat) (l : list A) : list (nat * A) :=
  match l with
  | [] => []
  | x :: l' => (i, x) :: enumerate_from (S i) l'
  end.

Definition enumerate {A : Type} (l : list A) : list (nat * A) :=
  enumerate_from O l.

(** [range(n)]. *)
Definition range (n : nat) : list nat := seq O n.

(** Truth value of an [Optional[str]]: [None] and [""] are falsey. *)
Definition truthy (s : option string) : bool :=
  match s with
  | Some s => negb (String.eqb s "")
  | None => false
  end.

Definition is_not_None {A : Type} (x : option A) : bool :=
  match x with Some _ => true | None => false end.

(** [not perturbed_frac] for an [Optional[float]]. *)
Definition falsey (perturbed_frac : option float) : bool :=
  match perturbed_frac with
  | Some f => float_falsey f
  | None => true
  end.

End Py.

(** ** Exceptions and warnings *)

(** The four [ValueError]s the module raises itself, by message. *)
Inductive value_error : Type :=
| UnexpectedPerturbation (perturbation : string)
    (* "Got an unexpected value for perturbation: ..." *)
| TargetsLength (len_targets len_inputs : nat)
    (* "If targets provided, then len(targets) must equal len(inputs). ..." *)
| QueryOrTarget
    (* "Must provide either a `query` or a `target` when using a `strategy`
        other than `random`." *)
| NotEnoughDocuments (k : Z) (have : nat).
    (* "Not enough documents to sample k without replacement. Only have ..." *)

Inductive exception : Type :=
| ValueError (e : value_error)
| TypeError          (* a call with the wrong arguments, [None * int], ... *)
| AttributeError     (* a method looked up on [None] *)
| NameError          (* [query_docs] read before assignment *)
| IndexError         (* [l[i]] out of range *)
| ValueError_index   (* [list.index]: the value is not in the list *)
| ValueError_sample  (* [random.sample]: larger than population or negative *)
| ArithmeticError_ceil  (* [math.ceil] of a NaN or an infinity *)
| RuntimeError_topk. (* [torch.topk]: [k] out of range *)

(** The names the specification gives to the module's own errors. *)
Definition UnknownPerturbationError (perturbation : string) : exception :=
  ValueError (UnexpectedPerturbation perturbation).
Definition ArgumentMismatchError (len_targets len_inputs : nat) : exception :=
  ValueError (TargetsLength len_targets len_inputs).
Definition InvalidArgumentError : exception := ValueError QueryOrTarget.
Definition InsufficientCandidatesError (k : Z) (have : nat) : exception :=
  ValueError (NotEnoughDocuments k have).

Inductive warning : Type :=
| PerturbedFracFalsey   (* "perturbed_frac is falsey ... Inputs will be returned unchanged." *)
| DocumentsIgnored      (* "documents provided, but perturbation is not 'addition' or 'replacement'. ..." *)
| TargetIgnored.        (* "strategy is random, but target is not None. target will be ignored." *)

Inductive result (A : Type) : Type :=
| Ok (a : A)
| Raise (e : exception).
Arguments Ok {A} a.
Arguments Raise {A} e.

(** ** The collaborators of the module

    Everything [perturbations.py] calls that is not defined in it:
    [retrieval_exploration.common.util], [random.Random], [nltk],
    [nlpaug], [sentence_transformers] and [torch]. *)
Record Env : Type := {
  (** [util.split_docs(text, doc_sep_token)]. *)
  split_docs : string -> string -> list string;
  (** [util.get_num_docs(text, doc_sep_token)]. *)
  get_num_docs : string -> string -> nat;
  (** [util.unflatten(iterable, lengths)]. *)
  unflatten : list string -> list nat -> list (list string);
  (** The state of a [random.Random]. *)
  Rng : Type;
  (** [random.Random(seed)] for an integer seed. *)
  seed_rng : Z -> Rng;
  (** [rng.sample(population, k)]; [None] when it raises [ValueError]. *)
  rng_sample : forall A : Type, Rng -> list A -> Z -> option (list A * Rng);
  (** [rng.shuffle(l)], in place. *)
  rng_shuffle : forall A : Type, Rng -> list A -> list A * Rng;
  (** [nltk.sent_tokenize(doc)]. *)
  sent_tokenize : string -> list string;
  (** [BackTranslationAug.augment(sentences)]. *)
  augment : list string -> list string;
  (** The entries of a score tensor. *)
  Score : Type;
  (** [dot_score(encode(target), doc_embeddings)[0]]. *)
  dot_score_target : string -> list string -> list Score;
  (** [mean(dot_score(encode(query_docs), doc_embeddings), axis=0)]. *)
  dot_score_query : list string -> list string -> list Score;
  (** [torch.topk(scores, k, largest, sorted=True).indices]; [None] when
      it raises. *)
  topk : list Score -> Z -> bool -> option (list nat);
  (** The attributes every object inherits from [object] with a value
      other than [None]. *)
  object_attr : string -> bool
}.

(** ** The [Perturber] class *)

Definition _SEMANTIC_SIMILARITY_MODEL : string := "all-MiniLM-L6-v2".
Definition _BT_FROM_MODEL_NAME : string := "Helsinki-NLP/opus-mt-en-da".
Definition _BT_TO_MODEL_NAME : string := "Helsinki-NLP/opus-mt-da-en".

Inductive augmenter : Type :=
| BackTranslationAug (from_model_name to_model_name : string) (max_length : Z).

Inductive embedder : Type :=
| SentenceTransformer (model_name : string).

(** The six perturbation methods. *)
Inductive operator : Type :=
| backtranslation_op | sorting_op | duplication_op
| addition_op | deletion_op | replacement_op.

(** What [getattr(self, name, None)] finds: one of the six methods, or
    some other attribute that is not [None]. *)
Inductive attribute : Type :=
| Method (op : operator)
| OtherAttribute.

Definition operator_of_name (name : string) : option operator :=
  if String.eqb name "backtranslation" then Some backtranslation_op
  else if String.eqb name "sorting" then Some sorting_op
  else if String.eqb name "duplication" then Some duplication_op
  else if String.eqb name "addition" then Some addition_op
  else if String.eqb name "deletion" then Some deletion_op
  else if String.eqb name "replacement" then Some replacement_op
  else None.

Definition operator_name (op : operator) : string :=
  match op with
  | backtranslation_op => "backtranslation"
  | sorting_op => "sorting"
  | duplication_op => "duplication"
  | addition_op => "addition"
  | deletion_op => "deletion"
  | replacement_op => "replacement"
  end.

(** The other names bound in the class body, and the one instance
    attribute that [__init__] has set when it calls [getattr]. *)
Definition other_class_names : list string :=
  ["__init__"; "__call__"; "_select_docs"].
Definition instance_names_at_getattr : list string :=
  ["_perturbation"].

Section Perturber.

Variable env : Env.

Local Abbreviation rng := (Rng env).

(** [getattr(self, name, None)] at line 57; [None] is the default. *)
Definition getattr (name : string) : option attribute :=
  match operator_of_name name with
  | Some op => Some (Method op)
  | None =>
      if Py.contains instance_names_at_getattr name
         || Py.contains other_class_names name
         || object_attr env name
      then Some OtherAttribute
      else None
  end.

Record Perturber : Type := {
  _perturbation : string;
  _perturbation_func : attribute;
  _doc_sep_token : string;
  _strategy : string;
  _rng : rng;
  _aug : option augmenter;
  _embedder : option embedder
}.

(** [Perturber(perturbation, doc_sep_token, strategy, seed)].  With
    [seed=None] the random source is seeded from the operating system,
    which supplies [entropy]. *)
Definition Perturber_init (perturbation doc_sep_token strategy : string)
  (seed : option Z) (entropy : Z) : result Perturber :=
  match getattr perturbation with
  | None => Raise (ValueError (UnexpectedPerturbation perturbation))
  | Some func =>
      Ok {| _perturbation := perturbation;
            _perturbation_func := func;
            _doc_sep_token := doc_sep_token;
            _strategy := strategy;
            _rng := seed_rng env (match seed with Some s => s | None => entropy end);
            _aug := if String.eqb perturbation "backtranslation"
                    then Some (BackTranslationAug _BT_FROM_MODEL_NAME _BT_TO_MODEL_NAME 256)
                    else None;
            _embedder := if negb (String.eqb strategy "random")
                         then Some (SentenceTransformer _SEMANTIC_SIMILARITY_MODEL)
                         else None |}
  end.

(** *** Methods

    A method reads the fields of [self], advances [self._rng] and emits
    warnings. *)
Record state : Type := { self_rng : rng; warned : list warning }.

Definition M (A : Type) : Type := state -> result A * state.

Definition ret {A : Type} (a : A) : M A := fun s => (Ok a, s).

Definition raise {A : Type} (e : exception) : M A := fun s => (Raise e, s).

Definition bind {A B : Type} (c : M A) (k : A -> M B) : M B :=
  fun s => match c s with
           | (Ok a, s') => k a s'
           | (Raise e, s') => (Raise e, s')
           end.

Definition warn (w : warning) : M unit :=
  fun s => (Ok tt, {| self_rng := self_rng s; warned := warned s ++ [w] |}).

Definition when (b : bool) (c : M unit) : M unit := if b then c else ret tt.

Definition or_raise {A : Type} (e : exception) (x : option A) : M A :=
  match x with Some a => ret a | None => raise e end.

(** [self._rng.sample(population, k)]. *)
Definition sample {A : Type} (population : list A) (k : Z) : M (list A) :=
  fun s => match rng_sample env A (self_rng s) population k with
           | Some (l, g) => (Ok l, {| self_rng := g; warned := warned s |})
           | None => (Raise ValueError_sample, s)
           end.

(** [self._rng.shuffle(l)]. *)
Definition shuffle {A : Type} (l : list A) : M (list A) :=
  fun s => let '(l', g) := rng_shuffle env A (self_rng s) l in
           (Ok l', {| self_rng := g; warned := warned s |}).

Fixpoint mapM {A B : Type} (f : A -> M B) (l : list A) : M (list B) :=
  match l with
  | [] => ret []
  | x :: l' => bind (f x) (fun y => bind (mapM f l') (fun ys => ret (y :: ys)))
  end.

End Perturber.

Arguments ret {env A} a.
Arguments raise {env A} e.
Arguments bind {env A B} c k.
Arguments warn {env} w.
Arguments when {env} b c.
Arguments or_raise {env A} e x.
Arguments sample {env A} population k.
Arguments shuffle {env A} l.
Arguments mapM {env A B} f l.

Declare Scope py_scope.
Delimit Scope py_scope with py.
Notation "x <- c ;; k" := (bind c (fun x => k))
  (at level 100, c at next level, right associativity) : py_scope.
Notation "c ;;; k" := (bind c (fun _ => k))
  (at level 100, right associativity) : py_scope.

Section Methods.

Variable env : Env.
Variable self : Perturber env.

Local Open Scope py_scope.

Local Abbreviation sep := (_doc_sep_token env self).
Local Abbreviation strategy_is name := (String.eqb (_strategy env self) name).

(** [f" {self._doc_sep_token} ".join(docs)]. *)
Definition join_docs (docs : list string) : string :=
  Py.join (" " ++ sep ++ " ") docs.

(** [[documents[i] for i in indices]]. *)
Definition take_indices (documents : list string) (indices : list nat)
  : M env (list string) :=
  mapM (fun i => or_raise IndexError (nth_error documents i)) indices.

(** [[input_docs.index(doc) for doc in docs]]. *)
Definition index_all (input_docs docs : list string) : M env (list nat) :=
  mapM (fun doc => or_raise ValueError_index (Py.index input_docs doc)) docs.

(** The candidates of [_select_docs]: every document of [documents],
    less the documents of [query] (lines 457-467). *)
Definition candidates (documents : list string) (query : option string)
  : list string :=
  let documents := flat_map (fun example => split_docs env example sep) documents in
  match query with
  | Some query =>
      let query_docs := split_docs env query sep in
      filter (fun doc => negb (Py.contains query_docs doc)) documents
  | None => documents
  end.

Definition _select_docs (documents : list string) (k : Z)
  (query target : option string) (largest : bool) : M env (list string) :=
  if negb (strategy_is "random") && negb (Py.truthy query) && negb (Py.truthy target)
  then raise (ValueError QueryOrTarget)
  else
    when (strategy_is "random" && Py.is_not_None target) (warn TargetIgnored) ;;;
    let documents := candidates documents query in
    if (Z.of_nat (List.length documents) <? k)%Z
    then raise (ValueError (NotEnoughDocuments k (List.length documents)))
    else if strategy_is "random" then sample documents k
    else
      _ <- or_raise AttributeError (_embedder env self) ;;
      scores <- match target, query with
                | Some t, _ =>
                    if Py.truthy target then ret (dot_score_target env t documents)
                    else match query with
                         | Some q => ret (dot_score_query env (split_docs env q sep) documents)
                         | None => raise NameError
                         end
                | None, Some q => ret (dot_score_query env (split_docs env q sep) documents)
                | None, None => raise NameError
                end ;;
      indices <- or_raise RuntimeError_topk (topk env scores k largest) ;;
      take_indices documents indices.

(** [k = math.ceil(perturbed_frac * num_docs)]. *)
Definition num_to_perturb (perturbed_frac : float) (num_docs : nat) : M env Z :=
  or_raise ArithmeticError_ceil (ceil_mul perturbed_frac num_docs).

(** The loop of lines 184-185.  When [k == num_docs], [sampled_docs] is
    the list object [input_docs] itself ([aliased]), so the loop reads
    the documents it has already overwritten. *)
Fixpoint backtranslate_into (aliased : bool) (sampled_docs : list string)
  (i : nat) (back_translated_docs : list (list string))
  (input_docs : list string) : M env (list string) :=
  match back_translated_docs with
  | [] => ret input_docs
  | translated :: rest =>
      match nth_error (if aliased then input_docs else sampled_docs) i with
      | None => ret input_docs
      | Some sampled =>
          j <- or_raise ValueError_index (Py.index input_docs sampled) ;;
          input_docs <- or_raise IndexError
            (Py.setitem input_docs j (Py.join " " (map Py.strip translated))) ;;
          backtranslate_into aliased sampled_docs (S i) rest input_docs
      end
  end.

Definition backtranslation (example : string) (perturbed_frac : float)
  (target : option string) (documents : option (list string)) : M env string :=
  let input_docs := split_docs env example sep in
  let num_docs := get_num_docs env example sep in
  k <- num_to_perturb perturbed_frac num_docs ;;
  sampled_docs <-
    (if (k =? Z.of_nat num_docs)%Z then ret input_docs
     else if strategy_is "random" then _select_docs [example] k None None true
     else _select_docs [example] k None target (strategy_is "worst-case")) ;;
  let unflattened_sents := map (sent_tokenize env) sampled_docs in
  _ <- or_raise AttributeError (_aug env self) ;;
  let back_translated_sents := augment env (List.concat unflattened_sents) in
  let back_translated_docs :=
    unflatten env back_translated_sents (map (@List.length string) unflattened_sents) in
  input_docs <- backtranslate_into (k =? Z.of_nat num_docs)%Z sampled_docs O
                  back_translated_docs input_docs ;;
  ret (join_docs input_docs).

Definition sorting (example : string) (perturbed_frac : option float)
  (target : option string) (documents : option (list string)) : M env string :=
  let input_docs := split_docs env example sep in
  input_docs <-
    (if strategy_is "random" then shuffle input_docs
     else _select_docs [example] (Z.of_nat (List.length input_docs)) None target
            (strategy_is "best-case")) ;;
  ret (join_docs input_docs).

(** The documents [duplication] appends (lines 261-272). *)
Definition repeaters (example : string) (k : Z) (target : option string)
  : M env (list string) :=
  let input_docs := split_docs env example sep in
  let num_docs := get_num_docs env example sep in
  if (k =? Z.of_nat num_docs)%Z then ret input_docs
  else if strategy_is "random" then sample input_docs k
  else _select_docs [example] k None target (strategy_is "best-case").

Definition duplication (example : string) (perturbed_frac : float)
  (target : option string) (documents : option (list string)) : M env string :=
  let input_docs := split_docs env example sep in
  let num_docs := get_num_docs env example sep in
  k <- num_to_perturb perturbed_frac num_docs ;;
  repeaters <- repeaters example k target ;;
  ret (join_docs (input_docs ++ repeaters)).

Definition addition (example : string) (perturbed_frac : float)
  (documents : list string) (target : option string) : M env string :=
  let input_docs := split_docs env example sep in
  let num_docs := get_num_docs env example sep in
  k <- num_to_perturb perturbed_frac num_docs ;;
  sampled_docs <-
    (if strategy_is "random" then _select_docs documents k (Some example) None true
     else _select_docs documents k (Some example) target (strategy_is "best-case")) ;;
  ret (join_docs (input_docs ++ sampled_docs)).

(** The positions [deletion] removes (lines 359-368). *)
Definition to_delete (example : string) (k : Z) (target : option string)
  : M env (list nat) :=
  let input_docs := split_docs env example sep in
  let num_docs := get_num_docs env example sep in
  if strategy_is "random" then sample (Py.range num_docs) k
  else
    sampled_docs <- _select_docs [example] k None target (strategy_is "worst-case") ;;
    index_all input_docs sampled_docs.

(** [[doc for j, doc in enumerate(input_docs) if j not in to_delete]]. *)
Definition delete_at (input_docs : list string) (to_delete : list nat)
  : list string :=
  map snd
    (filter (fun jd => negb (existsb (Nat.eqb (fst jd)) to_delete))
       (Py.enumerate input_docs)).

Definition deletion (example : string) (perturbed_frac : float)
  (target : option string) (documents : option (list string)) : M env string :=
  let input_docs := split_docs env example sep in
  let num_docs := get_num_docs env example sep in
  k <- num_to_perturb perturbed_frac num_docs ;;
  if (k =? Z.of_nat num_docs)%Z then ret ""
  else
    to_delete <- to_delete example k target ;;
    ret (join_docs (delete_at input_docs to_delete)).

(** The documents [replacement] brings in (lines 393 and 400-406). *)
Definition replacement_sampled_docs (example : string) (k : Z)
  (documents : list string) (target : option string) : M env (list string) :=
  if strategy_is "random" then _select_docs documents k (Some example) None true
  else _select_docs documents k (Some example) target (strategy_is "best-case").

(** The positions [replacement] overwrites (lines 394 and 407-413). *)
Definition replace_indices (example : string) (k : Z) (target : option string)
  : M env (list nat) :=
  let input_docs := split_docs env example sep in
  let num_docs := get_num_docs env example sep in
  if strategy_is "random" then sample (Py.range num_docs) k
  else
    to_replace <- _select_docs [example] k None target
                    (negb (strategy_is "best-case")) ;;
    index_all input_docs to_replace.

(** The loop of lines 415-416. *)
Fixpoint replace_into (input_docs : list string) (pairs : list (nat * string))
  : M env (list string) :=
  match pairs with
  | [] => ret input_docs
  | (i, doc) :: rest =>
      input_docs <- or_raise IndexError (Py.setitem input_docs i (Py.strip doc)) ;;
      replace_into input_docs rest
  end.

Definition replacement (example : string) (perturbed_frac : float)
  (documents : list string) (target : option string) : M env string :=
  let input_docs := split_docs env example sep in
  let num_docs := get_num_docs env example sep in
  k <- num_to_perturb perturbed_frac num_docs ;;
  sampled_docs <- replacement_sampled_docs example k documents target ;;
  replace_indices <- replace_indices example k target ;;
  input_docs <- replace_into input_docs (combine replace_indices sampled_docs) ;;
  ret (join_docs input_docs).

(** [self._perturbation_func(example=..., target=..., perturbed_frac=...,
    documents=...)]. *)
Definition apply_perturbation_func (example target : option string)
  (perturbed_frac : option float) (documents : list string) : M env string :=
  match _perturbation_func env self, example with
  | OtherAttribute, _ => raise TypeError
  | Method _, None => raise AttributeError
  | Method sorting_op, Some example =>
      sorting example perturbed_frac target (Some documents)
  | Method op, Some example =>
      match perturbed_frac with
      | None => raise TypeError
      | Some perturbed_frac =>
          match op with
          | backtranslation_op =>
              backtranslation example perturbed_frac target (Some documents)
          | duplication_op =>
              duplication example perturbed_frac target (Some documents)
          | addition_op => addition example perturbed_frac documents target
          | deletion_op => deletion example perturbed_frac target (Some documents)
          | replacement_op => replacement example perturbed_frac documents target
          | sorting_op => sorting example (Some perturbed_frac) target (Some documents)
          end
      end
  end.

(** [self(inputs, perturbed_frac=..., targets=..., documents=...)]. *)
Definition call (inputs : list string) (perturbed_frac : option float)
  (targets documents : option (list string)) : M env (list string) :=
  match targets with
  | Some targets' =>
      if negb (List.length inputs =? List.length targets')%nat
      then raise (ValueError (TargetsLength (List.length targets') (List.length inputs)))
      else ret tt
  | None => ret tt
  end ;;;
  if negb (String.eqb (_perturbation env self) "sorting") && Py.falsey perturbed_frac
  then warn PerturbedFracFalsey ;;; ret inputs
  else
    when (Py.is_not_None documents
          && negb (Py.contains ["addition"; "replacement"] (_perturbation env self)))
      (warn DocumentsIgnored) ;;;
    let targets := match targets with Some targets => targets | None => [] end in
    let documents := match documents with
                     | Some documents => (inputs ++ documents)%list
                     | None => inputs
                     end in
    let documents := Py.fromkeys documents in
    mapM (fun et => apply_perturbation_func (fst et) (snd et) perturbed_frac documents)
      (Py.zip_longest inputs targets).

(** The state a method starts in on a fresh object. *)
Definition fresh : state env := {| self_rng := _rng env self; warned := [] |}.

End Methods.

Arguments join_docs {env} self docs.
Arguments candidates {env} self documents query.
Arguments _select_docs {env} self documents k query target largest.
Arguments num_to_perturb {env} perturbed_frac num_docs.
Arguments backtranslate_into {env} aliased sampled_docs i back_translated_docs input_docs.
Arguments backtranslation {env} self example perturbed_frac target documents.
Arguments sorting {env} self example perturbed_frac target documents.
Arguments repeaters {env} self example k target.
Arguments duplication {env} self example perturbed_frac target documents.
Arguments addition {env} self example perturbed_frac documents target.
Arguments to_delete {env} self example k target.
Arguments deletion {env} self example perturbed_frac target documents.
Arguments replacement_sampled_docs {env} self example k documents target.
Arguments replace_indices {env} self example k target.
Arguments replace_into {env} input_docs pairs.
Arguments replacement {env} self example perturbed_frac documents target.
Arguments apply_perturbation_func {env} self example target perturbed_frac documents.
Arguments call {env} self inputs perturbed_frac targets documents.
Arguments fresh {env} self.
Arguments take_indices {env} documents indices.
Arguments index_all {env} input_docs docs.


(** One run of a program: construct a [Perturber], then use it once. *)
Definition run {env : Env} {A : Type}
  (perturbation doc_sep_token strategy : string) (seed : option Z) (entropy : Z)
  (body : Perturber env -> M env A) : result A * list warning :=
  match Perturber_init env perturbation doc_sep_token strategy seed entropy with
  | Raise e => (Raise e, [])
  | Ok self => let '(r, s) := body self (fresh self) in (r, warned env s)
  end.


(** [j] is the first position of [l] holding its text. *)
Definition first_occurrence (l : list string) (j : nat) : Prop :=
  exists doc, nth_error l j = Some doc /\ Py.index l doc = Some j.

(** ** A concrete set of collaborators

    Used to run the methods on examples. *)
Module Sample.

(** Modelled from the spec: [util.split_docs] is not under src/.  The
    documents of an example are the substrings between occurrences of
    the separator, without the padding spaces. *)
Fixpoint split_on (sep : string) (skip : nat) (cur : string) (s : string)
  : list string :=
  match s with
  | EmptyString => [cur]
  | String c s' =>
      match skip with
      | S n => split_on sep n cur s'
      | O =>
          if String.prefix sep s
          then cur :: split_on sep (String.length sep - 1) "" s'
          else split_on sep O (cur ++ String c "") s'
      end
  end.

Definition split_docs (text doc_sep_token : string) : list string :=
  if String.eqb doc_sep_token "" then [Py.strip text]
  else map Py.strip (split_on doc_sep_token O "" text).

(** Modelled from the spec: [util.get_num_docs] is not under src/.  The
    number of documents of an example. *)
Definition get_num_docs (text doc_sep_token : string) : nat :=
  List.length (split_docs text doc_sep_token).

(** Modelled from the spec: [util.unflatten] is not under src/.  The
    sentences are regrouped per document, by the given lengths. *)
Fixpoint unflatten (l : list string) (lengths : list nat) : list (list string) :=
  match lengths with
  | [] => []
  | n :: lengths' => firstn n l :: unflatten (skipn n l) lengths'
  end.

(** A linear congruential generator as the random source. *)
Definition next (g : Z) : Z :=
  (g * 6364136223846793005 + 1442695040888963407) mod 2 ^ 64.

Definition randbelow (g : Z) (n : nat) : nat :=
  Z.to_nat ((g / 2 ^ 33) mod Z.of_nat n).

Fixpoint remove_nth {A : Type} (j : nat) (l : list A) : list A :=
  match l, j with
  | [], _ => []
  | _ :: l', O => l'
  | x :: l', S j' => x :: remove_nth j' l'
  end.

Fixpoint draw {A : Type} (g : Z) (pool : list A) (k : nat) : list A * Z :=
  match k with
  | O => ([], g)
  | S k' =>
      let g := next g in
      let j := randbelow g (List.length pool) in
      match nth_error pool j with
      | None => ([], g)
      | Some x =>
          let '(l, g') := draw g (remove_nth j pool) k' in (x :: l, g')
      end
  end.

Definition rng_sample (A : Type) (g : Z) (population : list A) (k : Z)
  : option (list A * Z) :=
  if (k <? 0)%Z || (Z.of_nat (List.length population) <? k)%Z then None
  else Some (draw g population (Z.to_nat k)).

Definition rng_shuffle (A : Type) (g : Z) (l : list A) : list A * Z :=
  draw g l (List.length l).

(** One sentence per document. *)
Definition sent_tokenize (doc : string) : list string := [doc].

(** The translation marks each sentence. *)
Definition augment (sentences : list string) : list string :=
  map (fun s => s ++ " (bt)") sentences.

(** The similarity of two texts: the length of their common prefix. *)
Fixpoint common_prefix (a b : string) : Z :=
  match a, b with
  | String x a', String y b' =>
      if Ascii.eqb x y then 1 + common_prefix a' b' else 0
  | _, _ => 0
  end.

Definition dot_score_target (target : string) (documents : list string) : list Z :=
  map (common_prefix target) documents.

Definition dot_score_query (query_docs documents : list string) : list Z :=
  map (fun doc => fold_right Z.add 0 (map (fun q => common_prefix q doc) query_docs))
    documents.

(** Stable insertion of [(score, index)] by decreasing (or increasing)
    score. *)
Fixpoint insert_by (largest : bool) (x : Z * nat) (l : list (Z * nat))
  : list (Z * nat) :=
  match l with
  | [] => [x]
  | y :: l' =>
      if (if largest then fst y <=? fst x else fst x <=? fst y)%Z
      then x :: l
      else y :: insert_by largest x l'
  end.

Definition ranked (largest : bool) (scores : list Z) : list nat :=
  map snd
    (fold_right (insert_by largest) []
       (combine scores (seq O (List.length scores)))).

Definition topk (scores : list Z) (k : Z) (largest : bool) : option (list nat) :=
  if (k <? 0)%Z || (Z.of_nat (List.length scores) <? k)%Z then None
  else Some (firstn (Z.to_nat k) (ranked largest scores)).

Definition object_attr (name : string) : bool :=
  Py.contains
    ["__class__"; "__delattr__"; "__dict__"; "__dir__"; "__eq__"; "__format__";
     "__ge__"; "__getattribute__"; "__gt__"; "__hash__"; "__init_subclass__";
     "__le__"; "__lt__"; "__module__"; "__ne__"; "__new__"; "__reduce__";
     "__reduce_ex__"; "__repr__"; "__setattr__"; "__sizeof__"; "__str__";
     "__subclasshook__"] name.

Definition env : Env :=
  Build_Env split_docs get_num_docs unflatten
    Z (fun seed => seed) rng_sample rng_shuffle
    sent_tokenize augment
    Z dot_score_target dot_score_query topk
    object_attr.

(** A [Perturber] over [env], as [__init__] builds it with the separator
    ["<doc-sep>"]. *)
Definition perturber (perturbation strategy : string) (seed : Z) : Perturber env :=
  Build_Perturber env
    perturbation
    (match operator_of_name perturbation with
     | Some op => Method op
     | None => OtherAttribute
     end)
    "<doc-sep>"
    strategy
    seed
    (if String.eqb perturbation "backtranslation"
     then Some (BackTranslationAug _BT_FROM_MODEL_NAME _BT_TO_MODEL_NAME 256)
     else None)
    (if negb (String.eqb strategy "random")
     then Some (SentenceTransformer _SEMANTIC_SIMILARITY_MODEL)
     else None).

End Sample.

(** ** Order-preserving selections

    [subseq l1 l2]: [l1] is [l2] with some items left out, the others
    in their order. *)
Inductive subseq {A : Type} : list A -> list A -> Prop :=
| subseq_nil : subseq [] []
| subseq_skip (x : A) (l1 l2 : list A) : subseq l1 l2 -> subseq l1 (x :: l2)
| subseq_keep (x : A) (l1 l2 : list A) : subseq l1 l2 -> subseq (x :: l1) (x :: l2).

(** ** Failures of lookup

    [lookup_free r]: [r] is not the failure of a method looked up on
    [None] ([self._aug], [self._embedder]) nor of a local name read
    before assignment ([query_docs]). *)
Definition lookup_free {A : Type} (r : result A) : Prop :=
  match r with
  | Raise AttributeError | Raise NameError => False
  | _ => True
  end.

(** * Properties *)

(** ** Facts on binary64 used below *)

Section Binary64.

Lemma digits2_pos_iter_xO (p k : positive) :
  Zpos (digits2_pos (Pos.iter xO p k)) = Zpos (digits2_pos p) + Zpos k.
Proof.
  induction k as [|k IH] using Pos.peano_ind.
  - cbn. lia.
  - rewrite Pos.iter_succ. cbn [digits2_pos]. lia.
Qed.

Lemma Zpos_iter_xO (p k : positive) :
  Zpos (Pos.iter xO p k) = Zpos p * Z.pow_pos 2 k.
Proof.
  induction k as [|k IH] using Pos.peano_ind.
  - cbn. lia.
  - rewrite Pos.iter_succ.
    change (Zpos (Pos.iter xO p k)~0) with (2 * Zpos (Pos.iter xO p k)).
    rewrite IH. rewrite !Z.pow_pos_fold, Pos2Z.inj_succ, Z.pow_succ_r by lia.
    lia.
Qed.

Lemma digits2_pos_bound (p : positive) :
  2 ^ (Zpos (digits2_pos p) - 1) <= Zpos p < 2 ^ Zpos (digits2_pos p).
Proof.
  induction p as [p IH|p IH|]; cbn [digits2_pos].
  - rewrite Pos2Z.inj_succ.
    replace (Z.succ (Zpos (digits2_pos p)) - 1) with (Z.succ (Zpos (digits2_pos p) - 1)) by lia.
    rewrite !Z.pow_succ_r by lia. lia.
  - rewrite Pos2Z.inj_succ.
    replace (Z.succ (Zpos (digits2_pos p)) - 1) with (Z.succ (Zpos (digits2_pos p) - 1)) by lia.
    rewrite !Z.pow_succ_r by lia. lia.
  - cbn. lia.
Qed.

(** Rounding a mantissa that is already canonical changes nothing. *)
Lemma binary_round_aux_canonical (s : bool) (m : positive) (e : Z) :
  bounded prec emax m e = true ->
  binary_round_aux prec emax s (Zpos m) e loc_Exact = S754_finite s m e.
Proof.
  unfold bounded, canonical_mantissa. intros H.
  apply andb_prop in H. destruct H as [Hc He].
  apply Z.eqb_eq in Hc.
  unfold binary_round_aux, shr_fexp.
  cbn [Zdigits2 shr_record_of_loc]. rewrite Hc, Z.sub_diag.
  cbn [shr shr_m loc_of_shr_record round_nearest_even Zdigits2 shr_record_of_loc].
  rewrite Hc, Z.sub_diag. cbn [shr shr_m]. rewrite He. reflexivity.
Qed.

Lemma Prim2SF_one : Prim2SF 1%float = S754_finite false 4503599627370496 (-52).
Proof. reflexivity. Qed.

(** [1.0 * x] is [x] for every finite binary64 [x]. *)
Lemma SF64mul_one_l (s : bool) (m : positive) (e : Z) :
  bounded prec emax m e = true ->
  SF64mul (Prim2SF 1%float) (S754_finite s m e) = S754_finite s m e.
Proof.
  intros H. rewrite Prim2SF_one. unfold SF64mul. cbn [SFmul xorb].
  change (Pos.mul 4503599627370496 m) with (Pos.iter xO m 52).
  pose proof H as H'. unfold bounded, canonical_mantissa in H'.
  apply andb_prop in H'. destruct H' as [Hc He]. apply Z.eqb_eq in Hc.
  unfold binary_round_aux, shr_fexp. cbn [Zdigits2].
  rewrite digits2_pos_iter_xO.
  replace (Zpos (digits2_pos m) + 52 + (-52 + e)) with (Zpos (digits2_pos m) + e) by lia.
  rewrite Hc. replace (e - (-52 + e)) with 52 by lia.
  cbn [shr shr_record_of_loc iter_pos Pos.iter shr_1 shr_m shr_s shr_r orb
       loc_of_shr_record round_nearest_even Zdigits2].
  replace (-52 + e + 52) with e by lia.
  rewrite Hc, Z.sub_diag. cbn [shr shr_m]. rewrite He. reflexivity.
Qed.

(** [float(n)] is exact below [2^53]: its value is [n]. *)
Lemma binary_normalize_exact (p : positive) :
  Zpos p < 2 ^ 53 ->
  exists m e, binary_normalize prec emax (Zpos p) 0 false = S754_finite false m e
              /\ bounded prec emax m e = true
              /\ SF_ceil (S754_finite false m e) = Some (Zpos p).
Proof.
  intros Hp. pose proof (digits2_pos_bound p) as Hd.
  assert (Hd53 : Zpos (digits2_pos p) <= 53).
  { destruct (Z_le_gt_dec (Zpos (digits2_pos p)) 53) as [|Hgt]; [assumption|].
    exfalso. assert (2 ^ 53 <= 2 ^ (Zpos (digits2_pos p) - 1)) by (apply Z.pow_le_mono_r; lia).
    lia. }
  cbn [binary_normalize]. unfold binary_round, shl_align.
  rewrite Z.add_0_r, Z.sub_0_r.
  assert (Hf : fexp prec emax (Zpos (digits2_pos p)) = Zpos (digits2_pos p) - 53).
  { unfold fexp, emin, prec, emax. lia. }
  rewrite Hf.
  assert (Hbp : Zpos (digits2_pos p) = 53 -> bounded prec emax p 0 = true).
  { intros E. unfold bounded, canonical_mantissa. rewrite Z.add_0_r, Hf, E. reflexivity. }
  destruct (Zpos (digits2_pos p) - 53) as [|q|q] eqn:Hq; try lia.
  - assert (Hb : bounded prec emax p 0 = true) by (apply Hbp; lia).
    exists p, 0. split; [|split].
    + apply binary_round_aux_canonical. exact Hb.
    + exact Hb.
    + cbn. f_equal. lia.
  - assert (Hb : bounded prec emax (Pos.iter xO p q) (Zneg q) = true).
    { unfold bounded, canonical_mantissa. rewrite digits2_pos_iter_xO.
      apply andb_true_intro. split.
      - apply Z.eqb_eq. unfold fexp, emin, prec, emax. lia.
      - apply Z.leb_le. unfold prec, emax. lia. }
    exists (Pos.iter xO p q), (Zneg q). split; [|split].
    + apply binary_round_aux_canonical. exact Hb.
    + exact Hb.
    + cbn [SF_ceil]. f_equal.
      change (- Zpos (Pos.iter xO p q)) with (- (Zpos (Pos.iter xO p q))).
      rewrite Zpos_iter_xO.
      assert (0 < Z.pow_pos 2 q) by (rewrite Z.pow_pos_fold; apply Z.pow_pos_nonneg; lia).
      rewrite <- Z.mul_opp_l, Z.div_mul by lia. lia.
Qed.

Lemma ceil_mul_one (n : nat) :
  Z.of_nat n < 2 ^ 53 -> ceil_mul 1%float n = Some (Z.of_nat n).
Proof.
  intros Hn. unfold ceil_mul, math_ceil, float_of_len.
  rewrite FloatAxioms.mul_spec, FloatAxioms.of_uint63_spec, Uint63.of_Z_spec.
  rewrite Z.mod_small by (unfold wB; cbn; lia).
  destruct (Z.of_nat n) as [|p|p] eqn:Hz; try lia.
  - reflexivity.
  - destruct (binary_normalize_exact p Hn) as (m & e & Hbn & Hb & Hc).
    rewrite Hbn, SF64mul_one_l by exact Hb. exact Hc.
Qed.

End Binary64.

(** ** The monad *)

Section MonadFacts.

Context {env : Env}.

Lemma bind_Ok {A B : Type} (c : M env A) (k : A -> M env B) s b s' :
  bind c k s = (Ok b, s') ->
  exists a s1, c s = (Ok a, s1) /\ k a s1 = (Ok b, s').
Proof.
  unfold bind. destruct (c s) as [[a|e] s1]; intros H.
  - exists a, s1. split; [reflexivity | exact H].
  - discriminate H.
Qed.

Lemma or_raise_Ok {A : Type} (e : exception) (x : option A) s a s' :
  or_raise (env:=env) e x s = (Ok a, s') -> x = Some a /\ s' = s.
Proof.
  destruct x as [a0|]; cbn; intros H; inversion H; subst; auto.
Qed.

Lemma ret_Ok {A : Type} (a b : A) (s s' : state env) :
  ret a s = (Ok b, s') -> b = a /\ s' = s.
Proof. cbn. intros H; inversion H; auto. Qed.

Lemma mapM_or_raise_Ok {A B : Type} (e : exception) (f : A -> option B) :
  forall (l : list A) s (r : list B) s',
    mapM (fun x => or_raise (env:=env) e (f x)) l s = (Ok r, s') ->
    Forall2 (fun x y => f x = Some y) l r /\ s' = s.
Proof.
  induction l as [|x l IH]; intros s r s' H.
  - cbn in H. inversion H; subst. split; constructor.
  - cbn [mapM] in H.
    apply bind_Ok in H. destruct H as (y & s1 & Hy & H).
    apply or_raise_Ok in Hy. destruct Hy as [Hy ->].
    apply bind_Ok in H. destruct H as (ys & s2 & Hys & H).
    apply ret_Ok in H. destruct H as [-> ->].
    apply IH in Hys. destruct Hys as [Hys ->].
    split; [constructor; assumption | reflexivity].
Qed.

End MonadFacts.

(** ** Python built-ins *)

Lemma contains_In (l : list string) (x : string) :
  Py.contains l x = true <-> In x l.
Proof.
  unfold Py.contains. rewrite existsb_exists. split.
  - intros (y & Hy & E). apply String.eqb_eq in E. subst. exact Hy.
  - intros H. exists x. split; [exact H | apply String.eqb_refl].
Qed.

Lemma contains_false (l : list string) (x : string) :
  Py.contains l x = false <-> ~ In x l.
Proof.
  rewrite <- contains_In. destruct (Py.contains l x); split; intros; congruence.
Qed.

Lemma index_Some (l : list string) (x : string) (j : nat) :
  Py.index l x = Some j ->
  nth_error l j = Some x /\ forall i, (i < j)%nat -> nth_error l i <> Some x.
Proof.
  revert j. induction l as [|y l IH]; intros j H; cbn in H; [discriminate|].
  destruct (String.eqb y x) eqn:E.
  - inversion H; subst. apply String.eqb_eq in E. subst.
    split; [reflexivity | intros i Hi; lia].
  - destruct (Py.index l x) as [j'|] eqn:Hj; cbn in H; [|discriminate].
    inversion H; subst. destruct (IH j' eq_refl) as [Hn Hlt].
    split; [exact Hn|]. intros [|i] Hi; cbn.
    + intros Heq. inversion Heq; subst. rewrite String.eqb_refl in E. discriminate.
    + apply Hlt. lia.
Qed.

Lemma index_first_occurrence (l : list string) (x : string) (j : nat) :
  Py.index l x = Some j -> first_occurrence l j.
Proof.
  intros H. exists x. split; [apply index_Some; exact H | exact H].
Qed.

Lemma setitem_length {A : Type} (l : list A) (i : nat) (x : A) (l' : list A) :
  Py.setitem l i x = Some l' -> List.length l' = List.length l.
Proof.
  revert i l'. induction l as [|y l IH]; intros [|i] l' H; cbn in H; try discriminate.
  - inversion H; reflexivity.
  - destruct (Py.setitem l i x) as [l0|] eqn:E; cbn in H; [|discriminate].
    inversion H; subst. cbn. f_equal. eapply IH; eassumption.
Qed.

Lemma Forall2_diag {A : Type} (R : A -> A -> Prop) (l : list A) :
  (forall x, R x x) -> Forall2 R l l.
Proof. intros H. induction l; constructor; auto. Qed.

Lemma setitem_Forall2 {A B : Type} (R : A -> B -> Prop) (l : list A) (m : list B)
  (i : nat) (x : A) (l' : list A) :
  Forall2 R l m -> (forall b, R x b) ->
  Py.setitem l i x = Some l' -> Forall2 R l' m.
Proof.
  intros HF Hx. revert i l'. induction HF as [|a b l m Hab HF IH]; intros [|i] l' H;
    cbn in H; try discriminate.
  - inversion H; subst. constructor; [apply Hx | exact HF].
  - destruct (Py.setitem l i x) as [l0|] eqn:E; cbn in H; [|discriminate].
    inversion H; subst. constructor; [exact Hab | eapply IH; exact E].
Qed.

(** ** Construction *)

Lemma operator_of_name_operator_name (op : operator) :
  operator_of_name (operator_name op) = Some op.
Proof. destruct op; reflexivity. Qed.

Lemma getattr_operator_name (env : Env) (op : operator) :
  getattr env (operator_name op) = Some (Method op).
Proof. unfold getattr. rewrite operator_of_name_operator_name. reflexivity. Qed.

(** A name [getattr] does not find is rejected. *)
Lemma Perturber_init_raises (env : Env) (perturbation sep strategy : string)
  (seed : option Z) (entropy : Z) :
  getattr env perturbation = None ->
  Perturber_init env perturbation sep strategy seed entropy
  = Raise (UnknownPerturbationError perturbation).
Proof. intros H. unfold Perturber_init. rewrite H. reflexivity. Qed.

(** C1.  The check of [__init__] on the perturbation name: each of the
    six method names passes it, and so does ["_select_docs"], which is
    bound in the class body but is no perturbation; [getattr] finds the
    method, so no error is raised and the object is constructed. *)
Theorem Perturber_init_accepts_select_docs (env : Env) (sep strategy : string)
  (seed : option Z) (entropy : Z) :
  (forall op : operator,
      exists self,
        Perturber_init env (operator_name op) sep strategy seed entropy = Ok self
        /\ _perturbation_func env self = Method op)
  /\ operator_of_name "_select_docs" = None
  /\ exists self,
       Perturber_init env "_select_docs" sep strategy seed entropy = Ok self
       /\ _perturbation_func env self = OtherAttribute.
Proof.
  split; [|split].
  - intros op. unfold Perturber_init. rewrite getattr_operator_name.
    eexists. split; reflexivity.
  - reflexivity.
  - unfold Perturber_init. eexists. split; reflexivity.
Qed.



(** ** Determinism under a seed *)


(** Without a seed the output depends on the entropy. *)
Example unseeded_runs_may_differ :
  run (env:=Sample.env) "sorting" "<doc-sep>" "random" None 5
    (fun self => call self ["A <doc-sep> B <doc-sep> C"] None None None)
  <> run (env:=Sample.env) "sorting" "<doc-sep>" "random" None 6
       (fun self => call self ["A <doc-sep> B <doc-sep> C"] None None None).
Proof. vm_compute. discriminate. Qed.

(** ** The call on a falsey fraction *)

(** C8, as stated, fails when [targets] is supplied with another length
    than [inputs]: that check comes first and raises. *)
Lemma call_falsey_frac_mismatched_targets :
  let self := Sample.perturber "deletion" "random" 0 in
  _perturbation Sample.env self <> "sorting"
  /\ Py.falsey None = true
  /\ fst (call self ["A <doc-sep> B"] None (Some ["x"; "y"]) None (fresh self))
     = Raise (ArgumentMismatchError 2 1)
  /\ fst (call self ["A <doc-sep> B"] None (Some ["x"; "y"]) None (fresh self))
     <> Ok ["A <doc-sep> B"].
Proof.
  cbv zeta. split; [|split; [|split]].
  - cbn. discriminate.
  - reflexivity.
  - reflexivity.
  - vm_compute. discriminate.
Qed.

(** C8, amended.  When the perturbation is not ["sorting"],
    [perturbed_frac] is zero or absent, and [targets] is absent or as
    long as [inputs], the call emits the warning and returns [inputs]
    unchanged, without using the random source. *)
Theorem call_falsey_frac_returns_inputs (env : Env) (self : Perturber env)
  (inputs : list string) (perturbed_frac : option float)
  (targets documents : option (list string)) (s : state env) :
  _perturbation env self <> "sorting" ->
  Py.falsey perturbed_frac = true ->
  (forall targets', targets = Some targets' ->
                    List.length targets' = List.length inputs) ->
  call self inputs perturbed_frac targets documents s
  = (Ok inputs,
     {| self_rng := self_rng env s; warned := warned env s ++ [PerturbedFracFalsey] |}).
Proof.
  intros Hp Hf Ht. apply String.eqb_neq in Hp.
  unfold call, bind. rewrite Hp, Hf. cbn [negb andb].
  destruct targets as [targets'|].
  - rewrite (Ht targets' eq_refl), Nat.eqb_refl. reflexivity.
  - reflexivity.
Qed.

Lemma call_falsey_frac_returns_inputs_witness :
  let self := Sample.perturber "deletion" "random" 0 in
  call self ["A <doc-sep> B"; "C"] (Some 0%float) (Some ["x"; "y"]) None (fresh self)
  = (Ok ["A <doc-sep> B"; "C"], Build_state Sample.env 0 [PerturbedFracFalsey]).
Proof.
  intros self.
  apply (call_falsey_frac_returns_inputs Sample.env self
           ["A <doc-sep> B"; "C"] (Some 0%float) (Some ["x"; "y"]) None (fresh self)).
  - cbn. discriminate.
  - reflexivity.
  - intros targets' H. inversion H. reflexivity.
Defined.

(** ** A fraction of one *)

(** C4.  [deletion] with [perturbed_frac = 1.0] returns the empty
    string, for every example and every strategy (the number of
    documents is below [2^53], as the length of any list is). *)
Theorem deletion_of_all_is_empty (env : Env) (self : Perturber env)
  (example : string) (target : option string)
  (documents : option (list string)) (s : state env) :
  Z.of_nat (get_num_docs env example (_doc_sep_token env self)) < 2 ^ 53 ->
  deletion self example 1%float target documents s = (Ok "", s).
Proof.
  intros Hn. unfold deletion, num_to_perturb, bind.
  rewrite (ceil_mul_one _ Hn). cbn [or_raise ret].
  rewrite Z.eqb_refl. reflexivity.
Qed.

Lemma deletion_of_all_is_empty_witness :
  let self := Sample.perturber "deletion" "best-case" 0 in
  deletion self "A <doc-sep> B <doc-sep> C" 1%float (Some "B") None (fresh self)
  = (Ok "", fresh self).
Proof.
  intros self.
  apply (deletion_of_all_is_empty Sample.env self
           "A <doc-sep> B <doc-sep> C" (Some "B") None (fresh self)).
  vm_compute. reflexivity.
Defined.

(** C5.  [duplication] with [perturbed_frac = 1.0] returns the join of
    the example's documents followed by the same documents again: over
    [n] documents, an example of [2 * n] documents whose first [n] are
    the original ones in order.  [get_num_docs] is the number of
    documents [split_docs] returns, and splitting the joined output
    gives back the joined documents. *)
Theorem duplication_of_all_doubles (env : Env) (self : Perturber env)
  (example : string) (target : option string)
  (documents : option (list string)) (s : state env) :
  let sep := _doc_sep_token env self in
  let docs := split_docs env example sep in
  let n := get_num_docs env example sep in
  Z.of_nat n < 2 ^ 53 ->
  n = List.length docs ->
  split_docs env (join_docs self (docs ++ docs)) sep = (docs ++ docs)%list ->
  exists out,
    duplication self example 1%float target documents s = (Ok out, s)
    /\ out = join_docs self (docs ++ docs)
    /\ List.length (split_docs env out sep) = (2 * n)%nat
    /\ firstn n (split_docs env out sep) = docs.
Proof.
  intros sep docs n Hn Hlen Hsplit.
  exists (join_docs self (docs ++ docs)).
  split; [|split; [reflexivity|]].
  - unfold duplication, repeaters, num_to_perturb, bind.
    fold sep. fold n. rewrite (ceil_mul_one _ Hn). cbn [or_raise ret].
    rewrite Z.eqb_refl. reflexivity.
  - rewrite Hsplit. split.
    + rewrite length_app. lia.
    + rewrite Hlen. rewrite firstn_app, Nat.sub_diag, firstn_all. cbn.
      apply app_nil_r.
Qed.

Lemma duplication_of_all_doubles_witness :
  let self := Sample.perturber "duplication" "worst-case" 0 in
  let example := "A <doc-sep> B <doc-sep> C" in
  let docs := split_docs Sample.env example "<doc-sep>" in
  let n := get_num_docs Sample.env example "<doc-sep>" in
  exists out,
    duplication self example 1%float None None (fresh self) = (Ok out, fresh self)
    /\ out = join_docs self (docs ++ docs)
    /\ List.length (split_docs Sample.env out "<doc-sep>") = (2 * n)%nat
    /\ firstn n (split_docs Sample.env out "<doc-sep>") = docs.
Proof.
  intros self example docs n.
  apply (duplication_of_all_doubles Sample.env self example None None (fresh self)).
  - vm_compute. reflexivity.
  - vm_compute. reflexivity.
  - vm_compute. reflexivity.
Defined.

(** ** Too few candidates *)

(** C6, as stated, fails under a strategy other than ["random"] when
    neither [query] nor [target] is given: the check of line 450 comes
    first and raises the other error. *)
Lemma select_docs_without_query_or_target :
  let self := Sample.perturber "deletion" "best-case" 0 in
  Z.of_nat (List.length (candidates self ["a <doc-sep> b <doc-sep> c"] None)) < 5
  /\ fst (_select_docs self ["a <doc-sep> b <doc-sep> c"] 5 None None true (fresh self))
     = Raise InvalidArgumentError
  /\ forall have,
       fst (_select_docs self ["a <doc-sep> b <doc-sep> c"] 5 None None true (fresh self))
       <> Raise (InsufficientCandidatesError 5 have).
Proof.
  cbv zeta. split; [|split].
  - vm_compute. reflexivity.
  - reflexivity.
  - intros have. vm_compute. discriminate.
Qed.

(** C6, amended.  When [k] exceeds the number of candidates left after
    splitting the pool and removing the documents of [query],
    [_select_docs] fails: with [InsufficientCandidatesError] when the
    strategy is ["random"] or a non-empty [query] or [target] is given,
    and with [InvalidArgumentError] otherwise. *)
Theorem select_docs_too_few_candidates (env : Env) (self : Perturber env)
  (documents : list string) (k : Z) (query target : option string)
  (largest : bool) (s : state env) :
  let have := List.length (candidates self documents query) in
  Z.of_nat have < k ->
  fst (_select_docs self documents k query target largest s)
  = Raise (if negb (String.eqb (_strategy env self) "random")
              && negb (Py.truthy query) && negb (Py.truthy target)
           then InvalidArgumentError
           else InsufficientCandidatesError k have).
Proof.
  intros have Hk. unfold _select_docs.
  destruct (negb (String.eqb (_strategy env self) "random")
            && negb (Py.truthy query) && negb (Py.truthy target)); [reflexivity|].
  apply Z.ltb_lt in Hk. fold have in Hk |- *.
  unfold bind, when.
  destruct (String.eqb (_strategy env self) "random" && Py.is_not_None target);
    cbn [warn ret]; fold have; rewrite Hk; reflexivity.
Qed.

Lemma select_docs_too_few_candidates_witness :
  let self := Sample.perturber "addition" "random" 0 in
  fst (_select_docs self ["a <doc-sep> b <doc-sep> c"] 3 (Some "b") None true (fresh self))
  = Raise (InsufficientCandidatesError 3 2).
Proof.
  intros self.
  apply (select_docs_too_few_candidates Sample.env self
           ["a <doc-sep> b <doc-sep> c"] 3 (Some "b") None true (fresh self)).
  vm_compute. reflexivity.
Defined.

(** ** Selection by similarity *)

Section Selection.

Context {env : Env}.
Variable self : Perturber env.

Local Abbreviation sep := (_doc_sep_token env self).

Lemma take_indices_In (documents : list string) (indices : list nat) s r s' :
  take_indices (env:=env) documents indices s = (Ok r, s') ->
  Forall (fun doc => In doc documents) r /\ List.length r = List.length indices /\ s' = s.
Proof.
  unfold take_indices. intros H. apply mapM_or_raise_Ok in H.
  destruct H as [H ->]. split; [|split; [|reflexivity]].
  - induction H as [|i doc l r Hi H IH]; constructor.
    + eapply nth_error_In. exact Hi.
    + exact IH.
  - symmetry. eapply Forall2_length. exact H.
Qed.

Lemma index_all_first_occurrence (input_docs docs : list string) s r s' :
  index_all (env:=env) input_docs docs s = (Ok r, s') ->
  Forall (first_occurrence input_docs) r /\ List.length r = List.length docs /\ s' = s.
Proof.
  unfold index_all. intros H. apply mapM_or_raise_Ok in H.
  destruct H as [H ->]. split; [|split; [|reflexivity]].
  - induction H as [|doc j l r Hj H IH]; constructor.
    + eapply index_first_occurrence. exact Hj.
    + exact IH.
  - symmetry. eapply Forall2_length. exact H.
Qed.

(** Under a strategy other than ["random"], what [_select_docs] returns
    is taken from the candidates, [topk] index by [topk] index. *)
Lemma select_docs_similar (documents : list string) (k : Z)
  (query target : option string) (largest : bool) s r s' :
  _strategy env self <> "random" ->
  _select_docs self documents k query target largest s = (Ok r, s') ->
  Forall (fun doc => In doc (candidates self documents query)) r
  /\ (exists scores indices,
         topk env scores k largest = Some indices
         /\ List.length r = List.length indices)
  /\ s' = s.
Proof.
  intros Hr H. apply String.eqb_neq in Hr. unfold _select_docs in H.
  rewrite Hr in H. cbn [negb andb when] in H.
  destruct (negb (Py.truthy query) && negb (Py.truthy target)); [discriminate H|].
  apply bind_Ok in H. destruct H as ([] & s1 & H1 & H).
  apply ret_Ok in H1. destruct H1 as [_ ->].
  destruct (Z.of_nat (List.length (candidates self documents query)) <? k)%Z;
    [discriminate H|].
  apply bind_Ok in H. destruct H as (e & s1 & He & H).
  apply or_raise_Ok in He. destruct He as [_ ->].
  apply bind_Ok in H. destruct H as (scores & s1 & Hs & H).
  assert (Hs1 : s1 = s).
  { destruct target as [t|], query as [q|]; cbn in Hs;
      repeat match type of Hs with
             | context [if ?b then _ else _] => destruct b
             end; inversion Hs; reflexivity. }
  subst s1.
  apply bind_Ok in H. destruct H as (indices & s1 & Hi & H).
  apply or_raise_Ok in Hi. destruct Hi as [Hi ->].
  apply take_indices_In in H. destruct H as (HIn & Hlen & ->).
  split; [exact HIn|]. split; [|reflexivity].
  exists scores, indices. split; assumption.
Qed.

(** A candidate is a document of the pool that is no document of
    [query]. *)
Lemma candidates_query (documents : list string) (query doc : string) :
  In doc (candidates self documents (Some query)) ->
  (exists example, In example documents /\ In doc (split_docs env example sep))
  /\ ~ In doc (split_docs env query sep).
Proof.
  unfold candidates. intros H. apply filter_In in H. destruct H as [H Hq].
  split.
  - apply in_flat_map in H. exact H.
  - apply contains_false. apply negb_true_iff. exact Hq.
Qed.

Lemma replace_into_Forall2 (R : string -> string -> Prop) (orig : list string) :
  forall (pairs : list (nat * string)) (docs : list string) s docs' s',
    Forall2 R docs orig ->
    (forall i doc, In (i, doc) pairs -> forall old, R (Py.strip doc) old) ->
    replace_into (env:=env) docs pairs s = (Ok docs', s') ->
    Forall2 R docs' orig /\ s' = s.
Proof.
  induction pairs as [|[i doc] pairs IH]; intros docs s docs' s' HF HR H.
  - cbn in H. inversion H; subst. split; [exact HF | reflexivity].
  - cbn [replace_into] in H.
    apply bind_Ok in H. destruct H as (docs1 & s1 & H1 & H).
    apply or_raise_Ok in H1. destruct H1 as [H1 ->].
    eapply IH; [| |exact H].
    + eapply setitem_Forall2; [exact HF| |exact H1].
      apply (HR i doc). left. reflexivity.
    + intros i' doc' Hin. apply (HR i' doc'). right. exact Hin.
Qed.

End Selection.

(** C7.  Under strategy ["best-case"], [replacement] never puts into
    the example a text that is already one of its documents: the
    replacement documents are selected among the candidates, from which
    the [query] filter has removed every document of the example, and
    each document of the output is either the original one at that
    position or one of the selected documents.  (The documents that
    [split_docs] returns for the pool carry no outer white space, so
    [doc.strip()] is [doc].) *)
Theorem replacement_best_case_excludes_own_documents (env : Env)
  (self : Perturber env) (example : string) (perturbed_frac : float)
  (documents : list string) (target : option string)
  (s : state env) (out : string) (s' : state env) :
  let sep := _doc_sep_token env self in
  let input_docs := split_docs env example sep in
  _strategy env self = "best-case" ->
  (forall pool doc, In pool documents -> In doc (split_docs env pool sep) ->
                    Py.strip doc = doc) ->
  replacement self example perturbed_frac documents target s = (Ok out, s') ->
  exists sampled_docs docs',
    Forall (fun doc => ~ In doc input_docs) sampled_docs
    /\ out = join_docs self docs'
    /\ Forall2 (fun new old => new = old \/ (In new sampled_docs /\ ~ In new input_docs))
         docs' input_docs.
Proof.
  intros sep input_docs Hbest Hstrip H.
  assert (Hr : _strategy env self <> "random") by (rewrite Hbest; discriminate).
  unfold replacement in H.
  apply bind_Ok in H. destruct H as (k & s1 & _ & H).
  apply bind_Ok in H. destruct H as (sampled_docs & s2 & Hs & H).
  apply bind_Ok in H. destruct H as (idx & s3 & _ & H).
  apply bind_Ok in H. destruct H as (docs' & s4 & Hd & H).
  apply ret_Ok in H. destruct H as [-> _].
  unfold replacement_sampled_docs in Hs.
  rewrite Hbest in Hs. cbn [String.eqb Ascii.eqb Bool.eqb] in Hs.
  apply (select_docs_similar self) in Hs; [|exact Hr].
  destruct Hs as (Hcand & _ & _).
  assert (Hnew : Forall (fun doc => ~ In doc input_docs /\ Py.strip doc = doc) sampled_docs).
  { eapply Forall_impl; [|exact Hcand]. cbv beta. intros doc Hdoc.
    apply candidates_query in Hdoc. destruct Hdoc as [(pool & Hp & Hdoc) Hnot].
    split; [exact Hnot | eapply Hstrip; eassumption]. }
  exists sampled_docs, docs'. split; [|split; [reflexivity|]].
  - eapply Forall_impl; [|exact Hnew]. cbv beta. intros doc [Hdoc _]. exact Hdoc.
  - eapply (replace_into_Forall2
              (fun new old => new = old \/ (In new sampled_docs /\ ~ In new input_docs)));
      [| |exact Hd].
    + apply Forall2_diag. intros x. left. reflexivity.
    + intros i doc Hin old. right.
      apply in_combine_r in Hin.
      rewrite Forall_forall in Hnew. destruct (Hnew doc Hin) as [Hnot Hs'].
      rewrite Hs'. split; assumption.
Qed.

Lemma replacement_best_case_excludes_own_documents_witness :
  let self := Sample.perturber "replacement" "best-case" 0 in
  let input_docs := split_docs Sample.env "a <doc-sep> a <doc-sep> b" "<doc-sep>" in
  exists sampled_docs docs',
    Forall (fun doc => ~ In doc input_docs) sampled_docs
    /\ "ay <doc-sep> a <doc-sep> ax" = join_docs self docs'
    /\ Forall2 (fun new old => new = old \/ (In new sampled_docs /\ ~ In new input_docs))
         docs' input_docs.
Proof.
  intros self input_docs.
  apply (replacement_best_case_excludes_own_documents Sample.env self
           "a <doc-sep> a <doc-sep> b" f_0_5
           ["a <doc-sep> ax <doc-sep> ay"; "b <doc-sep> c"] (Some "a")
           (fresh self) "ay <doc-sep> a <doc-sep> ax" (fresh self)).
  - reflexivity.
  - intros pool doc [<-|[<-|[]]] Hdoc; vm_compute in Hdoc;
      repeat (destruct Hdoc as [<-|Hdoc]; [reflexivity|]); destruct Hdoc.
  - reflexivity.
Defined.

(** ** Lookup of a document by its text *)

(** Once the first occurrence of [doc] is overwritten by another text,
    [index] finds the next one. *)
Lemma index_after_setitem (l : list string) (doc x : string) :
  forall (j1 : nat) (l1 : list string) (j2 : nat),
    Py.index l doc = Some j1 ->
    Py.setitem l j1 x = Some l1 ->
    x <> doc ->
    Py.index l1 doc = Some j2 ->
    (j1 < j2)%nat /\ nth_error l j2 = Some doc.
Proof.
  induction l as [|y l IH]; intros j1 l1 j2 H1 Hset Hx H2; cbn in H1; [discriminate|].
  destruct (String.eqb y doc) eqn:E.
  - inversion H1; subst j1. cbn in Hset. inversion Hset; subst l1.
    cbn in H2. apply String.eqb_neq in Hx. rewrite Hx in H2.
    destruct (Py.index l doc) as [j|] eqn:Hj; cbn in H2; [|discriminate].
    inversion H2; subst j2. split; [lia|]. cbn. apply index_Some. exact Hj.
  - destruct (Py.index l doc) as [j|] eqn:Hj; cbn in H1; [|discriminate].
    inversion H1; subst j1. cbn in Hset.
    destruct (Py.setitem l j x) as [l1'|] eqn:Hs; cbn in Hset; [|discriminate].
    inversion Hset; subst l1. cbn in H2. rewrite E in H2.
    destruct (Py.index l1' doc) as [j'|] eqn:Hj'; cbn in H2; [|discriminate].
    inversion H2; subst j2.
    destruct (IH j l1' j' eq_refl Hs Hx Hj') as [Hlt Hn].
    split; [lia | exact Hn].
Qed.

(** C9, as stated, fails for [backtranslation]: the lookup runs on the
    list as overwritten so far, so with the text ["a"] at positions 0
    and 1 and both selected, position 1 is overwritten too. *)
Lemma backtranslation_overwrites_second_occurrence :
  let self := Sample.perturber "backtranslation" "worst-case" 0 in
  let example := "a <doc-sep> a <doc-sep> b" in
  _strategy Sample.env self <> "random"
  /\ split_docs Sample.env example "<doc-sep>" = ["a"; "a"; "b"]
  /\ ~ first_occurrence (split_docs Sample.env example "<doc-sep>") 1
  /\ fst (backtranslation self example f_0_5 (Some "a") None (fresh self))
     = Ok "a (bt) <doc-sep> a (bt) <doc-sep> b"
  /\ nth_error (split_docs Sample.env "a (bt) <doc-sep> a (bt) <doc-sep> b" "<doc-sep>") 1
     <> nth_error (split_docs Sample.env example "<doc-sep>") 1.
Proof.
  cbv zeta. split; [|split; [|split; [|split]]].
  - cbn. discriminate.
  - reflexivity.
  - intros (doc & Hn & Hi). vm_compute in Hn. inversion Hn; subst doc.
    vm_compute in Hi. discriminate Hi.
  - reflexivity.
  - vm_compute. discriminate.
Qed.

(** C9, amended.  Under a strategy other than ["random"], [deletion]
    and [replacement] find the position of each selected document with
    [index] on the unmodified list of documents, so every position they
    remove or overwrite is the first one holding its text, and
    [deletion] may remove fewer than [k] documents.  [backtranslation]
    runs the lookup on the list as overwritten so far: when a text is
    selected twice and its translation differs from it, the second
    lookup finds a later position that held the same text, and that
    position is overwritten as well. *)
Theorem lookup_by_text (env : Env) (self : Perturber env) :
  let sep := _doc_sep_token env self in
  _strategy env self <> "random" ->
  (forall example perturbed_frac target documents s out s',
      deletion self example perturbed_frac target documents s = (Ok out, s') ->
      out = ""
      \/ exists to_delete,
          Forall (first_occurrence (split_docs env example sep)) to_delete
          /\ out = join_docs self (delete_at (split_docs env example sep) to_delete))
  /\ (forall example perturbed_frac documents target s out s',
      replacement self example perturbed_frac documents target s = (Ok out, s') ->
      exists replace_indices sampled_docs docs' (s1 s2 : state env),
        Forall (first_occurrence (split_docs env example sep)) replace_indices
        /\ replace_into (split_docs env example sep)
             (combine replace_indices sampled_docs) s1 = (Ok docs', s2)
        /\ out = join_docs self docs')
  /\ (forall doc t1 t2 docs j1 docs1 j2 docs2 (s : state env),
      Py.index docs doc = Some j1 ->
      Py.setitem docs j1 (Py.join " " (map Py.strip t1)) = Some docs1 ->
      Py.join " " (map Py.strip t1) <> doc ->
      Py.index docs1 doc = Some j2 ->
      Py.setitem docs1 j2 (Py.join " " (map Py.strip t2)) = Some docs2 ->
      (j1 < j2)%nat
      /\ nth_error docs j2 = Some doc
      /\ backtranslate_into (env:=env) false [doc; doc] 0 [t1; t2] docs s = (Ok docs2, s))
  /\ (exists (self' : Perturber Sample.env) example perturbed_frac target k out,
        _strategy Sample.env self' <> "random"
        /\ ceil_mul perturbed_frac (get_num_docs Sample.env example "<doc-sep>") = Some k
        /\ fst (deletion self' example perturbed_frac target None (fresh self')) = Ok out
        /\ Z.of_nat (List.length (split_docs Sample.env example "<doc-sep>"))
           - Z.of_nat (List.length (split_docs Sample.env out "<doc-sep>")) < k).
Proof.
  intros sep Hr. subst sep. split; [|split; [|split]].
  - intros example perturbed_frac target documents s out s' H.
    unfold deletion in H.
    apply bind_Ok in H. destruct H as (k & s1 & _ & H).
    destruct (k =? Z.of_nat (get_num_docs env example (_doc_sep_token env self)))%Z.
    + apply ret_Ok in H. left. apply H.
    + right. apply bind_Ok in H. destruct H as (d & s2 & Hd & H).
      apply ret_Ok in H. destruct H as [-> _].
      exists d. split; [|reflexivity].
      unfold to_delete in Hd. apply String.eqb_neq in Hr. rewrite Hr in Hd.
      apply bind_Ok in Hd. destruct Hd as (sampled & s3 & _ & Hd).
      apply index_all_first_occurrence in Hd. apply Hd.
  - intros example perturbed_frac documents target s out s' H.
    unfold replacement in H.
    apply bind_Ok in H. destruct H as (k & s1 & _ & H).
    apply bind_Ok in H. destruct H as (sampled_docs & s2 & _ & H).
    apply bind_Ok in H. destruct H as (idx & s3 & Hi & H).
    apply bind_Ok in H. destruct H as (docs' & s4 & Hd & H).
    apply ret_Ok in H. destruct H as [-> _].
    exists idx, sampled_docs, docs', s3, s4. split; [|split; [exact Hd | reflexivity]].
    unfold replace_indices in Hi. apply String.eqb_neq in Hr. rewrite Hr in Hi.
    apply bind_Ok in Hi. destruct Hi as (to_replace & s5 & _ & Hi).
    apply index_all_first_occurrence in Hi. apply Hi.
  - intros doc t1 t2 docs j1 docs1 j2 docs2 s H1 Hs1 Hne H2 Hs2.
    destruct (index_after_setitem _ _ _ _ _ _ H1 Hs1 Hne H2) as [Hlt Hn].
    split; [exact Hlt|]. split; [exact Hn|].
    cbn [backtranslate_into nth_error]. unfold bind.
    rewrite H1. cbn [or_raise ret]. rewrite Hs1. cbn [or_raise ret].
    rewrite H2. cbn [or_raise ret]. rewrite Hs2. reflexivity.
  - exists (Sample.perturber "deletion" "worst-case" 0),
      "a <doc-sep> a <doc-sep> b", f_0_5, (Some "a"), 2, "a <doc-sep> b".
    split; [cbn; discriminate|]. split; [vm_compute; reflexivity|].
    split; [reflexivity|]. vm_compute. reflexivity.
Qed.

Lemma lookup_by_text_witness :
  let self := Sample.perturber "backtranslation" "worst-case" 0 in
  (0 < 1)%nat
  /\ nth_error ["a"; "a"; "b"] 1 = Some "a"
  /\ backtranslate_into false ["a"; "a"] 0 [["a (bt)"]; ["a (bt)"]] ["a"; "a"; "b"]
       (fresh self)
     = (Ok ["a (bt)"; "a (bt)"; "b"], fresh self).
Proof.
  intros self.
  destruct (lookup_by_text Sample.env self) as (_ & _ & H & _).
  - cbn. discriminate.
  - apply (H "a" ["a (bt)"] ["a (bt)"] ["a"; "a"; "b"] 0%nat ["a (bt)"; "a"; "b"]
             1%nat ["a (bt)"; "a (bt)"; "b"] (fresh self)).
    + reflexivity.
    + reflexivity.
    + cbn. discriminate.
    + reflexivity.
    + reflexivity.
Defined.

(** ** The number of documents to perturb *)

(** [math.ceil] returns the least integer that is not below the value
    [v * 2^e] of its argument. *)
Lemma SF_ceil_is_ceiling (s : bool) (m : positive) (e : Z) (k : Z) :
  SF_ceil (S754_finite s m e) = Some k ->
  let v := if s then Zneg m else Zpos m in
  match e with
  | Zneg p => (k - 1) * Z.pow_pos 2 p < v <= k * Z.pow_pos 2 p
  | _ => k = v * 2 ^ e
  end.
Proof.
  intros H v. cbn [SF_ceil] in H. fold v in H. inversion H as [Hk]. clear H.
  destruct e as [|p|p]; try reflexivity.
  assert (Hpos : 0 < Z.pow_pos 2 p)
    by (rewrite Z.pow_pos_fold; apply Z.pow_pos_nonneg; lia).
  pose proof (Z.div_mod (- v) (Z.pow_pos 2 p) ltac:(lia)) as Hdm.
  pose proof (Z.mod_pos_bound (- v) (Z.pow_pos 2 p) Hpos) as Hb.
  nia.
Qed.

(** The product is rounded to binary64 before the ceiling is taken: the
    float next above one third, times 3, is 1.0 in binary64. *)
Example ceil_mul_rounds_product :
  ceil_mul 0x1.5555555555556p-2%float 3 = Some 1.
Proof. vm_compute. reflexivity. Qed.

Section Counting.

Context {env : Env}.
Variable self : Perturber env.

(** What [random.sample] and [torch.topk] promise: [k] items. *)
Hypothesis rng_sample_length :
  forall (A : Type) (g : Rng env) (population : list A) (k : Z) r g',
    rng_sample env A g population k = Some (r, g') -> Z.of_nat (List.length r) = k.
Hypothesis topk_length :
  forall (scores : list (Score env)) (k : Z) (largest : bool) indices,
    topk env scores k largest = Some indices -> Z.of_nat (List.length indices) = k.
(** What [util.get_num_docs] is: the number of documents. *)
Hypothesis get_num_docs_length :
  forall example : string,
    get_num_docs env example (_doc_sep_token env self)
    = List.length (split_docs env example (_doc_sep_token env self)).

Lemma sample_length {A : Type} (population : list A) (k : Z) s r s' :
  sample (env:=env) population k s = (Ok r, s') -> Z.of_nat (List.length r) = k.
Proof.
  unfold sample. intros H.
  destruct (rng_sample env A (self_rng env s) population k) as [[l g]|] eqn:E;
    [|discriminate H].
  inversion H; subst. eapply rng_sample_length. exact E.
Qed.

Lemma select_docs_length (documents : list string) (k : Z)
  (query target : option string) (largest : bool) s r s' :
  _select_docs self documents k query target largest s = (Ok r, s') ->
  Z.of_nat (List.length r) = k.
Proof.
  intros H. destruct (String.eqb (_strategy env self) "random") eqn:E.
  - unfold _select_docs in H. rewrite E in H. cbn [negb andb] in H.
    apply bind_Ok in H. destruct H as ([] & s1 & _ & H).
    destruct (Z.of_nat (List.length (candidates self documents query)) <? k)%Z;
      [discriminate H|].
    eapply sample_length. exact H.
  - apply String.eqb_neq in E.
    apply (select_docs_similar self) in H; [|exact E].
    destruct H as (_ & (scores & indices & Ht & Hlen) & _).
    rewrite Hlen. eapply topk_length. exact Ht.
Qed.

Lemma num_to_perturb_Ok (perturbed_frac : float) (num_docs : nat) s k s' :
  num_to_perturb (env:=env) perturbed_frac num_docs s = (Ok k, s') ->
  ceil_mul perturbed_frac num_docs = Some k /\ s' = s.
Proof. unfold num_to_perturb. apply or_raise_Ok. Qed.


Lemma to_delete_length (example : string) (k : Z) (target : option string) s r s' :
  to_delete self example k target s = (Ok r, s') -> Z.of_nat (List.length r) = k.
Proof.
  unfold to_delete. intros H.
  destruct (String.eqb (_strategy env self) "random").
  - eapply sample_length. exact H.
  - apply bind_Ok in H. destruct H as (sampled & s1 & Hs & H).
    apply index_all_first_occurrence in H. destruct H as (_ & Hlen & _).
    rewrite Hlen. eapply select_docs_length. exact Hs.
Qed.

Lemma replace_indices_length (example : string) (k : Z) (target : option string)
  s r s' :
  replace_indices self example k target s = (Ok r, s') -> Z.of_nat (List.length r) = k.
Proof.
  unfold replace_indices. intros H.
  destruct (String.eqb (_strategy env self) "random").
  - eapply sample_length. exact H.
  - apply bind_Ok in H. destruct H as (sampled & s1 & Hs & H).
    apply index_all_first_occurrence in H. destruct H as (_ & Hlen & _).
    rewrite Hlen. eapply select_docs_length. exact Hs.
Qed.


End Counting.

(** The concrete collaborators keep these promises. *)

Lemma Sample_remove_nth_length {A : Type} (j : nat) (l : list A) :
  (j < List.length l)%nat ->
  List.length (Sample.remove_nth j l) = (List.length l - 1)%nat.
Proof.
  revert j. induction l as [|x l IH]; intros j Hj; cbn in Hj; [lia|].
  destruct j as [|j]; cbn [Sample.remove_nth List.length].
  - lia.
  - rewrite IH by lia. lia.
Qed.

Lemma Sample_draw_length {A : Type} (k : nat) :
  forall (g : Z) (pool : list A),
    (k <= List.length pool)%nat -> List.length (fst (Sample.draw g pool k)) = k.
Proof.
  induction k as [|k IH]; intros g pool Hk; [reflexivity|].
  cbn [Sample.draw].
  set (g1 := Sample.next g).
  assert (Hj : (Sample.randbelow g1 (List.length pool) < List.length pool)%nat).
  { unfold Sample.randbelow.
    pose proof (Z.mod_pos_bound (g1 / 2 ^ 33) (Z.of_nat (List.length pool))
                  ltac:(lia)) as Hb.
    lia. }
  destruct (nth_error pool (Sample.randbelow g1 (List.length pool))) as [x|] eqn:E.
  - specialize (IH g1 (Sample.remove_nth (Sample.randbelow g1 (List.length pool)) pool)).
    rewrite Sample_remove_nth_length in IH by exact Hj.
    destruct (Sample.draw g1
                (Sample.remove_nth (Sample.randbelow g1 (List.length pool)) pool) k)
      as [l g'].
    cbn [fst List.length] in *. rewrite IH by lia. reflexivity.
  - apply nth_error_None in E. lia.
Qed.

Lemma Sample_rng_sample_length (A : Type) (g : Z) (population : list A) (k : Z) r g' :
  Sample.rng_sample A g population k = Some (r, g') -> Z.of_nat (List.length r) = k.
Proof.
  unfold Sample.rng_sample. intros H.
  destruct (k <? 0)%Z eqn:E1; [discriminate H|].
  destruct (Z.of_nat (List.length population) <? k)%Z eqn:E2; [discriminate H|].
  cbn [orb] in H. apply Z.ltb_ge in E1, E2.
  pose proof (Sample_draw_length (Z.to_nat k) g population ltac:(lia)) as Hl.
  inversion H as [Hd]. rewrite Hd in Hl. cbn [fst] in Hl. lia.
Qed.

Lemma Sample_insert_by_length (largest : bool) (x : Z * nat) (l : list (Z * nat)) :
  List.length (Sample.insert_by largest x l) = S (List.length l).
Proof.
  induction l as [|y l IH]; [reflexivity|]. cbn [Sample.insert_by].
  destruct (if largest then _ else _); cbn [List.length]; [reflexivity|].
  rewrite IH. reflexivity.
Qed.

Lemma Sample_ranked_length (largest : bool) (scores : list Z) :
  List.length (Sample.ranked largest scores) = List.length scores.
Proof.
  unfold Sample.ranked. rewrite length_map.
  assert (H : forall l : list (Z * nat),
             List.length (fold_right (Sample.insert_by largest) [] l) = List.length l).
  { induction l as [|x l IH]; [reflexivity|]. cbn [fold_right].
    rewrite Sample_insert_by_length, IH. reflexivity. }
  rewrite H, length_combine, length_seq. lia.
Qed.

Lemma Sample_topk_length (scores : list Z) (k : Z) (largest : bool) indices :
  Sample.topk scores k largest = Some indices -> Z.of_nat (List.length indices) = k.
Proof.
  unfold Sample.topk. intros H.
  destruct (k <? 0)%Z eqn:E1; [discriminate H|].
  destruct (Z.of_nat (List.length scores) <? k)%Z eqn:E2; [discriminate H|].
  cbn [orb] in H. apply Z.ltb_ge in E1, E2.
  inversion H. rewrite length_firstn, Sample_ranked_length. lia.
Qed.

(** * Further properties of the methods *)

(** ** Lists *)

Lemma subseq_refl {A : Type} (l : list A) : subseq l l.
Proof. induction l; constructor; assumption. Qed.

Lemma subseq_nil_l {A : Type} (l : list A) : subseq [] l.
Proof. induction l; constructor; assumption. Qed.

Lemma subseq_incl {A : Type} (l1 l2 : list A) : subseq l1 l2 -> incl l1 l2.
Proof.
  induction 1 as [|x l1 l2 _ IH|x l1 l2 _ IH]; intros y Hy.
  - exact Hy.
  - right. apply IH. exact Hy.
  - destruct Hy as [<-|Hy]; [left; reflexivity | right; apply IH; exact Hy].
Qed.

Lemma mapM_length {env : Env} {A B : Type} (f : A -> M env B) :
  forall (l : list A) s r s',
    mapM f l s = (Ok r, s') -> List.length r = List.length l.
Proof.
  induction l as [|x l IH]; intros s r s' H.
  - cbn in H. inversion H. reflexivity.
  - cbn [mapM] in H.
    apply bind_Ok in H. destruct H as (y & s1 & _ & H).
    apply bind_Ok in H. destruct H as (ys & s2 & Hys & H).
    apply ret_Ok in H. destruct H as [-> _].
    cbn. f_equal. eapply IH. exact Hys.
Qed.

Lemma zip_longest_length {A B : Type} (a : list A) (b : list B) :
  List.length (Py.zip_longest a b) = Nat.max (List.length a) (List.length b).
Proof.
  revert b. induction a as [|x a IH]; intros [|y b]; cbn [Py.zip_longest List.length].
  - reflexivity.
  - rewrite length_map. reflexivity.
  - rewrite IH. cbn. lia.
  - rewrite IH. lia.
Qed.

Lemma fromkeys_from_In (seen l : list string) (x : string) :
  In x (Py.fromkeys_from seen l) <-> In x l /\ ~ In x seen.
Proof.
  revert seen. induction l as [|y l IH]; intros seen; cbn [Py.fromkeys_from].
  - cbn. tauto.
  - destruct (Py.contains seen y) eqn:E.
    + apply contains_In in E. rewrite IH. cbn. split.
      * intros [H1 H2]. auto.
      * intros [[<-|H1] H2]; [contradiction | auto].
    + apply contains_false in E. cbn [In]. rewrite IH. cbn [In]. split.
      * intros [<-|[H1 H2]]; [auto | split; [auto|]]. intros H. apply H2. right. exact H.
      * intros [[<-|H1] H2]; [left; reflexivity|].
        destruct (String.eqb_spec y x) as [->|Hne]; [left; reflexivity|].
        right. split; [exact H1|]. intros [Heq|H]; [contradiction | contradiction].
Qed.

Lemma fromkeys_from_NoDup (seen l : list string) : NoDup (Py.fromkeys_from seen l).
Proof.
  revert seen. induction l as [|y l IH]; intros seen; cbn [Py.fromkeys_from].
  - constructor.
  - destruct (Py.contains seen y); [apply IH|].
    constructor; [|apply IH].
    rewrite fromkeys_from_In. intros [_ H]. apply H. left. reflexivity.
Qed.

Lemma fromkeys_from_subseq (seen l : list string) : subseq (Py.fromkeys_from seen l) l.
Proof.
  revert seen. induction l as [|y l IH]; intros seen; cbn [Py.fromkeys_from].
  - constructor.
  - destruct (Py.contains seen y); constructor; apply IH.
Qed.

(** ** The batch *)

(** X1.  A successful call returns one output per input, in the
    order of [inputs]: the list it returns is as long as [inputs]. *)
Theorem call_returns_one_output_per_input (env : Env) (self : Perturber env)
  (inputs : list string) (perturbed_frac : option float)
  (targets documents : option (list string)) (s : state env)
  (outputs : list string) (s' : state env) :
  call self inputs perturbed_frac targets documents s = (Ok outputs, s') ->
  List.length outputs = List.length inputs.
Proof.
  intros H. unfold call in H.
  apply bind_Ok in H. destruct H as ([] & s1 & Ht & H).
  assert (Hlen : (List.length (match targets with Some t => t | None => [] end)
                  <= List.length inputs)%nat).
  { destruct targets as [t|]; [|cbn; lia].
    destruct (List.length inputs =? List.length t)%nat eqn:E; cbn in Ht;
      [|discriminate Ht].
    apply Nat.eqb_eq in E. lia. }
  destruct (negb (String.eqb (_perturbation env self) "sorting") && Py.falsey perturbed_frac).
  - apply bind_Ok in H. destruct H as ([] & s2 & _ & H).
    apply ret_Ok in H. destruct H as [-> _]. reflexivity.
  - apply bind_Ok in H. destruct H as ([] & s2 & _ & H).
    apply mapM_length in H. rewrite H, zip_longest_length. lia.
Qed.

Lemma call_returns_one_output_per_input_witness :
  let self := Sample.perturber "deletion" "random" 0 in
  List.length ["B"; "D"] = List.length ["A <doc-sep> B <doc-sep> C"; "D <doc-sep> E"].
Proof.
  intros self.
  apply (call_returns_one_output_per_input Sample.env self
           ["A <doc-sep> B <doc-sep> C"; "D <doc-sep> E"] (Some f_0_5)
           (Some ["x"; "y"]) None (fresh self) ["B"; "D"]
           (Build_state Sample.env 11166244414315200793 [])).
  reflexivity.
Defined.

(** ** Selection *)

Section Drawn.

Context {env : Env}.
Variable self : Perturber env.

(** What [random.sample] promises besides the count: the items come
    from the population. *)
Hypothesis rng_sample_incl :
  forall (A : Type) (g : Rng env) (population : list A) (k : Z) r g',
    rng_sample env A g population k = Some (r, g') -> incl r population.

Lemma sample_incl {A : Type} (population : list A) (k : Z) s r s' :
  sample (env:=env) population k s = (Ok r, s') -> incl r population.
Proof.
  unfold sample. intros H.
  destruct (rng_sample env A (self_rng env s) population k) as [[l g]|] eqn:E;
    [|discriminate H].
  inversion H; subst. eapply rng_sample_incl. exact E.
Qed.

Lemma select_docs_In (documents : list string) (k : Z)
  (query target : option string) (largest : bool) s r s' :
  _select_docs self documents k query target largest s = (Ok r, s') ->
  Forall (fun doc => In doc (candidates self documents query)) r.
Proof.
  intros H. destruct (String.eqb (_strategy env self) "random") eqn:E.
  - unfold _select_docs in H. rewrite E in H. cbn [negb andb] in H.
    apply bind_Ok in H. destruct H as ([] & s1 & _ & H).
    destruct (Z.of_nat (List.length (candidates self documents query)) <? k)%Z;
      [discriminate H|].
    apply Forall_forall. intros doc Hdoc.
    eapply sample_incl; eassumption.
  - apply String.eqb_neq in E.
    apply (select_docs_similar self) in H; [|exact E]. apply H.
Qed.

End Drawn.

Lemma candidates_pool {env : Env} (self : Perturber env) (documents : list string)
  (query : option string) (doc : string) :
  In doc (candidates self documents query) ->
  (exists example,
      In example documents /\ In doc (split_docs env example (_doc_sep_token env self)))
  /\ (forall q, query = Some q -> ~ In doc (split_docs env q (_doc_sep_token env self))).
Proof.
  destruct query as [q|]; intros H.
  - apply candidates_query in H. destruct H as [H1 H2].
    split; [exact H1|]. intros q' Hq. inversion Hq; subst. exact H2.
  - split; [|discriminate]. unfold candidates in H. apply in_flat_map in H. exact H.
Qed.

Lemma Sample_remove_nth_incl {A : Type} (j : nat) (l : list A) :
  incl (Sample.remove_nth j l) l.
Proof.
  revert j. induction l as [|x l IH]; intros j y Hy; [destruct j; exact Hy|].
  destruct j as [|j]; cbn in Hy.
  - right. exact Hy.
  - destruct Hy as [<-|Hy]; [left; reflexivity | right; eapply IH; exact Hy].
Qed.

Lemma Sample_draw_incl {A : Type} (k : nat) :
  forall (g : Z) (pool : list A), incl (fst (Sample.draw g pool k)) pool.
Proof.
  induction k as [|k IH]; intros g pool y Hy; [destruct Hy|].
  cbn [Sample.draw] in Hy.
  destruct (nth_error pool (Sample.randbelow (Sample.next g) (List.length pool)))
    as [x|] eqn:E; [|destruct Hy].
  specialize (IH (Sample.next g)
                (Sample.remove_nth (Sample.randbelow (Sample.next g) (List.length pool)) pool)).
  destruct (Sample.draw (Sample.next g)
              (Sample.remove_nth (Sample.randbelow (Sample.next g) (List.length pool)) pool) k)
    as [l g'].
  cbn [fst] in *. destruct Hy as [<-|Hy].
  - eapply nth_error_In. exact E.
  - eapply Sample_remove_nth_incl. apply IH. exact Hy.
Qed.

Lemma Sample_rng_sample_incl (A : Type) (g : Z) (population : list A) (k : Z) r g' :
  Sample.rng_sample A g population k = Some (r, g') -> incl r population.
Proof.
  unfold Sample.rng_sample. intros H.
  destruct ((k <? 0)%Z || (Z.of_nat (List.length population) <? k)%Z); [discriminate H|].
  inversion H as [Hd].
  pose proof (Sample_draw_incl (Z.to_nat k) g population) as Hi.
  rewrite Hd in Hi. exact Hi.
Qed.

(** X3.  Whatever the strategy, every document [_select_docs] returns
    is a document of one of the strings of the pool, and is no document
    of [query] ([random.sample] returns items of its population). *)
Theorem select_docs_returns_candidates (env : Env) (self : Perturber env)
  (documents : list string) (k : Z) (query target : option string)
  (largest : bool) (s : state env) (r : list string) (s' : state env) :
  (forall (A : Type) (g : Rng env) (population : list A) (k : Z) r g',
      rng_sample env A g population k = Some (r, g') -> incl r population) ->
  _select_docs self documents k query target largest s = (Ok r, s') ->
  forall doc, In doc r ->
    (exists example,
        In example documents
        /\ In doc (split_docs env example (_doc_sep_token env self)))
    /\ (forall q, query = Some q ->
                  ~ In doc (split_docs env q (_doc_sep_token env self))).
Proof.
  intros Hincl H doc Hdoc.
  apply (select_docs_In self Hincl) in H.
  rewrite Forall_forall in H. apply candidates_pool. apply H. exact Hdoc.
Qed.

Lemma select_docs_returns_candidates_witness :
  let self := Sample.perturber "addition" "random" 3 in
  (exists example,
      In example ["a <doc-sep> b"; "c <doc-sep> d"]
      /\ In "c" (split_docs Sample.env example "<doc-sep>"))
  /\ (forall q, Some "b <doc-sep> d" = Some q ->
                ~ In "c" (split_docs Sample.env q "<doc-sep>")).
Proof.
  intros self.
  apply (select_docs_returns_candidates Sample.env self
           ["a <doc-sep> b"; "c <doc-sep> d"] 2 (Some "b <doc-sep> d") None true
           (fresh self) ["c"; "a"] (Build_state Sample.env 5991960103029929709 [])).
  - exact Sample_rng_sample_incl.
  - reflexivity.
  - left. reflexivity.
Defined.

(** X4.  Under strategy ["random"], [target] and [largest] change
    nothing in what [_select_docs] returns or in how it advances the
    random source: a [target] only adds the warning that it is
    ignored. *)
Theorem select_docs_random_ignores_target (env : Env) (self : Perturber env)
  (documents : list string) (k : Z) (query target : option string)
  (largest largest' : bool) (s : state env) :
  _strategy env self = "random" ->
  let given := _select_docs self documents k query target largest s in
  let plain := _select_docs self documents k query None largest' s in
  fst given = fst plain
  /\ self_rng env (snd given) = self_rng env (snd plain)
  /\ warned env (snd plain) = warned env s
  /\ warned env (snd given)
     = (warned env s ++ if Py.is_not_None target then [TargetIgnored] else [])%list.
Proof.
  intros Hr given plain. subst given plain. unfold _select_docs.
  rewrite Hr. cbn [String.eqb Ascii.eqb Bool.eqb negb andb].
  unfold bind, when.
  destruct target as [t|]; cbn [Py.is_not_None warn ret];
    destruct (Z.of_nat (List.length (candidates self documents query)) <? k)%Z;
    cbn [raise fst snd self_rng warned]; rewrite ?app_nil_r;
    try (repeat split; reflexivity);
    unfold sample; cbn [self_rng warned];
    destruct (rng_sample env string (self_rng env s) (candidates self documents query) k)
      as [[l g]|]; cbn [fst snd self_rng warned]; rewrite ?app_nil_r;
    repeat split; reflexivity.
Qed.

Lemma select_docs_random_ignores_target_witness :
  let self := Sample.perturber "addition" "random" 3 in
  let given := _select_docs self ["a <doc-sep> b"; "c <doc-sep> d"] 2
                 (Some "b <doc-sep> d") (Some "a") false (fresh self) in
  let plain := _select_docs self ["a <doc-sep> b"; "c <doc-sep> d"] 2
                 (Some "b <doc-sep> d") None true (fresh self) in
  fst given = fst plain
  /\ self_rng Sample.env (snd given) = self_rng Sample.env (snd plain)
  /\ warned Sample.env (snd plain) = warned Sample.env (fresh self)
  /\ warned Sample.env (snd given)
     = (warned Sample.env (fresh self) ++ [TargetIgnored])%list.
Proof.
  intros self.
  apply (select_docs_random_ignores_target Sample.env self
           ["a <doc-sep> b"; "c <doc-sep> d"] 2 (Some "b <doc-sep> d") (Some "a")
           false true (fresh self)).
  reflexivity.
Defined.

(** X5.  Under a strategy other than ["random"], the methods that pass
    no [query] to [_select_docs] need a non-empty [target]: without
    one, [sorting] always fails with the query-or-target error, and so
    do [duplication], [deletion] and [backtranslation] unless [k] is the
    number of documents.  Nothing is drawn and no warning is emitted. *)
Theorem similarity_needs_target (env : Env) (self : Perturber env)
  (target : option string) :
  _strategy env self <> "random" ->
  Py.truthy target = false ->
  (forall example perturbed_frac documents s,
      sorting self example perturbed_frac target documents s
      = (Raise InvalidArgumentError, s))
  /\ (forall example perturbed_frac documents s k,
        ceil_mul perturbed_frac (get_num_docs env example (_doc_sep_token env self))
        = Some k ->
        k <> Z.of_nat (get_num_docs env example (_doc_sep_token env self)) ->
        duplication self example perturbed_frac target documents s
        = (Raise InvalidArgumentError, s)
        /\ deletion self example perturbed_frac target documents s
           = (Raise InvalidArgumentError, s)
        /\ backtranslation self example perturbed_frac target documents s
           = (Raise InvalidArgumentError, s)).
Proof.
  intros Hr Ht. apply String.eqb_neq in Hr. split.
  - intros example perturbed_frac documents s.
    unfold sorting, _select_docs, bind. rewrite Hr, Ht. reflexivity.
  - intros example perturbed_frac documents s k Hk Hne.
    apply Z.eqb_neq in Hne.
    unfold duplication, repeaters, deletion, to_delete, backtranslation,
      num_to_perturb, _select_docs, bind.
    rewrite Hk. cbn [or_raise ret]. rewrite Hne, Hr, Ht.
    repeat split; reflexivity.
Qed.

Lemma similarity_needs_target_witness :
  let self := Sample.perturber "sorting" "best-case" 0 in
  sorting self "A <doc-sep> B" None (Some "") None (fresh self)
  = (Raise InvalidArgumentError, fresh self).
Proof.
  intros self.
  destruct (similarity_needs_target Sample.env self (Some "")) as [H _].
  - cbn. discriminate.
  - reflexivity.
  - apply H.
Defined.

(** ** What the methods keep of the example *)

Lemma delete_at_subseq (input_docs : list string) (to_delete : list nat) :
  subseq (delete_at input_docs to_delete) input_docs.
Proof.
  unfold delete_at, Py.enumerate. generalize O.
  induction input_docs as [|doc l IH]; intros i; cbn [Py.enumerate_from filter map].
  - constructor.
  - destruct (negb (existsb (Nat.eqb (fst (i, doc))) to_delete)); cbn [map snd];
      constructor; apply IH.
Qed.

Lemma filter_enumerate_from_length (to_delete : list nat) (l : list string) :
  forall i : nat,
    List.length (filter (fun jd : nat * string =>
                           negb (existsb (Nat.eqb (fst jd)) to_delete))
                   (Py.enumerate_from i l))
    = List.length (filter (fun j => negb (existsb (Nat.eqb j) to_delete))
                     (seq i (List.length l))).
Proof.
  induction l as [|doc l IH]; intros i; cbn [Py.enumerate_from filter seq List.length].
  - reflexivity.
  - cbn [fst]. destruct (existsb (Nat.eqb i) to_delete); cbn [negb List.length];
      rewrite IH; reflexivity.
Qed.

(** The documents left are those at the positions that are not in
    [to_delete]. *)
Lemma delete_at_length (input_docs : list string) (to_delete : list nat) :
  (List.length (delete_at input_docs to_delete)
   + List.length (filter (fun j => existsb (Nat.eqb j) to_delete)
                    (seq O (List.length input_docs)))
   = List.length input_docs)%nat.
Proof.
  unfold delete_at, Py.enumerate. rewrite length_map, filter_enumerate_from_length.
  pose proof (filter_length (fun j => existsb (Nat.eqb j) to_delete)
                (seq O (List.length input_docs))) as H.
  rewrite length_seq in H. lia.
Qed.

Lemma existsb_eqb_In (j : nat) (l : list nat) :
  existsb (Nat.eqb j) l = true <-> In j l.
Proof.
  rewrite existsb_exists. split.
  - intros (x & Hx & E). apply Nat.eqb_eq in E. subst. exact Hx.
  - intros H. exists j. split; [exact H | apply Nat.eqb_refl].
Qed.

(** At most [length to_delete] documents go. *)
Lemma delete_at_length_ge (input_docs : list string) (to_delete : list nat) :
  (List.length input_docs <= List.length (delete_at input_docs to_delete)
                             + List.length to_delete)%nat.
Proof.
  pose proof (delete_at_length input_docs to_delete) as H.
  set (hit := filter (fun j => existsb (Nat.eqb j) to_delete)
                (seq O (List.length input_docs))) in *.
  assert (Hle : (List.length hit <= List.length to_delete)%nat).
  { apply NoDup_incl_length.
    - apply NoDup_filter, seq_NoDup.
    - intros j Hj. apply filter_In in Hj. apply existsb_eqb_In. apply Hj. }
  lia.
Qed.

(** Exactly [length to_delete] documents go when the positions are
    distinct and within the list. *)
Lemma delete_at_length_exact (input_docs : list string) (to_delete : list nat) :
  NoDup to_delete ->
  incl to_delete (seq O (List.length input_docs)) ->
  (List.length (delete_at input_docs to_delete) + List.length to_delete
   = List.length input_docs)%nat.
Proof.
  intros Hnd Hincl.
  pose proof (delete_at_length input_docs to_delete) as H.
  set (hit := filter (fun j => existsb (Nat.eqb j) to_delete)
                (seq O (List.length input_docs))) in *.
  assert (Hp : Permutation hit to_delete).
  { apply NoDup_Permutation.
    - apply NoDup_filter, seq_NoDup.
    - exact Hnd.
    - intros j. unfold hit. rewrite filter_In, existsb_eqb_In. split.
      + intros [_ Hj]. exact Hj.
      + intros Hj. split; [apply Hincl; exact Hj | exact Hj]. }
  apply Permutation_length in Hp. lia.
Qed.

Lemma replace_into_length {env : Env} :
  forall (pairs : list (nat * string)) (docs : list string) s docs' s',
    replace_into (env:=env) docs pairs s = (Ok docs', s') ->
    List.length docs' = List.length docs.
Proof.
  induction pairs as [|[i doc] pairs IH]; intros docs s docs' s' H.
  - cbn in H. inversion H. reflexivity.
  - cbn [replace_into] in H.
    apply bind_Ok in H. destruct H as (docs1 & s1 & H1 & H).
    apply or_raise_Ok in H1. destruct H1 as [H1 ->].
    apply IH in H. rewrite H. eapply setitem_length. exact H1.
Qed.

Lemma backtranslate_into_length {env : Env} (aliased : bool) (sampled_docs : list string) :
  forall (back_translated_docs : list (list string)) (i : nat) (docs : list string)
         s docs' s',
    backtranslate_into (env:=env) aliased sampled_docs i back_translated_docs docs s
    = (Ok docs', s') ->
    List.length docs' = List.length docs.
Proof.
  induction back_translated_docs as [|t rest IH]; intros i docs s docs' s' H.
  - cbn in H. inversion H. reflexivity.
  - cbn [backtranslate_into] in H.
    destruct (nth_error (if aliased then docs else sampled_docs) i) as [sampled|].
    + apply bind_Ok in H. destruct H as (j & s1 & _ & H).
      apply bind_Ok in H. destruct H as (docs1 & s2 & H1 & H).
      apply or_raise_Ok in H1. destruct H1 as [H1 ->].
      apply IH in H. rewrite H. eapply setitem_length. exact H1.
    + apply ret_Ok in H. destruct H as [-> _]. reflexivity.
Qed.

(** X6.  [deletion] only removes documents: what it returns is the
    join of documents of the example, in their original order. *)
Theorem deletion_keeps_order (env : Env) (self : Perturber env)
  (example : string) (perturbed_frac : float) (target : option string)
  (documents : option (list string)) (s : state env) (out : string) (s' : state env) :
  deletion self example perturbed_frac target documents s = (Ok out, s') ->
  exists kept,
    subseq kept (split_docs env example (_doc_sep_token env self))
    /\ out = join_docs self kept.
Proof.
  intros H. unfold deletion in H.
  apply bind_Ok in H. destruct H as (k & s1 & _ & H).
  destruct (k =? Z.of_nat (get_num_docs env example (_doc_sep_token env self)))%Z.
  - apply ret_Ok in H. destruct H as [-> _].
    exists []. split; [apply subseq_nil_l | reflexivity].
  - apply bind_Ok in H. destruct H as (d & s2 & _ & H).
    apply ret_Ok in H. destruct H as [-> _].
    eexists. split; [apply delete_at_subseq | reflexivity].
Qed.

Lemma deletion_keeps_order_witness :
  let self := Sample.perturber "deletion" "worst-case" 0 in
  exists kept,
    subseq kept (split_docs Sample.env "a <doc-sep> b <doc-sep> ab" "<doc-sep>")
    /\ "b" = join_docs self kept.
Proof.
  intros self.
  apply (deletion_keeps_order Sample.env self "a <doc-sep> b <doc-sep> ab" f_0_5
           (Some "a") None (fresh self) "b" (fresh self)).
  reflexivity.
Defined.

(** X7.  [replacement] and [backtranslation] keep the number of
    documents: what they return is the join of as many documents as
    the example has. *)
Theorem replacement_and_backtranslation_keep_count (env : Env) (self : Perturber env)
  (example : string) (perturbed_frac : float) (target : option string) :
  (forall documents s out s',
      replacement self example perturbed_frac documents target s = (Ok out, s') ->
      exists docs',
        out = join_docs self docs'
        /\ List.length docs'
           = List.length (split_docs env example (_doc_sep_token env self)))
  /\ (forall documents s out s',
      backtranslation self example perturbed_frac target documents s = (Ok out, s') ->
      exists docs',
        out = join_docs self docs'
        /\ List.length docs'
           = List.length (split_docs env example (_doc_sep_token env self))).
Proof.
  split; intros documents s out s' H.
  - unfold replacement in H.
    apply bind_Ok in H. destruct H as (k & s1 & _ & H).
    apply bind_Ok in H. destruct H as (sampled & s2 & _ & H).
    apply bind_Ok in H. destruct H as (idx & s3 & _ & H).
    apply bind_Ok in H. destruct H as (docs' & s4 & Hd & H).
    apply ret_Ok in H. destruct H as [-> _].
    exists docs'. split; [reflexivity|]. eapply replace_into_length. exact Hd.
  - unfold backtranslation in H.
    apply bind_Ok in H. destruct H as (k & s1 & _ & H).
    apply bind_Ok in H. destruct H as (sampled & s2 & _ & H).
    apply bind_Ok in H. destruct H as (aug & s3 & _ & H).
    apply bind_Ok in H. destruct H as (docs' & s4 & Hd & H).
    apply ret_Ok in H. destruct H as [-> _].
    exists docs'. split; [reflexivity|]. eapply backtranslate_into_length. exact Hd.
Qed.

Lemma candidates_of_example {env : Env} (self : Perturber env) (example : string) :
  candidates self [example] None = split_docs env example (_doc_sep_token env self).
Proof. unfold candidates. cbn [flat_map]. apply app_nil_r. Qed.

(** X8.  [duplication] keeps the documents of the example, in order,
    and appends only documents of the example (given that
    [random.sample] returns items of its population). *)
Theorem duplication_appends_own_documents (env : Env) (self : Perturber env)
  (example : string) (perturbed_frac : float) (target : option string)
  (documents : option (list string)) (s : state env) (out : string) (s' : state env) :
  (forall (A : Type) (g : Rng env) (population : list A) (k : Z) r g',
      rng_sample env A g population k = Some (r, g') -> incl r population) ->
  duplication self example perturbed_frac target documents s = (Ok out, s') ->
  exists repeaters,
    out = join_docs self (split_docs env example (_doc_sep_token env self) ++ repeaters)
    /\ incl repeaters (split_docs env example (_doc_sep_token env self)).
Proof.
  intros Hincl H. unfold duplication in H.
  apply bind_Ok in H. destruct H as (k & s1 & _ & H).
  apply bind_Ok in H. destruct H as (r & s2 & Hr & H).
  apply ret_Ok in H. destruct H as [-> _].
  exists r. split; [reflexivity|].
  unfold repeaters in Hr.
  destruct (k =? Z.of_nat (get_num_docs env example (_doc_sep_token env self)))%Z.
  - apply ret_Ok in Hr. destruct Hr as [-> _]. apply incl_refl.
  - destruct (String.eqb (_strategy env self) "random").
    + eapply (sample_incl Hincl). exact Hr.
    + apply (select_docs_In self Hincl) in Hr.
      rewrite candidates_of_example in Hr.
      intros doc Hdoc. rewrite Forall_forall in Hr. apply Hr. exact Hdoc.
Qed.

Lemma duplication_appends_own_documents_witness :
  let self := Sample.perturber "duplication" "random" 6 in
  exists repeaters,
    "A <doc-sep> B <doc-sep> C <doc-sep> C <doc-sep> A"
    = join_docs self
        (split_docs Sample.env "A <doc-sep> B <doc-sep> C" "<doc-sep>" ++ repeaters)
    /\ incl repeaters (split_docs Sample.env "A <doc-sep> B <doc-sep> C" "<doc-sep>").
Proof.
  intros self.
  apply (duplication_appends_own_documents Sample.env self
           "A <doc-sep> B <doc-sep> C" f_0_34 None None (fresh self)
           "A <doc-sep> B <doc-sep> C <doc-sep> C <doc-sep> A"
           (Build_state Sample.env 10107909202251382952 [])).
  - exact Sample_rng_sample_incl.
  - reflexivity.
Defined.

(** X9.  [addition] keeps the documents of the example, in order, and
    appends only documents of the pool that are not documents of the
    example (given that [random.sample] returns items of its
    population). *)
Theorem addition_appends_new_documents (env : Env) (self : Perturber env)
  (example : string) (perturbed_frac : float) (documents : list string)
  (target : option string) (s : state env) (out : string) (s' : state env) :
  (forall (A : Type) (g : Rng env) (population : list A) (k : Z) r g',
      rng_sample env A g population k = Some (r, g') -> incl r population) ->
  addition self example perturbed_frac documents target s = (Ok out, s') ->
  exists sampled_docs,
    out = join_docs self (split_docs env example (_doc_sep_token env self) ++ sampled_docs)
    /\ forall doc, In doc sampled_docs ->
         ~ In doc (split_docs env example (_doc_sep_token env self))
         /\ exists pool,
              In pool documents
              /\ In doc (split_docs env pool (_doc_sep_token env self)).
Proof.
  intros Hincl H. unfold addition in H.
  apply bind_Ok in H. destruct H as (k & s1 & _ & H).
  apply bind_Ok in H. destruct H as (r & s2 & Hr & H).
  apply ret_Ok in H. destruct H as [-> _].
  exists r. split; [reflexivity|].
  assert (Hc : Forall (fun doc => In doc (candidates self documents (Some example))) r).
  { destruct (String.eqb (_strategy env self) "random");
      eapply (select_docs_In self Hincl); exact Hr. }
  intros doc Hdoc. rewrite Forall_forall in Hc.
  destruct (candidates_query self documents example doc (Hc doc Hdoc)) as [Hp Hn].
  split; assumption.
Qed.

Lemma addition_appends_new_documents_witness :
  let self := Sample.perturber "addition" "best-case" 0 in
  exists sampled_docs,
    "a <doc-sep> b <doc-sep> ax"
    = join_docs self (split_docs Sample.env "a <doc-sep> b" "<doc-sep>" ++ sampled_docs)
    /\ forall doc, In doc sampled_docs ->
         ~ In doc (split_docs Sample.env "a <doc-sep> b" "<doc-sep>")
         /\ exists pool,
              In pool ["a <doc-sep> ax"; "b <doc-sep> c"]
              /\ In doc (split_docs Sample.env pool "<doc-sep>").
Proof.
  intros self.
  apply (addition_appends_new_documents Sample.env self "a <doc-sep> b" f_0_5
           ["a <doc-sep> ax"; "b <doc-sep> c"] (Some "a") (fresh self)
           "a <doc-sep> b <doc-sep> ax" (fresh self)).
  - exact Sample_rng_sample_incl.
  - reflexivity.
Defined.

(** ** How many documents [deletion] removes *)

Lemma Sample_remove_nth_NoDup {A : Type} (l : list A) :
  forall (j : nat) (x : A),
    NoDup l -> nth_error l j = Some x ->
    NoDup (Sample.remove_nth j l) /\ ~ In x (Sample.remove_nth j l).
Proof.
  induction l as [|y l IH]; intros j x Hnd Hj; [destruct j; discriminate Hj|].
  inversion Hnd as [|y' l' Hy Hl]; subst.
  destruct j as [|j]; cbn in Hj |- *.
  - inversion Hj; subst. split; assumption.
  - destruct (IH j x Hl Hj) as [Hnd' Hx]. split.
    + constructor; [|exact Hnd'].
      intros Hin. apply Hy. eapply Sample_remove_nth_incl. exact Hin.
    + intros [Heq|Hin]; [|contradiction].
      subst. apply Hy. eapply nth_error_In. exact Hj.
Qed.

Lemma Sample_draw_NoDup {A : Type} (k : nat) :
  forall (g : Z) (pool : list A), NoDup pool -> NoDup (fst (Sample.draw g pool k)).
Proof.
  induction k as [|k IH]; intros g pool Hnd; [constructor|].
  cbn [Sample.draw].
  destruct (nth_error pool (Sample.randbelow (Sample.next g) (List.length pool)))
    as [x|] eqn:E; [|constructor].
  destruct (Sample_remove_nth_NoDup pool _ x Hnd E) as [Hnd' Hx].
  pose proof (IH (Sample.next g) _ Hnd') as Hd.
  pose proof (Sample_draw_incl k (Sample.next g)
                (Sample.remove_nth (Sample.randbelow (Sample.next g) (List.length pool)) pool))
    as Hi.
  destruct (Sample.draw (Sample.next g)
              (Sample.remove_nth (Sample.randbelow (Sample.next g) (List.length pool)) pool) k)
    as [l g'].
  cbn [fst] in *. constructor; [|exact Hd].
  intros Hin. apply Hx. apply Hi. exact Hin.
Qed.

Lemma Sample_rng_sample_NoDup (A : Type) (g : Z) (population : list A) (k : Z) r g' :
  Sample.rng_sample A g population k = Some (r, g') -> NoDup population -> NoDup r.
Proof.
  unfold Sample.rng_sample. intros H Hnd.
  destruct ((k <? 0)%Z || (Z.of_nat (List.length population) <? k)%Z); [discriminate H|].
  inversion H as [Hd].
  pose proof (Sample_draw_NoDup (Z.to_nat k) g population Hnd) as Hi.
  rewrite Hd in Hi. exact Hi.
Qed.

(** X10.  Under strategy ["random"], [deletion] removes exactly [k]
    documents and keeps the others in order ([random.sample] returns
    [k] distinct items of its population, and [get_num_docs] is the
    number of documents). *)
Theorem deletion_random_removes_k (env : Env) (self : Perturber env)
  (example : string) (perturbed_frac : float) (target : option string)
  (documents : option (list string)) (s : state env) (out : string) (s' : state env) :
  let sep := _doc_sep_token env self in
  (forall (A : Type) (g : Rng env) (population : list A) (k : Z) r g',
      rng_sample env A g population k = Some (r, g') ->
      Z.of_nat (List.length r) = k
      /\ incl r population
      /\ (NoDup population -> NoDup r)) ->
  get_num_docs env example sep = List.length (split_docs env example sep) ->
  _strategy env self = "random" ->
  deletion self example perturbed_frac target documents s = (Ok out, s') ->
  exists k kept,
    ceil_mul perturbed_frac (get_num_docs env example sep) = Some k
    /\ subseq kept (split_docs env example sep)
    /\ out = join_docs self kept
    /\ Z.of_nat (List.length kept) = Z.of_nat (get_num_docs env example sep) - k.
Proof.
  intros sep Hsample Hnum Hr H. subst sep. unfold deletion in H.
  apply bind_Ok in H. destruct H as (k & s1 & Hk & H).
  apply num_to_perturb_Ok in Hk. destruct Hk as [Hk ->].
  exists k.
  destruct (k =? Z.of_nat (get_num_docs env example (_doc_sep_token env self)))%Z eqn:E.
  - apply ret_Ok in H. destruct H as [-> _]. apply Z.eqb_eq in E.
    exists []. split; [exact Hk|]. split; [apply subseq_nil_l|].
    split; [reflexivity|]. cbn. lia.
  - apply bind_Ok in H. destruct H as (d & s2 & Hd & H).
    apply ret_Ok in H. destruct H as [-> _].
    eexists. split; [exact Hk|]. split; [apply delete_at_subseq|].
    split; [reflexivity|].
    unfold to_delete in Hd. rewrite Hr in Hd.
    cbn [String.eqb Ascii.eqb Bool.eqb] in Hd. unfold sample in Hd.
    destruct (rng_sample env nat (self_rng env s)
                (Py.range (get_num_docs env example (_doc_sep_token env self))) k)
      as [[l g]|] eqn:Es; [|discriminate Hd].
    inversion Hd; subst l. clear Hd.
    destruct (Hsample _ _ _ _ _ _ Es) as (Hlen & Hincl & Hnd).
    unfold Py.range in Hincl, Hnd. rewrite Hnum in Hincl, Hnd.
    pose proof (delete_at_length_exact
                  (split_docs env example (_doc_sep_token env self)) d
                  (Hnd (seq_NoDup _ _)) Hincl) as Hex.
    rewrite Hnum. lia.
Qed.

Lemma deletion_random_removes_k_witness :
  let self := Sample.perturber "deletion" "random" 0 in
  let example := "A <doc-sep> B <doc-sep> C" in
  exists k kept,
    ceil_mul f_0_34 (get_num_docs Sample.env example "<doc-sep>") = Some k
    /\ subseq kept (split_docs Sample.env example "<doc-sep>")
    /\ "B" = join_docs self kept
    /\ Z.of_nat (List.length kept)
       = Z.of_nat (get_num_docs Sample.env example "<doc-sep>") - k.
Proof.
  intros self example.
  apply (deletion_random_removes_k Sample.env self example f_0_34 None None
           (fresh self) "B" (Build_state Sample.env 1876011003808476466 [])).
  - intros A g population k r g' H. split; [|split].
    + eapply Sample_rng_sample_length. exact H.
    + eapply Sample_rng_sample_incl. exact H.
    + eapply Sample_rng_sample_NoDup. exact H.
  - vm_compute. reflexivity.
  - reflexivity.
  - reflexivity.
Defined.

(** X11.  Whatever the strategy, [deletion] removes at most [k]
    documents ([random.sample] and [torch.topk] return [k] items, and
    [get_num_docs] is the number of documents). *)
Theorem deletion_removes_at_most_k (env : Env) (self : Perturber env)
  (example : string) (perturbed_frac : float) (target : option string)
  (documents : option (list string)) (s : state env) (out : string) (s' : state env) :
  let sep := _doc_sep_token env self in
  (forall (A : Type) (g : Rng env) (population : list A) (k : Z) r g',
      rng_sample env A g population k = Some (r, g') -> Z.of_nat (List.length r) = k) ->
  (forall (scores : list (Score env)) (k : Z) (largest : bool) indices,
      topk env scores k largest = Some indices -> Z.of_nat (List.length indices) = k) ->
  get_num_docs env example sep = List.length (split_docs env example sep) ->
  deletion self example perturbed_frac target documents s = (Ok out, s') ->
  exists k kept,
    ceil_mul perturbed_frac (get_num_docs env example sep) = Some k
    /\ subseq kept (split_docs env example sep)
    /\ out = join_docs self kept
    /\ Z.of_nat (get_num_docs env example sep) - k <= Z.of_nat (List.length kept).
Proof.
  intros sep Hsample Htopk Hnum H. subst sep. unfold deletion in H.
  apply bind_Ok in H. destruct H as (k & s1 & Hk & H).
  apply num_to_perturb_Ok in Hk. destruct Hk as [Hk ->].
  exists k.
  destruct (k =? Z.of_nat (get_num_docs env example (_doc_sep_token env self)))%Z eqn:E.
  - apply ret_Ok in H. destruct H as [-> _]. apply Z.eqb_eq in E.
    exists []. split; [exact Hk|]. split; [apply subseq_nil_l|].
    split; [reflexivity|]. cbn. lia.
  - apply bind_Ok in H. destruct H as (d & s2 & Hd & H).
    apply ret_Ok in H. destruct H as [-> _].
    eexists. split; [exact Hk|]. split; [apply delete_at_subseq|].
    split; [reflexivity|].
    apply (to_delete_length self Hsample Htopk) in Hd.
    pose proof (delete_at_length_ge
                  (split_docs env example (_doc_sep_token env self)) d) as Hge.
    rewrite Hnum. lia.
Qed.

Lemma deletion_removes_at_most_k_witness :
  let self := Sample.perturber "deletion" "worst-case" 0 in
  let example := "a <doc-sep> a <doc-sep> b" in
  exists k kept,
    ceil_mul f_0_5 (get_num_docs Sample.env example "<doc-sep>") = Some k
    /\ subseq kept (split_docs Sample.env example "<doc-sep>")
    /\ "a <doc-sep> b" = join_docs self kept
    /\ Z.of_nat (get_num_docs Sample.env example "<doc-sep>") - k
       <= Z.of_nat (List.length kept).
Proof.
  intros self example.
  apply (deletion_removes_at_most_k Sample.env self example f_0_5 (Some "a") None
           (fresh self) "a <doc-sep> b" (fresh self)).
  - exact Sample_rng_sample_length.
  - exact Sample_topk_length.
  - vm_compute. reflexivity.
  - reflexivity.
Defined.

(** ** Reordering *)

Lemma map_nth_seq {A : Type} (d : A) (l : list A) :
  map (fun i => nth i l d) (seq O (List.length l)) = l.
Proof.
  induction l as [|x l IH]; [reflexivity|].
  cbn [List.length seq map nth]. f_equal.
  rewrite <- seq_shift, map_map. exact IH.
Qed.

Lemma Forall2_nth_error_map (l : list string) (indices : list nat) (r : list string) :
  Forall2 (fun i doc => nth_error l i = Some doc) indices r ->
  r = map (fun i => nth i l "") indices
  /\ incl indices (seq O (List.length l)).
Proof.
  induction 1 as [|i doc idx r Hi HF [IH1 IH2]].
  - split; [reflexivity | intros j []].
  - split.
    + cbn [map]. f_equal; [symmetry; apply nth_error_nth; exact Hi | exact IH1].
    + intros j [<-|Hj]; [|apply IH2; exact Hj].
      apply in_seq. split; [lia|]. cbn. apply nth_error_Some. rewrite Hi. discriminate.
Qed.

(** Taking every position once gives the documents back, reordered. *)
Lemma take_all_Permutation (l : list string) (indices : list nat) (r : list string) :
  Forall2 (fun i doc => nth_error l i = Some doc) indices r ->
  NoDup indices ->
  List.length indices = List.length l ->
  Permutation r l.
Proof.
  intros HF Hnd Hlen.
  destruct (Forall2_nth_error_map l indices r HF) as [Hr Hincl].
  assert (Hp : Permutation indices (seq O (List.length l))).
  { apply NoDup_Permutation_bis; [exact Hnd | rewrite length_seq; lia | exact Hincl]. }
  rewrite Hr.
  eapply Permutation_trans; [apply Permutation_map; exact Hp|].
  rewrite map_nth_seq. apply Permutation_refl.
Qed.

(** Under a strategy other than ["random"], [_select_docs] returns the
    candidates at the positions [topk] gives. *)
Lemma select_docs_by_indices {env : Env} (self : Perturber env)
  (documents : list string) (k : Z) (query target : option string)
  (largest : bool) s r s' :
  _strategy env self <> "random" ->
  _select_docs self documents k query target largest s = (Ok r, s') ->
  exists scores indices,
    topk env scores k largest = Some indices
    /\ Forall2 (fun i doc => nth_error (candidates self documents query) i = Some doc)
         indices r.
Proof.
  intros Hr H. apply String.eqb_neq in Hr. unfold _select_docs in H.
  rewrite Hr in H. cbn [negb andb when] in H.
  destruct (negb (Py.truthy query) && negb (Py.truthy target)); [discriminate H|].
  apply bind_Ok in H. destruct H as ([] & s1 & _ & H).
  destruct (Z.of_nat (List.length (candidates self documents query)) <? k)%Z;
    [discriminate H|].
  apply bind_Ok in H. destruct H as (e & s2 & _ & H).
  apply bind_Ok in H. destruct H as (scores & s3 & _ & H).
  apply bind_Ok in H. destruct H as (indices & s4 & Hi & H).
  apply or_raise_Ok in Hi. destruct Hi as [Hi _].
  unfold take_indices in H. apply mapM_or_raise_Ok in H. destruct H as [H _].
  exists scores, indices. split; assumption.
Qed.

(** X12.  [sorting] returns the documents of the example, reordered:
    the join of a permutation of them ([random.shuffle] permutes its
    list, and [torch.topk] returns [k] distinct positions). *)
Theorem sorting_permutes_documents (env : Env) (self : Perturber env)
  (example : string) (perturbed_frac : option float) (target : option string)
  (documents : option (list string)) (s : state env) (out : string) (s' : state env) :
  (forall (A : Type) (g : Rng env) (l : list A),
      Permutation (fst (rng_shuffle env A g l)) l) ->
  (forall (scores : list (Score env)) (k : Z) (largest : bool) indices,
      topk env scores k largest = Some indices ->
      NoDup indices /\ Z.of_nat (List.length indices) = k) ->
  sorting self example perturbed_frac target documents s = (Ok out, s') ->
  exists docs',
    out = join_docs self docs'
    /\ Permutation docs' (split_docs env example (_doc_sep_token env self)).
Proof.
  intros Hshuffle Htopk H. unfold sorting in H.
  apply bind_Ok in H. destruct H as (docs' & s1 & Hd & H).
  apply ret_Ok in H. destruct H as [-> _].
  exists docs'. split; [reflexivity|].
  destruct (String.eqb (_strategy env self) "random") eqn:E.
  - unfold shuffle in Hd.
    pose proof (Hshuffle string (self_rng env s)
                  (split_docs env example (_doc_sep_token env self))) as Hp.
    destruct (rng_shuffle env string (self_rng env s)
                (split_docs env example (_doc_sep_token env self))) as [l g].
    inversion Hd; subst. exact Hp.
  - apply String.eqb_neq in E.
    apply (select_docs_by_indices self) in Hd; [|exact E].
    destruct Hd as (scores & indices & Ht & HF).
    rewrite candidates_of_example in HF.
    destruct (Htopk _ _ _ _ Ht) as [Hnd Hlen].
    eapply take_all_Permutation; [exact HF | exact Hnd | lia].
Qed.

Lemma Sample_remove_nth_Permutation {A : Type} (l : list A) :
  forall (j : nat) (x : A),
    nth_error l j = Some x -> Permutation (x :: Sample.remove_nth j l) l.
Proof.
  induction l as [|y l IH]; intros j x Hj; [destruct j; discriminate Hj|].
  destruct j as [|j]; cbn in Hj |- *.
  - inversion Hj; subst. apply Permutation_refl.
  - eapply Permutation_trans; [apply perm_swap|].
    apply perm_skip. apply IH. exact Hj.
Qed.

Lemma Sample_draw_all_Permutation {A : Type} (k : nat) :
  forall (g : Z) (pool : list A),
    List.length pool = k -> Permutation (fst (Sample.draw g pool k)) pool.
Proof.
  induction k as [|k IH]; intros g pool Hk.
  - destruct pool; [apply Permutation_refl | discriminate Hk].
  - cbn [Sample.draw].
    set (g1 := Sample.next g).
    assert (Hj : (Sample.randbelow g1 (List.length pool) < List.length pool)%nat).
    { unfold Sample.randbelow.
      pose proof (Z.mod_pos_bound (g1 / 2 ^ 33) (Z.of_nat (List.length pool))
                    ltac:(lia)) as Hb.
      lia. }
    destruct (nth_error pool (Sample.randbelow g1 (List.length pool))) as [x|] eqn:E.
    + pose proof (Sample_remove_nth_length _ pool Hj) as Hl.
      specialize (IH g1 (Sample.remove_nth (Sample.randbelow g1 (List.length pool)) pool)
                    ltac:(lia)).
      destruct (Sample.draw g1
                  (Sample.remove_nth (Sample.randbelow g1 (List.length pool)) pool) k)
        as [l g'].
      cbn [fst] in *.
      eapply Permutation_trans; [apply perm_skip; exact IH|].
      apply Sample_remove_nth_Permutation. exact E.
    + apply nth_error_None in E. lia.
Qed.

Lemma Sample_rng_shuffle_Permutation (A : Type) (g : Z) (l : list A) :
  Permutation (fst (Sample.rng_shuffle A g l)) l.
Proof. unfold Sample.rng_shuffle. apply Sample_draw_all_Permutation. reflexivity. Qed.

Lemma Sample_insert_by_Permutation (largest : bool) (x : Z * nat) (l : list (Z * nat)) :
  Permutation (Sample.insert_by largest x l) (x :: l).
Proof.
  induction l as [|y l IH]; [apply Permutation_refl|]. cbn [Sample.insert_by].
  destruct (if largest then _ else _); [apply Permutation_refl|].
  eapply Permutation_trans; [apply perm_skip; exact IH | apply perm_swap].
Qed.

Lemma Sample_ranked_Permutation (largest : bool) (scores : list Z) :
  Permutation (Sample.ranked largest scores) (seq O (List.length scores)).
Proof.
  unfold Sample.ranked.
  assert (H : forall l : list (Z * nat),
             Permutation (fold_right (Sample.insert_by largest) [] l) l).
  { induction l as [|x l IH]; [apply Permutation_refl|]. cbn [fold_right].
    eapply Permutation_trans; [apply Sample_insert_by_Permutation|].
    apply perm_skip. exact IH. }
  eapply Permutation_trans; [apply Permutation_map; apply H|].
  assert (Hs : forall (l : list Z) (i : nat),
             map snd (combine l (seq i (List.length l))) = seq i (List.length l)).
  { induction l as [|z l IH]; intros i; [reflexivity|].
    cbn [List.length seq combine map snd]. f_equal. apply IH. }
  rewrite Hs. apply Permutation_refl.
Qed.

Lemma Sample_topk_NoDup (scores : list Z) (k : Z) (largest : bool) indices :
  Sample.topk scores k largest = Some indices ->
  NoDup indices /\ Z.of_nat (List.length indices) = k.
Proof.
  intros H. split; [|eapply Sample_topk_length; exact H].
  unfold Sample.topk in H.
  destruct ((k <? 0)%Z || (Z.of_nat (List.length scores) <? k)%Z); [discriminate H|].
  inversion H.
  assert (Hnd : NoDup (Sample.ranked largest scores)).
  { eapply Permutation_NoDup;
      [apply Permutation_sym; apply Sample_ranked_Permutation | apply seq_NoDup]. }
  rewrite <- (firstn_skipn (Z.to_nat k)) in Hnd.
  eapply NoDup_app_remove_r. exact Hnd.
Qed.

Lemma sorting_permutes_documents_witness :
  let self := Sample.perturber "sorting" "best-case" 0 in
  exists docs',
    "ab <doc-sep> a <doc-sep> b" = join_docs self docs'
    /\ Permutation docs' (split_docs Sample.env "b <doc-sep> ab <doc-sep> a" "<doc-sep>").
Proof.
  intros self.
  apply (sorting_permutes_documents Sample.env self "b <doc-sep> ab <doc-sep> a" None
           (Some "abc") None (fresh self) "ab <doc-sep> a <doc-sep> b" (fresh self)).
  - exact Sample_rng_shuffle_Permutation.
  - exact Sample_topk_NoDup.
  - reflexivity.
Defined.

(** ** Overwriting *)







(** ** The components built on demand *)

Section LookupFree.

Context {env : Env}.

(** [safe c]: running [c] never ends in a lookup failure. *)
Local Abbreviation safe c := (forall s : state env, lookup_free (fst (c s))).

Lemma safe_ret {A : Type} (a : A) : safe (ret a).
Proof. intros s. exact I. Qed.

Lemma safe_bind {A B : Type} (c : M env A) (k : A -> M env B) :
  safe c -> (forall a, safe (k a)) -> safe (bind c k).
Proof.
  intros Hc Hk s. unfold bind. specialize (Hc s).
  destruct (c s) as [[a|e] s1]; [apply Hk | exact Hc].
Qed.

Lemma safe_or_raise {A : Type} (e : exception) (x : option A) :
  lookup_free (Raise (A:=A) e) -> safe (or_raise e x).
Proof. intros He s. destruct x; [exact I | exact He]. Qed.

Lemma safe_or_raise_Some {A : Type} (e : exception) (x : option A) :
  x <> None -> safe (or_raise e x).
Proof. intros Hx s. destruct x; [exact I | contradiction]. Qed.

Lemma safe_when (b : bool) (w : warning) : safe (when b (warn w)).
Proof. intros s. destruct b; exact I. Qed.

Lemma safe_sample {A : Type} (population : list A) (k : Z) : safe (sample population k).
Proof.
  intros s. unfold sample.
  destruct (rng_sample env A (self_rng env s) population k) as [[l g]|]; exact I.
Qed.

Lemma safe_shuffle {A : Type} (l : list A) : safe (shuffle l).
Proof.
  intros s. unfold shuffle. destruct (rng_shuffle env A (self_rng env s) l). exact I.
Qed.

Lemma safe_mapM {A B : Type} (f : A -> M env B) (l : list A) :
  (forall x, In x l -> safe (f x)) -> safe (mapM f l).
Proof.
  induction l as [|x l IH]; intros Hf; cbn [mapM].
  - apply safe_ret.
  - apply safe_bind; [apply Hf; left; reflexivity|]. intros y.
    apply safe_bind; [apply IH; intros z Hz; apply Hf; right; exact Hz|].
    intros ys. apply safe_ret.
Qed.

Lemma safe_take_indices (documents : list string) (indices : list nat) :
  safe (take_indices documents indices).
Proof.
  unfold take_indices. apply safe_mapM. intros i _. apply safe_or_raise. exact I.
Qed.

Lemma safe_index_all (input_docs docs : list string) : safe (index_all input_docs docs).
Proof.
  unfold index_all. apply safe_mapM. intros doc _. apply safe_or_raise. exact I.
Qed.

Lemma safe_replace_into (pairs : list (nat * string)) :
  forall docs : list string, safe (replace_into docs pairs).
Proof.
  induction pairs as [|[i doc] pairs IH]; intros docs; cbn [replace_into].
  - apply safe_ret.
  - apply safe_bind; [apply safe_or_raise; exact I | intros docs1; apply IH].
Qed.

Lemma safe_backtranslate_into (aliased : bool) (sampled_docs : list string)
  (back_translated_docs : list (list string)) :
  forall (i : nat) (docs : list string),
    safe (backtranslate_into aliased sampled_docs i back_translated_docs docs).
Proof.
  induction back_translated_docs as [|t rest IH]; intros i docs;
    cbn [backtranslate_into].
  - apply safe_ret.
  - destruct (nth_error (if aliased then docs else sampled_docs) i); [|apply safe_ret].
    apply safe_bind; [apply safe_or_raise; exact I | intros j].
    apply safe_bind; [apply safe_or_raise; exact I | intros docs1; apply IH].
Qed.

Lemma safe_num_to_perturb (perturbed_frac : float) (num_docs : nat) :
  safe (num_to_perturb perturbed_frac num_docs).
Proof. unfold num_to_perturb. apply safe_or_raise. exact I. Qed.

Variable self : Perturber env.

(** [__init__] builds the embedder whenever the strategy is not
    ["random"]. *)
Hypothesis embedder_built :
  _strategy env self <> "random" -> _embedder env self <> None.

Lemma safe_select_docs (documents : list string) (k : Z)
  (query target : option string) (largest : bool) :
  safe (_select_docs self documents k query target largest).
Proof.
  unfold _select_docs.
  destruct (String.eqb (_strategy env self) "random") eqn:E; cbn [negb andb].
  - apply safe_bind; [apply safe_when|]. intros _.
    destruct (Z.of_nat (List.length (candidates self documents query)) <? k)%Z;
      [intros s; exact I | apply safe_sample].
  - destruct (negb (Py.truthy query) && negb (Py.truthy target)) eqn:G;
      [intros s; exact I|].
    apply safe_bind; [intros s; exact I|]. intros _.
    destruct (Z.of_nat (List.length (candidates self documents query)) <? k)%Z;
      [intros s; exact I|].
    apply safe_bind.
    { apply safe_or_raise_Some. apply embedder_built.
      apply String.eqb_neq. exact E. }
    intros _. apply safe_bind.
    + destruct target as [t|].
      * destruct (Py.truthy (Some t)) eqn:Ht; [apply safe_ret|].
        destruct query as [q|]; [apply safe_ret|].
        try rewrite Ht in G. cbn in G. discriminate G.
      * destruct query as [q|]; [apply safe_ret|]. cbn in G. discriminate G.
    + intros scores. apply safe_bind; [apply safe_or_raise; exact I|].
      intros indices. apply safe_take_indices.
Qed.

Lemma safe_sorting example perturbed_frac target documents :
  safe (sorting self example perturbed_frac target documents).
Proof.
  unfold sorting. apply safe_bind; [|intros docs; apply safe_ret].
  destruct (String.eqb (_strategy env self) "random");
    [apply safe_shuffle | apply safe_select_docs].
Qed.

Lemma safe_duplication example perturbed_frac target documents :
  safe (duplication self example perturbed_frac target documents).
Proof.
  unfold duplication. apply safe_bind; [apply safe_num_to_perturb | intros k].
  apply safe_bind; [|intros r; apply safe_ret]. unfold repeaters.
  destruct (k =? _)%Z; [apply safe_ret|].
  destruct (String.eqb (_strategy env self) "random");
    [apply safe_sample | apply safe_select_docs].
Qed.

Lemma safe_addition example perturbed_frac documents target :
  safe (addition self example perturbed_frac documents target).
Proof.
  unfold addition. apply safe_bind; [apply safe_num_to_perturb | intros k].
  apply safe_bind; [|intros r; apply safe_ret].
  destruct (String.eqb (_strategy env self) "random"); apply safe_select_docs.
Qed.

Lemma safe_deletion example perturbed_frac target documents :
  safe (deletion self example perturbed_frac target documents).
Proof.
  unfold deletion. apply safe_bind; [apply safe_num_to_perturb | intros k].
  destruct (k =? _)%Z; [apply safe_ret|].
  apply safe_bind; [|intros d; apply safe_ret]. unfold to_delete.
  destruct (String.eqb (_strategy env self) "random"); [apply safe_sample|].
  apply safe_bind; [apply safe_select_docs | intros r; apply safe_index_all].
Qed.

Lemma safe_replacement example perturbed_frac documents target :
  safe (replacement self example perturbed_frac documents target).
Proof.
  unfold replacement. apply safe_bind; [apply safe_num_to_perturb | intros k].
  apply safe_bind.
  { unfold replacement_sampled_docs.
    destruct (String.eqb (_strategy env self) "random"); apply safe_select_docs. }
  intros sampled. apply safe_bind.
  { unfold replace_indices.
    destruct (String.eqb (_strategy env self) "random"); [apply safe_sample|].
    apply safe_bind; [apply safe_select_docs | intros r; apply safe_index_all]. }
  intros idx. apply safe_bind; [apply safe_replace_into | intros d; apply safe_ret].
Qed.

Lemma safe_backtranslation example perturbed_frac target documents :
  _aug env self <> None ->
  safe (backtranslation self example perturbed_frac target documents).
Proof.
  intros Haug. unfold backtranslation.
  apply safe_bind; [apply safe_num_to_perturb | intros k].
  apply safe_bind.
  { destruct (k =? _)%Z; [apply safe_ret|].
    destruct (String.eqb (_strategy env self) "random"); apply safe_select_docs. }
  intros sampled. apply safe_bind; [apply safe_or_raise_Some; exact Haug | intros a].
  apply safe_bind; [apply safe_backtranslate_into | intros d; apply safe_ret].
Qed.

Lemma safe_apply_perturbation_func example target perturbed_frac documents :
  (_perturbation_func env self = Method backtranslation_op -> _aug env self <> None) ->
  safe (apply_perturbation_func self (Some example) target perturbed_frac documents).
Proof.
  intros Haug. unfold apply_perturbation_func.
  destruct (_perturbation_func env self) as [op|] eqn:E; [|intros s; exact I].
  destruct op; try apply safe_sorting;
    (destruct perturbed_frac as [f|]; [|intros s; exact I]).
  - apply safe_backtranslation. apply Haug. reflexivity.
  - apply safe_duplication.
  - apply safe_addition.
  - apply safe_deletion.
  - apply safe_replacement.
Qed.

End LookupFree.

Lemma zip_longest_examples {A B : Type} (a : list A) (b : list B) :
  (List.length b <= List.length a)%nat ->
  forall et, In et (Py.zip_longest a b) -> exists x, fst et = Some x.
Proof.
  revert b. induction a as [|x a IH]; intros [|y b] Hlen et Hin;
    cbn in Hlen, Hin; try lia; try contradiction.
  - destruct Hin as [<-|Hin]; [exists x; reflexivity|].
    eapply (IH []); [cbn; lia | exact Hin].
  - destruct Hin as [<-|Hin]; [exists x; reflexivity|].
    eapply IH; [|exact Hin]. lia.
Qed.

(** X14.  An object built by [__init__] has the components its calls
    need: [__call__] never fails because [self._aug] or
    [self._embedder] is [None], nor because [query_docs] is read before
    it is assigned. *)
Theorem constructed_has_its_components (env : Env)
  (perturbation doc_sep_token strategy : string) (seed : option Z) (entropy : Z)
  (self : Perturber env) :
  Perturber_init env perturbation doc_sep_token strategy seed entropy = Ok self ->
  forall inputs perturbed_frac targets documents s,
    lookup_free (fst (call self inputs perturbed_frac targets documents s)).
Proof.
  intros Hinit inputs perturbed_frac targets documents.
  unfold Perturber_init in Hinit.
  destruct (getattr env perturbation) as [func|] eqn:Hg; [|discriminate Hinit].
  assert (Hemb : _strategy env self <> "random" -> _embedder env self <> None).
  { inversion Hinit; subst self. cbn. intros Hs. apply String.eqb_neq in Hs.
    rewrite Hs. discriminate. }
  assert (Haug : _perturbation_func env self = Method backtranslation_op ->
                 _aug env self <> None).
  { inversion Hinit; subst self. cbn. intros Hf. subst func.
    unfold getattr in Hg.
    destruct (operator_of_name perturbation) as [op|] eqn:Ho.
    - inversion Hg; subst op. unfold operator_of_name in Ho.
      destruct (String.eqb perturbation "backtranslation"); [discriminate|].
      repeat match type of Ho with
             | (if ?b then _ else _) = _ => destruct b; [discriminate Ho|]
             end.
      discriminate Ho.
    - destruct (_ || _ || _); discriminate Hg. }
  clear Hinit Hg. intros s. unfold call.
  assert (Hrest : forall targets' : list string,
             (List.length targets' <= List.length inputs)%nat ->
             forall s,
               lookup_free
                 (fst (mapM (fun et => apply_perturbation_func self (fst et) (snd et)
                                         perturbed_frac
                                         (Py.fromkeys
                                            match documents with
                                            | Some documents => (inputs ++ documents)%list
                                            | None => inputs
                                            end))
                         (Py.zip_longest inputs targets') s))).
  { intros targets' Hlen. apply safe_mapM. intros et Het.
    destruct (zip_longest_examples inputs targets' Hlen et Het) as [x Hx].
    rewrite Hx. apply safe_apply_perturbation_func; assumption. }
  destruct targets as [t|].
  - destruct (List.length inputs =? List.length t)%nat eqn:E; cbn [negb];
      unfold bind at 1; cbn [ret raise fst]; [|exact I].
    apply Nat.eqb_eq in E. revert s.
    destruct (negb (String.eqb (_perturbation env self) "sorting")
              && Py.falsey perturbed_frac).
    + apply safe_bind; [intros s; exact I | intros _; apply safe_ret].
    + apply safe_bind; [apply safe_when | intros _]. apply Hrest. lia.
  - unfold bind at 1; cbn [ret]. revert s.
    destruct (negb (String.eqb (_perturbation env self) "sorting")
              && Py.falsey perturbed_frac).
    + apply safe_bind; [intros s; exact I | intros _; apply safe_ret].
    + apply safe_bind; [apply safe_when | intros _]. apply Hrest. cbn. lia.
Qed.

Lemma constructed_has_its_components_witness :
  let self := Sample.perturber "backtranslation" "worst-case" 7 in
  Perturber_init Sample.env "backtranslation" "<doc-sep>" "worst-case" (Some 7) 0
  = Ok self
  /\ lookup_free
       (fst (call self ["A. B <doc-sep> C"; "D <doc-sep> E"] (Some f_0_5)
               (Some ["A"; "E"]) None (fresh self))).
Proof.
  intros self. split; [reflexivity|].
  apply (constructed_has_its_components Sample.env
           "backtranslation" "<doc-sep>" "worst-case" (Some 7) 0 self).
  reflexivity.
Defined.

(** ** Fractions between zero and one

    The product [perturbed_frac * num_docs] is rounded to nearest, ties
    to even; [shr] shifts the exact product right and records whether
    bits were lost. *)

Section Rounding.

Lemma iter_pos_nat {A : Type} (f : A -> A) (p : positive) (x : A) :
  iter_pos f p x = Nat.iter (Pos.to_nat p) f x.
Proof.
  revert x. induction p as [p IH|p IH|]; intros x; cbn [iter_pos].
  - rewrite !IH, Pos2Nat.inj_xI.
    replace (S (2 * Pos.to_nat p)) with (Pos.to_nat p + S (Pos.to_nat p))%nat by lia.
    rewrite Nat.iter_add, Nat.iter_succ_r. reflexivity.
  - rewrite !IH, Pos2Nat.inj_xO.
    replace (2 * Pos.to_nat p)%nat with (Pos.to_nat p + Pos.to_nat p)%nat by lia.
    rewrite Nat.iter_add. reflexivity.
  - reflexivity.
Qed.

Lemma shr_1_spec (mrs : shr_record) :
  0 <= shr_m mrs ->
  shr_m (shr_1 mrs) = shr_m mrs / 2
  /\ shr_r (shr_1 mrs) = Z.odd (shr_m mrs)
  /\ shr_s (shr_1 mrs) = shr_r mrs || shr_s mrs.
Proof.
  destruct mrs as [m r s]. cbn [shr_m shr_r shr_s]. intros Hm.
  destruct m as [|[p|p|]|p]; cbn [shr_1 shr_m shr_r shr_s]; try lia.
  - repeat split.
  - split; [apply Z.div_unique with 1; lia | split; reflexivity].
  - split; [apply Z.div_unique with 0; lia | split; reflexivity].
  - repeat split.
Qed.

Lemma shr_iter (n : nat) (m : Z) :
  0 <= m ->
  let mrs := Nat.iter n shr_1 (Build_shr_record m false false) in
  shr_m mrs = m / 2 ^ Z.of_nat n
  /\ (shr_r mrs || shr_s mrs = true -> m mod 2 ^ Z.of_nat n <> 0).
Proof.
  intros Hm. induction n as [|n IH].
  - cbn. split; [symmetry; apply Z.div_1_r | discriminate].
  - cbv zeta in IH |- *. rewrite Nat.iter_succ.
    set (mrs := Nat.iter n shr_1 (Build_shr_record m false false)) in *.
    destruct IH as [IHm IHf].
    assert (Hpow : 0 < 2 ^ Z.of_nat n) by (apply Z.pow_pos_nonneg; lia).
    assert (H0 : 0 <= shr_m mrs) by (rewrite IHm; apply Z.div_pos; lia).
    destruct (shr_1_spec mrs H0) as (H1 & H2 & H3).
    rewrite Nat2Z.inj_succ, Z.pow_succ_r by lia.
    split.
    + rewrite H1, IHm, Z.div_div by lia. f_equal. lia.
    + rewrite H2, H3. intros Hf Hz.
      apply Z.mod_divide in Hz; [|lia]. destruct Hz as [q Hq].
      assert (Hmod : m mod 2 ^ Z.of_nat n = 0).
      { apply Z.mod_divide; [lia|]. exists (q * 2). lia. }
      assert (Hdiv : m / 2 ^ Z.of_nat n = 2 * q).
      { symmetry. apply Z.div_unique_exact; lia. }
      apply orb_prop in Hf. destruct Hf as [Hf|Hf].
      * rewrite IHm, Hdiv, Z.odd_mul in Hf. discriminate Hf.
      * exact (IHf Hf Hmod).
Qed.

Lemma shr_spec (m e k : Z) :
  0 <= m -> 0 <= k ->
  exists mrs,
    shr (Build_shr_record m false false) e k = (mrs, e + k)
    /\ shr_m mrs = m / 2 ^ k
    /\ (shr_r mrs || shr_s mrs = true -> m mod 2 ^ k <> 0).
Proof.
  intros Hm Hk. destruct k as [|p|p]; try lia.
  - exists (Build_shr_record m false false). cbn [shr shr_m shr_r shr_s orb].
    rewrite Z.add_0_r, Z.pow_0_r, Z.div_1_r. repeat split. discriminate.
  - exists (iter_pos shr_1 p (Build_shr_record m false false)).
    cbn [shr]. split; [reflexivity|].
    rewrite iter_pos_nat. rewrite <- (positive_nat_Z p).
    apply shr_iter. exact Hm.
Qed.

Lemma round_nearest_even_spec (mrs : shr_record) :
  let m := round_nearest_even (shr_m mrs) (loc_of_shr_record mrs) in
  m = shr_m mrs \/ (m = shr_m mrs + 1 /\ shr_r mrs || shr_s mrs = true).
Proof.
  destruct mrs as [m [|] [|]]; cbn; try destruct (Z.even m); auto.
Qed.

Lemma SF_ceil_bounds (q : positive) (e n : Z) :
  e <= 0 -> Zpos q <= n * 2 ^ (- e) ->
  exists k, SF_ceil (S754_finite false q e) = Some k /\ 1 <= k <= n.
Proof.
  intros He Hq. unfold SF_ceil. eexists. split; [reflexivity|].
  destruct e as [|p|p]; try lia.
  change (- Zneg p) with (Zpos p) in Hq. rewrite <- Z.pow_pos_fold in Hq.
  assert (Hpos : 0 < Z.pow_pos 2 p)
    by (rewrite Z.pow_pos_fold; apply Z.pow_pos_nonneg; lia).
  pose proof (Z.div_mod (- Zpos q) (Z.pow_pos 2 p) ltac:(lia)) as Hdm.
  pose proof (Z.mod_pos_bound (- Zpos q) (Z.pow_pos 2 p) Hpos) as Hb.
  nia.
Qed.

Lemma round_product_bounds (mx my : positive) (ex ey n : Z) :
  -1074 <= ex <= -52 -> ey <= 0 -> 1 <= n < 2 ^ 53 ->
  Zpos mx <= 2 ^ (- ex) -> Zpos my = n * 2 ^ (- ey) -> 2 ^ 52 <= Zpos my ->
  exists k,
    SF_ceil (binary_round_aux prec emax false (Zpos (mx * my)) (ex + ey) loc_Exact)
    = Some k
    /\ 1 <= k <= n.
Proof.
  intros Hex Hey Hn Hmx Hmy Hmy52.
  pose proof (digits2_pos_bound (mx * my)) as Hd.
  unfold binary_round_aux, shr_fexp. cbn [Zdigits2 shr_record_of_loc].
  set (d := Zpos (digits2_pos (mx * my))) in *.
  assert (HP : Zpos (mx * my) = Zpos mx * Zpos my) by apply Pos2Z.inj_mul.
  set (P := Zpos (mx * my)) in *.
  set (a := - ex) in *. set (b := - ey) in *.
  assert (Hpa : 0 < 2 ^ a) by (apply Z.pow_pos_nonneg; lia).
  assert (Hpb : 0 < 2 ^ b) by (apply Z.pow_pos_nonneg; lia).
  assert (HPle : P <= n * 2 ^ (a + b)).
  { rewrite Z.pow_add_r by lia. rewrite HP, Hmy. nia. }
  assert (HPge : Zpos my <= P) by nia.
  assert (Hd53 : 53 <= d).
  { destruct (Z_lt_le_dec d 53) as [Hlt|]; [|assumption]. exfalso.
    assert (2 ^ d <= 2 ^ 52) by (apply Z.pow_le_mono_r; lia). lia. }
  assert (HdE : d <= 53 + (a + b)).
  { destruct (Z_le_gt_dec d (53 + (a + b))) as [|Hgt]; [assumption|]. exfalso.
    assert (H : 2 ^ (53 + (a + b)) <= 2 ^ (d - 1)) by (apply Z.pow_le_mono_r; lia).
    rewrite Z.pow_add_r in H by lia.
    assert (0 < 2 ^ (a + b)) by (apply Z.pow_pos_nonneg; lia). nia. }
  set (e1 := fexp prec emax (d + (ex + ey))).
  assert (He1 : e1 = Z.max (d + (ex + ey) - 53) (-1074)) by reflexivity.
  clearbody e1.
  set (k := e1 - (ex + ey)).
  assert (Hk : 0 <= k) by lia.
  assert (He1le : e1 <= 0) by lia.
  destruct (shr_spec P (ex + ey) k) as (mrs & Hshr & Hm1 & Hinex); [lia | lia |].
  rewrite Hshr. replace (ex + ey + k) with e1 by lia.
  pose proof (round_nearest_even_spec mrs) as Hr. cbv zeta in Hr.
  set (m2 := round_nearest_even (shr_m mrs) (loc_of_shr_record mrs)) in *.
  assert (Hpk : 0 < 2 ^ k) by (apply Z.pow_pos_nonneg; lia).
  assert (HPk : 2 ^ k <= P).
  { destruct (Z.max_spec (d + (ex + ey) - 53) (-1074)) as [[_ Hmax]|[_ Hmax]].
    - apply Z.le_trans with (2 ^ b).
      + apply Z.pow_le_mono_r; lia.
      + nia.
    - apply Z.le_trans with (2 ^ (d - 1)); [|lia].
      apply Z.pow_le_mono_r; lia. }
  assert (Hm1ge : 1 <= shr_m mrs).
  { rewrite Hm1. apply Z.div_le_lower_bound; lia. }
  assert (Hm1lt : shr_m mrs < 2 ^ 53).
  { rewrite Hm1. apply Z.div_lt_upper_bound; [lia|].
    rewrite <- Z.pow_add_r by lia.
    apply Z.lt_le_trans with (2 ^ d); [lia|].
    apply Z.pow_le_mono_r; lia. }
  set (N1 := n * 2 ^ (- e1)).
  assert (HN : n * 2 ^ (a + b) = N1 * 2 ^ k).
  { unfold N1. rewrite <- Z.mul_assoc, <- Z.pow_add_r by lia.
    f_equal. f_equal. lia. }
  assert (Hm2 : 1 <= m2 <= N1 /\ m2 <= 2 ^ 53).
  { destruct Hr as [Hr|[Hr Hf]]; rewrite Hr.
    - split; [split|]; try lia.
      rewrite Hm1. apply Z.div_le_upper_bound; lia.
    - split; [split|]; try lia.
      specialize (Hinex Hf).
      assert (Hne : P <> N1 * 2 ^ k).
      { intros Heq. apply Hinex. rewrite Heq. apply Z.mod_mul. lia. }
      assert (shr_m mrs < N1).
      { rewrite Hm1. apply Z.div_lt_upper_bound; lia. }
      lia. }
  clearbody m2. destruct Hm2 as [[Hm2ge Hm2le] Hm2max].
  destruct m2 as [|q|q]; try lia.
  cbn [Zdigits2 shr_record_of_loc].
  destruct (Z.eq_dec (Zpos q) (2 ^ 53)) as [E53|N53].
  - assert (Hq : q = 9007199254740992%positive)
      by (apply Pos2Z.inj; rewrite E53; reflexivity).
    subst q. change (Zpos (digits2_pos 9007199254740992)) with 54.
    assert (Hs : fexp prec emax (54 + e1) - e1 = 1)
      by (unfold fexp, emin, prec, emax; lia).
    rewrite Hs. cbn [shr iter_pos shr_1 shr_m].
    assert (He1neg : e1 < 0).
    { destruct (Z.eq_dec e1 0) as [E0|]; [|lia]. exfalso.
      unfold N1 in Hm2le. rewrite E0 in Hm2le. cbn in Hm2le. lia. }
    assert (Hle : (e1 + 1 <=? emax - prec)%Z = true)
      by (apply Z.leb_le; unfold emax, prec; lia).
    rewrite Hle. apply SF_ceil_bounds; [lia|].
    unfold N1 in Hm2le.
    replace (- e1) with (Z.succ (- (e1 + 1))) in Hm2le by lia.
    rewrite Z.pow_succ_r in Hm2le by lia.
    change (Zpos 9007199254740992) with (2 * 4503599627370496) in Hm2le.
    change (Zpos 4503599627370496) with 4503599627370496. lia.
  - pose proof (digits2_pos_bound q) as Hdq.
    assert (Hdq53 : Zpos (digits2_pos q) <= 53).
    { destruct (Z_le_gt_dec (Zpos (digits2_pos q)) 53) as [|Hgt]; [assumption|].
      exfalso.
      assert (2 ^ 53 <= 2 ^ (Zpos (digits2_pos q) - 1))
        by (apply Z.pow_le_mono_r; lia).
      lia. }
    assert (Hs : fexp prec emax (Zpos (digits2_pos q) + e1) - e1 <= 0)
      by (unfold fexp, emin, prec, emax; lia).
    assert (Hle : (e1 <=? emax - prec)%Z = true)
      by (apply Z.leb_le; unfold emax, prec; lia).
    destruct (fexp prec emax (Zpos (digits2_pos q) + e1) - e1) as [|p|p];
      try lia; cbn [shr shr_m]; rewrite Hle;
      apply SF_ceil_bounds; assumption.
Qed.

(** [float(n)] below [2^53]: a normal number of value [n]. *)
Lemma binary_normalize_exact_value (p : positive) :
  Zpos p < 2 ^ 53 ->
  exists m e, binary_normalize prec emax (Zpos p) 0 false = S754_finite false m e
              /\ e <= 0 /\ Zpos m = Zpos p * 2 ^ (- e) /\ 2 ^ 52 <= Zpos m.
Proof.
  intros Hp. pose proof (digits2_pos_bound p) as Hd.
  assert (Hd53 : Zpos (digits2_pos p) <= 53).
  { destruct (Z_le_gt_dec (Zpos (digits2_pos p)) 53) as [|Hgt]; [assumption|].
    exfalso. assert (2 ^ 53 <= 2 ^ (Zpos (digits2_pos p) - 1)) by (apply Z.pow_le_mono_r; lia).
    lia. }
  cbn [binary_normalize]. unfold binary_round, shl_align.
  rewrite Z.add_0_r, Z.sub_0_r.
  assert (Hf : fexp prec emax (Zpos (digits2_pos p)) = Zpos (digits2_pos p) - 53).
  { unfold fexp, emin, prec, emax. lia. }
  rewrite Hf.
  destruct (Zpos (digits2_pos p) - 53) as [|q|q] eqn:Hq; try lia.
  - assert (Hb : bounded prec emax p 0 = true).
    { unfold bounded, canonical_mantissa. rewrite Z.add_0_r, Hf.
      replace (Zpos (digits2_pos p)) with 53 by lia. reflexivity. }
    exists p, 0. split; [apply binary_round_aux_canonical; exact Hb|].
    split; [lia|]. split; [cbn; lia|].
    replace (Zpos (digits2_pos p)) with 53 in Hd by lia. apply Hd.
  - assert (Hb : bounded prec emax (Pos.iter xO p q) (Zneg q) = true).
    { unfold bounded, canonical_mantissa. rewrite digits2_pos_iter_xO.
      apply andb_true_intro. split.
      - apply Z.eqb_eq. unfold fexp, emin, prec, emax. lia.
      - apply Z.leb_le. unfold prec, emax. lia. }
    exists (Pos.iter xO p q), (Zneg q).
    split; [apply binary_round_aux_canonical; exact Hb|].
    split; [lia|].
    rewrite Zpos_iter_xO, Z.pow_pos_fold. change (- Zneg q) with (Zpos q).
    split; [reflexivity|].
    replace 52 with (Zpos (digits2_pos p) - 1 + Zpos q) by lia.
    rewrite Z.pow_add_r by lia.
    apply Z.mul_le_mono_nonneg_r; [apply Z.pow_nonneg; lia | apply Hd].
Qed.

(** A binary64 in [(0, 1]]: a finite positive number whose mantissa is
    at most [2^(-e)]. *)
Lemma unit_interval (x : float) :
  (0 <? x)%float = true -> (x <=? 1)%float = true ->
  exists m e, Prim2SF x = S754_finite false m e
              /\ -1074 <= e <= -52 /\ Zpos m <= 2 ^ (- e).
Proof.
  rewrite FloatAxioms.ltb_spec, FloatAxioms.leb_spec, Prim2SF_one.
  change (Prim2SF 0%float) with (S754_zero false).
  pose proof (FloatAxioms.Prim2SF_valid x) as Hv.
  destruct (Prim2SF x) as [s|s| |s m e]; cbn [SFltb SFleb SFcompare];
    try discriminate.
  - destruct s; discriminate.
  - destruct s; [discriminate|]. intros _ Hle.
    exists m, e. split; [reflexivity|].
    cbn [valid_binary] in Hv. unfold bounded, canonical_mantissa in Hv.
    apply andb_prop in Hv. destruct Hv as [Hc _]. apply Z.eqb_eq in Hc.
    assert (Hc' : Z.max (Zpos (digits2_pos m) + e - 53) (-1074) = e) by exact Hc.
    clear Hc.
    pose proof (digits2_pos_bound m) as Hd.
    assert (Hm53 : Zpos m < 2 ^ 53).
    { apply Z.lt_le_trans with (2 ^ Zpos (digits2_pos m)); [apply Hd|].
      apply Z.pow_le_mono_r; lia. }
    destruct (e ?= -52)%Z eqn:Hcmp.
    + apply Z.compare_eq in Hcmp. subst e. split; [lia|].
      assert (Hm : (m <= 4503599627370496)%positive).
      { unfold Pos.le, Pos.compare. intros G. rewrite G in Hle. discriminate Hle. }
      change (2 ^ (- -52)) with (Zpos 4503599627370496). 
      exact Hm.
    + assert (Hlt : e < -52) by exact Hcmp. split; [lia|].
      apply Z.le_trans with (2 ^ 53); [lia|].
      apply Z.pow_le_mono_r; lia.
    + discriminate Hle.
Qed.

Lemma ceil_mul_bounds (perturbed_frac : float) (num_docs : nat) :
  (0 <? perturbed_frac)%float = true -> (perturbed_frac <=? 1)%float = true ->
  (1 <= num_docs)%nat -> Z.of_nat num_docs < 2 ^ 53 ->
  exists k, ceil_mul perturbed_frac num_docs = Some k /\ 1 <= k <= Z.of_nat num_docs.
Proof.
  intros H0 H1 Hn1 Hn.
  destruct (unit_interval perturbed_frac H0 H1) as (mx & ex & Hx & Hex & Hmx).
  unfold ceil_mul, math_ceil, float_of_len.
  rewrite FloatAxioms.mul_spec, FloatAxioms.of_uint63_spec, Uint63.of_Z_spec.
  rewrite Z.mod_small by (unfold wB; cbn; lia).
  destruct (Z.of_nat num_docs) as [|p|p] eqn:Hz; try lia.
  destruct (binary_normalize_exact_value p Hn) as (my & ey & Hy & Hey & Hmy & Hmy52).
  rewrite Hx, Hy. unfold SF64mul. cbn [SFmul xorb].
  apply round_product_bounds; try assumption. lia.
Qed.

End Rounding.

(** X15.  A fraction in (0, 1] of a non-empty example: [k] is computed
    without error, and at least one and at most all of the documents
    are perturbed (below [2^53] documents, where [float(num_docs)] is
    exact). *)
Theorem perturbs_between_one_and_all (env : Env) (perturbed_frac : float)
  (num_docs : nat) (s : state env) :
  (0 <? perturbed_frac)%float = true -> (perturbed_frac <=? 1)%float = true ->
  (1 <= num_docs)%nat -> Z.of_nat num_docs < 2 ^ 53 ->
  exists k,
    num_to_perturb perturbed_frac num_docs s = (Ok k, s)
    /\ 1 <= k <= Z.of_nat num_docs.
Proof.
  intros H0 H1 Hn1 Hn.
  destruct (ceil_mul_bounds perturbed_frac num_docs H0 H1 Hn1 Hn) as (k & Hk & Hb).
  exists k. split; [|exact Hb].
  unfold num_to_perturb. rewrite Hk. reflexivity.
Qed.

Lemma perturbs_between_one_and_all_witness :
  let self := Sample.perturber "deletion" "random" 1 in
  exists k,
    num_to_perturb f_0_34 3 (fresh self) = (Ok k, fresh self)
    /\ 1 <= k <= Z.of_nat 3.
Proof.
  intros self.
  apply (perturbs_between_one_and_all Sample.env f_0_34 3 (fresh self)).
  - reflexivity.
  - reflexivity.
  - lia.
  - reflexivity.
Defined.

(** X16.  Under strategy ["random"], [deletion] and [duplication] of a
    fraction in (0, 1] of a non-empty example cannot fail
    ([random.sample] raises only when asked for more items than its
    population holds, and [get_num_docs] is the number of documents). *)
Theorem random_deletion_and_duplication_succeed (env : Env) (self : Perturber env)
  (example : string) (perturbed_frac : float) (target : option string)
  (documents : option (list string)) (s : state env) :
  let sep := _doc_sep_token env self in
  let num_docs := get_num_docs env example sep in
  (forall (A : Type) (g : Rng env) (population : list A) (k : Z),
      0 <= k <= Z.of_nat (List.length population) ->
      rng_sample env A g population k <> None) ->
  num_docs = List.length (split_docs env example sep) ->
  _strategy env self = "random" ->
  (0 <? perturbed_frac)%float = true -> (perturbed_frac <=? 1)%float = true ->
  (1 <= num_docs)%nat -> Z.of_nat num_docs < 2 ^ 53 ->
  (exists out s',
      deletion self example perturbed_frac target documents s = (Ok out, s'))
  /\ (exists out s',
      duplication self example perturbed_frac target documents s = (Ok out, s')).
Proof.
  intros sep num_docs Hsample Hnum Hs H0 H1 Hn1 Hn.
  destruct (ceil_mul_bounds perturbed_frac num_docs H0 H1 Hn1 Hn) as (k & Hk & Hk1).
  split.
  - unfold deletion, num_to_perturb, bind. fold sep. fold num_docs. rewrite Hk.
    unfold or_raise, ret. cbv beta iota.
    destruct (k =? Z.of_nat num_docs)%Z; [eexists; eexists; reflexivity|].
    unfold to_delete. fold sep. fold num_docs. rewrite Hs, String.eqb_refl.
    unfold sample.
    destruct (rng_sample env nat (self_rng env s) (Py.range num_docs) k)
      as [[l g]|] eqn:Hr.
    + eexists; eexists; reflexivity.
    + exfalso. apply (Hsample nat (self_rng env s) (Py.range num_docs) k); [|exact Hr].
      unfold Py.range. rewrite length_seq. lia.
  - unfold duplication, num_to_perturb, bind. fold sep. fold num_docs. rewrite Hk.
    unfold or_raise, ret. cbv beta iota. unfold repeaters. fold sep. fold num_docs.
    destruct (k =? Z.of_nat num_docs)%Z; [eexists; eexists; reflexivity|].
    rewrite Hs, String.eqb_refl. unfold sample.
    destruct (rng_sample env string (self_rng env s) (split_docs env example sep) k)
      as [[l g]|] eqn:Hr.
    + eexists; eexists; reflexivity.
    + exfalso.
      apply (Hsample string (self_rng env s) (split_docs env example sep) k); [|exact Hr].
      rewrite <- Hnum. lia.
Qed.

Lemma Sample_rng_sample_total (A : Type) (g : Z) (population : list A) (k : Z) :
  0 <= k <= Z.of_nat (List.length population) ->
  Sample.rng_sample A g population k <> None.
Proof.
  intros [Hk0 Hk]. unfold Sample.rng_sample.
  apply Z.ltb_ge in Hk0, Hk. rewrite Hk0, Hk. discriminate.
Qed.

Lemma random_deletion_and_duplication_succeed_witness :
  let self := Sample.perturber "deletion" "random" 1 in
  let example := "A <doc-sep> B <doc-sep> C" in
  (exists out s',
      deletion self example f_0_34 None None (fresh self) = (Ok out, s'))
  /\ (exists out s',
      duplication self example f_0_34 None None (fresh self) = (Ok out, s')).
Proof.
  intros self example.
  apply (random_deletion_and_duplication_succeed Sample.env self example f_0_34
           None None (fresh self)).
  - intros A g population k Hk. apply Sample_rng_sample_total. exact Hk.
  - vm_compute. reflexivity.
  - reflexivity.
  - reflexivity.
  - reflexivity.
  - vm_compute. lia.
  - vm_compute. reflexivity.
Defined.

(** ** Selection among the documents of the example itself *)

Lemma index_In (l : list string) (x : string) : In x l -> Py.index l x <> None.
Proof.
  induction l as [|y l IH]; intros H; [destruct H|].
  cbn [Py.index]. destruct (String.eqb y x) eqn:E; [discriminate|].
  destruct H as [H|H]; [subst; rewrite String.eqb_refl in E; discriminate|].
  destruct (Py.index l x); [discriminate | exfalso; exact (IH H eq_refl)].
Qed.

Section OwnDocuments.

Variable env : Env.
Variable self : Perturber env.

Lemma mapM_or_raise_total {A B : Type} (e : exception) (f : A -> option B)
  (l : list A) (s : state env) :
  Forall (fun x => f x <> None) l ->
  exists r, mapM (fun x => or_raise e (f x)) l s = (Ok r, s).
Proof.
  induction 1 as [|x l Hx Hl IH].
  - exists []. reflexivity.
  - destruct IH as [r IH]. destruct (f x) as [y|] eqn:Hy; [|contradiction].
    exists (y :: r). cbn [mapM]. unfold bind at 1. rewrite Hy. cbn [or_raise ret].
    unfold bind. rewrite IH. reflexivity.
Qed.

Hypothesis scores_length : forall t docs,
    List.length (dot_score_target env t docs) = List.length docs.
Hypothesis topk_total : forall scores k largest,
    0 <= k <= Z.of_nat (List.length scores) ->
    exists indices,
      topk env scores k largest = Some indices
      /\ Forall (fun i => (i < List.length scores)%nat) indices.
Hypothesis by_similarity : _strategy env self <> "random".
Hypothesis embedder_built : _embedder env self <> None.

Lemma select_own_docs_succeeds (example : string) (k : Z) (target : option string)
  (largest : bool) (s : state env) :
  Py.truthy target = true ->
  0 <= k <= Z.of_nat (List.length (split_docs env example (_doc_sep_token env self))) ->
  exists docs,
    _select_docs self [example] k None target largest s = (Ok docs, s)
    /\ incl docs (split_docs env example (_doc_sep_token env self)).
Proof.
  intros Ht Hk.
  assert (H : exists docs,
             _select_docs self [example] k None target largest s = (Ok docs, s)).
  { unfold _select_docs. rewrite candidates_of_example.
    apply String.eqb_neq in by_similarity. rewrite by_similarity, Ht.
    cbn [negb andb Py.truthy when]. unfold bind at 1. cbn [ret].
    destruct (Z.ltb_spec (Z.of_nat (List.length
                (split_docs env example (_doc_sep_token env self)))) k) as [Hlt|_];
      [lia|].
    destruct (_embedder env self) as [emb|]; [|contradiction].
    unfold bind at 1. cbn [or_raise ret].
    destruct target as [t|]; [|discriminate Ht].
    unfold bind at 1. cbn [ret].
    destruct (topk_total
                (dot_score_target env t
                   (split_docs env example (_doc_sep_token env self)))
                k largest) as (indices & Hi & Hrange).
    { rewrite scores_length. exact Hk. }
    unfold bind at 1. rewrite Hi. cbn [or_raise ret].
    unfold take_indices. apply mapM_or_raise_total.
    rewrite scores_length in Hrange.
    eapply Forall_impl; [|exact Hrange].
    intros i Hi'. cbv beta in Hi'. apply nth_error_Some. exact Hi'. }
  destruct H as [docs H]. exists docs. split; [exact H|].
  apply select_docs_by_indices in H; [|exact by_similarity].
  destruct H as (scores & indices & _ & HF).
  rewrite candidates_of_example in HF.
  induction HF as [|i doc indices docs Hi _ IH]; intros doc' Hdoc; [destruct Hdoc|].
  destruct Hdoc as [<-|Hdoc]; [eapply nth_error_In; exact Hi | exact (IH doc' Hdoc)].
Qed.

End OwnDocuments.
(** X17.  Under a strategy other than ["random"] and with a non-empty
    target, [sorting], [duplication] and [deletion] of a fraction in
    (0, 1] of a non-empty example cannot fail, and they leave the random
    generator untouched (the score tensor has one entry per document,
    [torch.topk] raises only when asked for more entries than there
    are and returns positions of the tensor, and [get_num_docs] is the
    number of documents). *)
Theorem similarity_with_target_succeeds (env : Env) (self : Perturber env)
  (example : string) (perturbed_frac : float) (target : option string)
  (documents : option (list string)) (s : state env) :
  let sep := _doc_sep_token env self in
  let num_docs := get_num_docs env example sep in
  (forall t docs, List.length (dot_score_target env t docs) = List.length docs) ->
  (forall scores k largest,
      0 <= k <= Z.of_nat (List.length scores) ->
      exists indices,
        topk env scores k largest = Some indices
        /\ Forall (fun i => (i < List.length scores)%nat) indices) ->
  num_docs = List.length (split_docs env example sep) ->
  _strategy env self <> "random" ->
  _embedder env self <> None ->
  Py.truthy target = true ->
  (0 <? perturbed_frac)%float = true -> (perturbed_frac <=? 1)%float = true ->
  (1 <= num_docs)%nat -> Z.of_nat num_docs < 2 ^ 53 ->
  (exists out,
      sorting self example (Some perturbed_frac) target documents s = (Ok out, s))
  /\ (exists out,
      duplication self example perturbed_frac target documents s = (Ok out, s))
  /\ (exists out,
      deletion self example perturbed_frac target documents s = (Ok out, s)).
Proof.
  intros sep num_docs Hscores Htopk Hnum Hs Hemb Ht H0 H1 Hn1 Hn.
  destruct (ceil_mul_bounds perturbed_frac num_docs H0 H1 Hn1 Hn) as (k & Hk & Hk1).
  pose proof (select_own_docs_succeeds env self Hscores Htopk Hs Hemb example)
    as Hsel. fold sep in Hsel.
  pose proof Hs as Hs'. apply String.eqb_neq in Hs'.
  split; [|split].
  - unfold sorting, bind. fold sep. rewrite Hs'.
    destruct (Hsel (Z.of_nat (List.length (split_docs env example sep))) target
                (String.eqb (_strategy env self) "best-case") s Ht ltac:(lia))
      as (docs & Hdocs & _).
    rewrite Hdocs. eexists. reflexivity.
  - unfold duplication, num_to_perturb, bind. fold sep. fold num_docs. rewrite Hk.
    unfold or_raise, ret. cbv beta iota. unfold repeaters. fold sep. fold num_docs.
    destruct (k =? Z.of_nat num_docs)%Z; [eexists; reflexivity|].
    rewrite Hs'.
    destruct (Hsel k target (String.eqb (_strategy env self) "best-case") s Ht
                ltac:(lia)) as (docs & Hdocs & _).
    rewrite Hdocs. eexists. reflexivity.
  - unfold deletion, num_to_perturb, bind. fold sep. fold num_docs. rewrite Hk.
    unfold or_raise, ret. cbv beta iota.
    destruct (k =? Z.of_nat num_docs)%Z; [eexists; reflexivity|].
    unfold to_delete, bind. fold sep. fold num_docs. rewrite Hs'.
    destruct (Hsel k target (String.eqb (_strategy env self) "worst-case") s Ht
                ltac:(lia)) as (docs & Hdocs & Hincl).
    rewrite Hdocs. unfold index_all.
    destruct (mapM_or_raise_total env ValueError_index
                (Py.index (split_docs env example sep)) docs s) as [js Hjs].
    { apply Forall_forall. intros doc Hdoc. apply index_In. apply Hincl. exact Hdoc. }
    fold sep. rewrite Hjs. eexists. reflexivity.
Qed.

Lemma Sample_topk_total (scores : list Z) (k : Z) (largest : bool) :
  0 <= k <= Z.of_nat (List.length scores) ->
  exists indices,
    Sample.topk scores k largest = Some indices
    /\ Forall (fun i => (i < List.length scores)%nat) indices.
Proof.
  intros [Hk0 Hk]. unfold Sample.topk.
  apply Z.ltb_ge in Hk0, Hk. rewrite Hk0, Hk. cbn [orb].
  eexists. split; [reflexivity|].
  apply Forall_forall. intros i Hi.
  assert (Hr : In i (Sample.ranked largest scores)).
  { rewrite <- (firstn_skipn (Z.to_nat k)). apply in_or_app. left. exact Hi. }
  apply (Permutation_in _ (Sample_ranked_Permutation largest scores)) in Hr.
  rename Hr into Hi'. clear Hi. rename Hi' into Hi.
  apply in_seq in Hi. lia.
Qed.

Lemma similarity_with_target_succeeds_witness :
  let self := Sample.perturber "deletion" "best-case" 1 in
  let example := "a <doc-sep> b <doc-sep> ab" in
  (exists out,
      sorting self example (Some f_0_34) (Some "a") None (fresh self)
      = (Ok out, fresh self))
  /\ (exists out,
      duplication self example f_0_34 (Some "a") None (fresh self)
      = (Ok out, fresh self))
  /\ (exists out,
      deletion self example f_0_34 (Some "a") None (fresh self)
      = (Ok out, fresh self)).
Proof.
  intros self example.
  apply (similarity_with_target_succeeds Sample.env self example f_0_34
           (Some "a") None (fresh self)).
  - intros t docs. apply length_map.
  - intros scores k largest Hk. apply Sample_topk_total. exact Hk.
  - vm_compute. reflexivity.
  - cbn. discriminate.
  - cbn. discriminate.
  - reflexivity.
  - reflexivity.
  - reflexivity.
  - vm_compute. lia.
  - vm_compute. reflexivity.
Defined.

(** ** Documents that are not used

    Two runs correspond when they start from the same generator state:
    the warnings already emitted have no influence on a result. *)

Section Corresponding.

Context {env : Env}.

(** [sim c1 c2]: from states with the same generator, [c1] and [c2]
    end alike (same value or same exception) with the same generator. *)
Local Abbreviation sim c1 c2 :=
  (forall s1 s2 : state env,
      self_rng env s1 = self_rng env s2 ->
      fst (c1 s1) = fst (c2 s2)
      /\ self_rng env (snd (c1 s1)) = self_rng env (snd (c2 s2))).

Lemma sim_ret {A : Type} (a : A) : sim (ret a) (ret a).
Proof. intros s1 s2 Hs. split; [reflexivity | exact Hs]. Qed.

Lemma sim_raise {A : Type} (e : exception) : sim (raise (A:=A) e) (raise (A:=A) e).
Proof. intros s1 s2 Hs. split; [reflexivity | exact Hs]. Qed.

Lemma sim_bind {A B : Type} (c1 c2 : M env A) (k1 k2 : A -> M env B) :
  sim c1 c2 -> (forall a, sim (k1 a) (k2 a)) -> sim (bind c1 k1) (bind c2 k2).
Proof.
  intros Hc Hk s1 s2 Hs. unfold bind. destruct (Hc s1 s2 Hs) as [Hf Hr].
  destruct (c1 s1) as [[a1|e1] t1], (c2 s2) as [[a2|e2] t2];
    cbn [fst snd] in Hf, Hr; try discriminate Hf.
  - inversion Hf; subst a2. apply Hk. exact Hr.
  - inversion Hf; subst e2. split; [reflexivity | exact Hr].
Qed.

Lemma sim_when (b1 b2 : bool) (w1 w2 : warning) :
  sim (when b1 (warn w1)) (when b2 (warn w2)).
Proof. intros s1 s2 Hs. destruct b1, b2; split; try reflexivity; exact Hs. Qed.

Lemma sim_or_raise {A : Type} (e : exception) (x : option A) :
  sim (or_raise e x) (or_raise e x).
Proof. destruct x; [apply sim_ret | apply sim_raise]. Qed.

Lemma sim_sample {A : Type} (population : list A) (k : Z) :
  sim (sample population k) (sample population k).
Proof.
  intros s1 s2 Hs. unfold sample. rewrite Hs.
  destruct (rng_sample env A (self_rng env s2) population k) as [[l g]|];
    split; try reflexivity. exact Hs.
Qed.

Lemma sim_shuffle {A : Type} (l : list A) : sim (shuffle l) (shuffle l).
Proof.
  intros s1 s2 Hs. unfold shuffle. rewrite Hs.
  destruct (rng_shuffle env A (self_rng env s2) l). split; reflexivity.
Qed.

Lemma sim_mapM {A B : Type} (f1 f2 : A -> M env B) (l : list A) :
  (forall x, In x l -> sim (f1 x) (f2 x)) -> sim (mapM f1 l) (mapM f2 l).
Proof.
  induction l as [|x l IH]; intros Hf; cbn [mapM].
  - apply sim_ret.
  - apply sim_bind; [apply Hf; left; reflexivity|]. intros y.
    apply sim_bind; [apply IH; intros z Hz; apply Hf; right; exact Hz|].
    intros ys. apply sim_ret.
Qed.

Lemma sim_backtranslate_into (aliased : bool) (sampled_docs : list string)
  (back_translated_docs : list (list string)) :
  forall (i : nat) (docs : list string),
    sim (backtranslate_into aliased sampled_docs i back_translated_docs docs)
        (backtranslate_into aliased sampled_docs i back_translated_docs docs).
Proof.
  induction back_translated_docs as [|t rest IH]; intros i docs;
    cbn [backtranslate_into].
  - apply sim_ret.
  - destruct (nth_error (if aliased then docs else sampled_docs) i); [|apply sim_ret].
    apply sim_bind; [apply sim_or_raise | intros j].
    apply sim_bind; [apply sim_or_raise | intros docs1; apply IH].
Qed.

Variable self : Perturber env.

Lemma sim_select_docs (documents : list string) (k : Z)
  (query target : option string) (largest : bool) :
  sim (_select_docs self documents k query target largest)
      (_select_docs self documents k query target largest).
Proof.
  unfold _select_docs.
  destruct (negb (String.eqb (_strategy env self) "random")
            && negb (Py.truthy query) && negb (Py.truthy target));
    [apply sim_raise|].
  apply sim_bind; [apply sim_when | intros _].
  destruct (Z.of_nat (List.length (candidates self documents query)) <? k)%Z;
    [apply sim_raise|].
  destruct (String.eqb (_strategy env self) "random"); [apply sim_sample|].
  apply sim_bind; [apply sim_or_raise | intros _].
  apply sim_bind.
  - destruct target as [t|].
    + destruct (Py.truthy (Some t)); [apply sim_ret|].
      destruct query; [apply sim_ret | apply sim_raise].
    + destruct query; [apply sim_ret | apply sim_raise].
  - intros scores. apply sim_bind; [apply sim_or_raise | intros indices].
    unfold take_indices. apply sim_mapM. intros i _. apply sim_or_raise.
Qed.

(** The four methods that never read [documents]. *)
Lemma sim_apply_perturbation_func (op : operator) example target perturbed_frac
  (documents1 documents2 : list string) :
  _perturbation_func env self = Method op ->
  op <> addition_op -> op <> replacement_op ->
  sim (apply_perturbation_func self example target perturbed_frac documents1)
      (apply_perturbation_func self example target perturbed_frac documents2).
Proof.
  intros Hop Ha Hr. unfold apply_perturbation_func. rewrite Hop.
  destruct example as [example|]; [|destruct op; apply sim_raise].
  assert (Hsort : forall frac d1 d2,
             sim (sorting self example frac target d1)
                 (sorting self example frac target d2)).
  { intros frac d1 d2. unfold sorting.
    apply sim_bind; [|intros docs; apply sim_ret].
    destruct (String.eqb (_strategy env self) "random");
      [apply sim_shuffle | apply sim_select_docs]. }
  destruct op; try contradiction; try apply Hsort;
    (destruct perturbed_frac as [frac|]; [|apply sim_raise]).
  - unfold backtranslation.
    apply sim_bind; [unfold num_to_perturb; apply sim_or_raise | intros k].
    apply sim_bind.
    { destruct (k =? _)%Z; [apply sim_ret|].
      destruct (String.eqb (_strategy env self) "random"); apply sim_select_docs. }
    intros sampled. apply sim_bind; [apply sim_or_raise | intros a].
    apply sim_bind; [apply sim_backtranslate_into | intros d; apply sim_ret].
  - unfold duplication.
    apply sim_bind; [unfold num_to_perturb; apply sim_or_raise | intros k].
    apply sim_bind; [|intros r; apply sim_ret]. unfold repeaters.
    destruct (k =? _)%Z; [apply sim_ret|].
    destruct (String.eqb (_strategy env self) "random");
      [apply sim_sample | apply sim_select_docs].
  - unfold deletion.
    apply sim_bind; [unfold num_to_perturb; apply sim_or_raise | intros k].
    destruct (k =? _)%Z; [apply sim_ret|].
    apply sim_bind; [|intros d; apply sim_ret]. unfold to_delete.
    destruct (String.eqb (_strategy env self) "random"); [apply sim_sample|].
    apply sim_bind; [apply sim_select_docs | intros r].
    unfold index_all. apply sim_mapM. intros doc _. apply sim_or_raise.
Qed.

Lemma sim_call (op : operator) inputs perturbed_frac targets
  (documents1 documents2 : option (list string)) :
  _perturbation_func env self = Method op ->
  op <> addition_op -> op <> replacement_op ->
  sim (call self inputs perturbed_frac targets documents1)
      (call self inputs perturbed_frac targets documents2).
Proof.
  intros Hop Ha Hr. unfold call. apply sim_bind.
  { destruct targets as [t|]; [|apply sim_ret].
    destruct (negb (List.length inputs =? List.length t)%nat);
      [apply sim_raise | apply sim_ret]. }
  intros _.
  destruct (negb (String.eqb (_perturbation env self) "sorting")
            && Py.falsey perturbed_frac).
  - apply sim_bind; [|intros _; apply sim_ret].
    intros s1 s2 Hs. split; [reflexivity | exact Hs].
  - apply sim_bind; [apply sim_when | intros _].
    apply sim_mapM. intros et _.
    apply (sim_apply_perturbation_func op); assumption.
Qed.

End Corresponding.

(** X18.  [documents] has no effect on [sorting], [duplication],
    [deletion] and [backtranslation]: a call with documents and the
    call without them return the same outputs, or raise the same
    exception, and leave the random generator in the same state; only
    the warning that the documents are ignored sets them apart. *)
Theorem documents_have_no_effect (env : Env) (self : Perturber env) (op : operator)
  (inputs : list string) (perturbed_frac : option float)
  (targets : option (list string)) (documents : list string) (s : state env) :
  _perturbation_func env self = Method op ->
  op <> addition_op -> op <> replacement_op ->
  let with_documents := call self inputs perturbed_frac targets (Some documents) s in
  let without := call self inputs perturbed_frac targets None s in
  fst with_documents = fst without
  /\ self_rng env (snd with_documents) = self_rng env (snd without).
Proof.
  intros Hop Ha Hr. cbv zeta.
  apply (sim_call self op); try assumption. reflexivity.
Qed.

Lemma documents_have_no_effect_witness :
  let self := Sample.perturber "deletion" "random" 1 in
  let inputs := ["A <doc-sep> B <doc-sep> C"; "D <doc-sep> E"] in
  let with_documents :=
    call self inputs (Some f_0_34) None (Some ["X <doc-sep> Y"]) (fresh self) in
  let without := call self inputs (Some f_0_34) None None (fresh self) in
  fst with_documents = fst without
  /\ self_rng Sample.env (snd with_documents) = self_rng Sample.env (snd without).
Proof.
  intros self inputs.
  apply (documents_have_no_effect Sample.env self deletion_op inputs (Some f_0_34)
           None ["X <doc-sep> Y"] (fresh self)).
  - reflexivity.
  - discriminate.
  - discriminate.
Defined.

(** ** Enough candidates *)

Lemma setitem_total {A : Type} (l : list A) (i : nat) (x : A) :
  (i < List.length l)%nat -> Py.setitem l i x <> None.
Proof.
  revert i. induction l as [|y l IH]; intros [|i] Hi; cbn in Hi |- *;
    try lia; try discriminate.
  assert (Hl : (i < List.length l)%nat) by lia.
  specialize (IH i Hl). destruct (Py.setitem l i x); [discriminate | contradiction].
Qed.

Lemma replace_into_total {env : Env} (pairs : list (nat * string)) :
  forall (docs : list string) (s : state env),
    Forall (fun p => (fst p < List.length docs)%nat) pairs ->
    exists docs', replace_into docs pairs s = (Ok docs', s).
Proof.
  induction pairs as [|[i doc] pairs IH]; intros docs s HF; cbn [replace_into].
  - exists docs. reflexivity.
  - inversion HF as [|p ps Hi HF']; subst. cbn [fst] in Hi.
    destruct (Py.setitem docs i (Py.strip doc)) as [docs1|] eqn:E;
      [|exfalso; exact (setitem_total docs i (Py.strip doc) Hi E)].
    unfold bind at 1. cbn [or_raise ret].
    apply IH. rewrite (setitem_length _ _ _ _ E). exact HF'.
Qed.

(** X19.  Under strategy ["random"], [addition] and [replacement] of a
    fraction in (0, 1] of a non-empty example fail exactly when the pool
    holds fewer than [k] documents besides those of the example, and
    then with the error on insufficient candidates ([random.sample]
    raises only when asked for more items than its population holds and
    returns items of the population, and [get_num_docs] is the number
    of documents). *)
Theorem random_addition_and_replacement (env : Env) (self : Perturber env)
  (example : string) (perturbed_frac : float) (documents : list string)
  (target : option string) (s : state env) :
  let sep := _doc_sep_token env self in
  let num_docs := get_num_docs env example sep in
  let have := List.length (candidates self documents (Some example)) in
  (forall (A : Type) (g : Rng env) (population : list A) (k : Z),
      0 <= k <= Z.of_nat (List.length population) ->
      rng_sample env A g population k <> None) ->
  (forall (A : Type) (g : Rng env) (population : list A) (k : Z) r g',
      rng_sample env A g population k = Some (r, g') -> incl r population) ->
  num_docs = List.length (split_docs env example sep) ->
  _strategy env self = "random" ->
  (0 <? perturbed_frac)%float = true -> (perturbed_frac <=? 1)%float = true ->
  (1 <= num_docs)%nat -> Z.of_nat num_docs < 2 ^ 53 ->
  exists k,
    ceil_mul perturbed_frac num_docs = Some k
    /\ if (Z.of_nat have <? k)%Z
       then addition self example perturbed_frac documents target s
            = (Raise (InsufficientCandidatesError k have), s)
            /\ replacement self example perturbed_frac documents target s
               = (Raise (InsufficientCandidatesError k have), s)
       else (exists out s',
                addition self example perturbed_frac documents target s = (Ok out, s'))
            /\ (exists out s',
                replacement self example perturbed_frac documents target s
                = (Ok out, s')).
Proof.
  intros sep num_docs have Htotal Hincl Hnum Hs H0 H1 Hn1 Hn.
  destruct (ceil_mul_bounds perturbed_frac num_docs H0 H1 Hn1 Hn) as (k & Hk & Hk1).
  exists k. split; [exact Hk|].
  assert (Hsel : forall s0 : state env,
             _select_docs self documents k (Some example) None true s0
             = if (Z.of_nat have <? k)%Z
               then (Raise (InsufficientCandidatesError k have), s0)
               else sample (candidates self documents (Some example)) k s0).
  { intros s0. unfold _select_docs. rewrite Hs. fold have.
    cbn [String.eqb Ascii.eqb Bool.eqb negb andb Py.is_not_None when].
    unfold bind. cbn [ret]. destruct (Z.of_nat have <? k)%Z; reflexivity. }
  destruct (Z.of_nat have <? k)%Z eqn:Hhave.
  - split.
    + unfold addition, num_to_perturb, bind. fold sep. fold num_docs. rewrite Hk.
      unfold or_raise, ret. cbv beta iota. rewrite Hs.
      cbn [String.eqb Ascii.eqb Bool.eqb]. rewrite Hsel. reflexivity.
    + unfold replacement, num_to_perturb, bind. fold sep. fold num_docs. rewrite Hk.
      unfold or_raise, ret. cbv beta iota. unfold replacement_sampled_docs.
      rewrite Hs. cbn [String.eqb Ascii.eqb Bool.eqb]. rewrite Hsel. reflexivity.
  - apply Z.ltb_ge in Hhave.
    destruct (rng_sample env string (self_rng env s)
                (candidates self documents (Some example)) k) as [[sampled g]|] eqn:Hr;
      [|exfalso;
        apply (Htotal string (self_rng env s)
                 (candidates self documents (Some example)) k);
        [fold have; lia | exact Hr]].
    split.
    + unfold addition, num_to_perturb, bind. fold sep. fold num_docs. rewrite Hk.
      unfold or_raise, ret. cbv beta iota. rewrite Hs.
      cbn [String.eqb Ascii.eqb Bool.eqb]. rewrite Hsel. unfold sample. rewrite Hr.
      eexists; eexists; reflexivity.
    + unfold replacement, num_to_perturb, bind. fold sep. fold num_docs. rewrite Hk.
      unfold or_raise, ret. cbv beta iota. unfold replacement_sampled_docs.
      rewrite Hs. cbn [String.eqb Ascii.eqb Bool.eqb]. rewrite Hsel.
      unfold sample at 1. rewrite Hr. unfold replace_indices. fold sep. fold num_docs.
      rewrite Hs. cbn [String.eqb Ascii.eqb Bool.eqb]. unfold sample. cbn [self_rng warned].
      destruct (rng_sample env nat g (Py.range num_docs) k) as [[idx g2]|] eqn:Hi.
      2:{ exfalso. apply (Htotal nat g (Py.range num_docs) k); [|exact Hi].
          unfold Py.range. rewrite length_seq. lia. }
      apply Hincl in Hi.
      destruct (replace_into_total (combine idx sampled) (split_docs env example sep)
                  {| self_rng := g2; warned := warned env s |}) as [docs' Hd].
      { apply Forall_forall. intros [i doc] Hp. cbn [fst].
        apply in_combine_l in Hp. apply Hi in Hp.
        unfold Py.range in Hp. apply in_seq in Hp. lia. }
      cbn [warned]. rewrite Hd. eexists; eexists; reflexivity.
Qed.

Lemma random_addition_and_replacement_witness :
  let self := Sample.perturber "addition" "random" 1 in
  let example := "A <doc-sep> B <doc-sep> C" in
  let documents := ["X <doc-sep> Y"; "B <doc-sep> Z"] in
  let have := List.length (candidates self documents (Some example)) in
  exists k,
    ceil_mul f_0_34 (get_num_docs Sample.env example "<doc-sep>") = Some k
    /\ if (Z.of_nat have <? k)%Z
       then addition self example f_0_34 documents None (fresh self)
            = (Raise (InsufficientCandidatesError k have), fresh self)
            /\ replacement self example f_0_34 documents None (fresh self)
               = (Raise (InsufficientCandidatesError k have), fresh self)
       else (exists out s',
                addition self example f_0_34 documents None (fresh self)
                = (Ok out, s'))
            /\ (exists out s',
                replacement self example f_0_34 documents None (fresh self)
                = (Ok out, s')).
Proof.
  intros self example documents.
  apply (random_addition_and_replacement Sample.env self example f_0_34 documents
           None (fresh self)).
  - intros A g population k Hk. apply Sample_rng_sample_total. exact Hk.
  - intros A g population k r g' H. eapply Sample_rng_sample_incl. exact H.
  - vm_compute. reflexivity.
  - reflexivity.
  - reflexivity.
  - reflexivity.
  - vm_compute. lia.
  - vm_compute. reflexivity.
Defined.

(** ** The documents [backtranslation] looks up

    Each sampled document is looked up by its text in the list as
    overwritten so far; the lookup succeeds as long as the list holds
    every text at least as often as the documents still to come. *)

Lemma count_occ_setitem (l : list string) (j : nat) (x y : string) (l' : list string) :
  nth_error l j = Some x -> Py.setitem l j y = Some l' ->
  forall t,
    (count_occ string_dec l' t + (if string_dec x t then 1 else 0)
     = count_occ string_dec l t + (if string_dec y t then 1 else 0))%nat.
Proof.
  revert j l'. induction l as [|z l IH]; intros [|j] l' Hn Hs t; cbn in Hn, Hs;
    try discriminate.
  - inversion Hn; inversion Hs; subst. cbn [count_occ].
    destruct (string_dec x t), (string_dec y t); lia.
  - destruct (Py.setitem l j y) as [l0|] eqn:E; cbn in Hs; [|discriminate].
    inversion Hs; subst. specialize (IH j l0 Hn E t). cbn [count_occ].
    destruct (string_dec z t); lia.
Qed.

Lemma skipn_nth_error {A : Type} (l : list A) (i : nat) (x : A) :
  nth_error l i = Some x -> skipn i l = x :: skipn (S i) l.
Proof.
  revert i. induction l as [|y l IH]; intros [|i] H; cbn in H; try discriminate.
  - inversion H; reflexivity.
  - cbn [skipn]. rewrite (IH i H). reflexivity.
Qed.

Lemma overwrite_found {env : Env} (docs : list string) (x y : string) (s : state env) :
  In x docs ->
  exists j docs1,
    nth_error docs j = Some x
    /\ Py.index docs x = Some j
    /\ Py.setitem docs j y = Some docs1.
Proof.
  intros Hin. destruct (Py.index docs x) as [j|] eqn:Hj;
    [|exfalso; exact (index_In docs x Hin Hj)].
  pose proof (index_Some _ _ _ Hj) as [Hnth _].
  destruct (Py.setitem docs j y) as [docs1|] eqn:Hset.
  - exists j, docs1. repeat split; assumption.
  - exfalso. apply (setitem_total docs j y); [|exact Hset].
    apply nth_error_Some. rewrite Hnth. discriminate.
Qed.

Lemma backtranslate_into_total_aliased {env : Env}
  (back_translated_docs : list (list string)) :
  forall (sampled_docs : list string) (i : nat) (docs : list string) (s : state env),
    exists docs',
      backtranslate_into true sampled_docs i back_translated_docs docs s = (Ok docs', s).
Proof.
  induction back_translated_docs as [|translated rest IH];
    intros sampled_docs i docs s; cbn [backtranslate_into].
  - eexists; reflexivity.
  - destruct (nth_error docs i) as [x|] eqn:Hx; [|eexists; reflexivity].
    destruct (overwrite_found docs x (Py.join " " (map Py.strip translated)) s)
      as (j & docs1 & _ & Hj & Hset); [eapply nth_error_In; exact Hx|].
    unfold bind at 1. rewrite Hj. cbn [or_raise ret].
    unfold bind at 1. rewrite Hset. cbn [or_raise ret].
    apply IH.
Qed.

Lemma backtranslate_into_total_sampled {env : Env}
  (back_translated_docs : list (list string)) :
  forall (sampled_docs : list string) (i : nat) (docs : list string) (s : state env),
    (forall t, (count_occ string_dec (skipn i sampled_docs) t
                <= count_occ string_dec docs t)%nat) ->
    exists docs',
      backtranslate_into false sampled_docs i back_translated_docs docs s = (Ok docs', s).
Proof.
  induction back_translated_docs as [|translated rest IH];
    intros sampled_docs i docs s Hinv; cbn [backtranslate_into].
  - eexists; reflexivity.
  - destruct (nth_error sampled_docs i) as [x|] eqn:Hx; [|eexists; reflexivity].
    pose proof (skipn_nth_error _ _ _ Hx) as Hsk.
    assert (Hin : In x docs).
    { apply (count_occ_In string_dec). specialize (Hinv x). rewrite Hsk in Hinv.
      cbn [count_occ] in Hinv. destruct (string_dec x x); [lia | contradiction]. }
    destruct (overwrite_found docs x (Py.join " " (map Py.strip translated)) s Hin)
      as (j & docs1 & Hnth & Hj & Hset).
    unfold bind at 1. rewrite Hj. cbn [or_raise ret].
    unfold bind at 1. rewrite Hset. cbn [or_raise ret].
    apply IH. intros t.
    pose proof (count_occ_setitem _ _ _ _ _ Hnth Hset t) as Hc.
    specialize (Hinv t). rewrite Hsk in Hinv. cbn [count_occ] in Hinv.
    destruct (string_dec x t); lia.
Qed.

(** X20.  Under strategy ["random"], [backtranslation] of a fraction in
    (0, 1] of a non-empty example cannot fail on an object that has its
    augmenter: every sampled document is found by [input_docs.index],
    also when documents repeat or a translation equals another document
    ([random.sample] raises only when asked for more items than its
    population holds and returns each item at most as often as the
    population holds it, and [get_num_docs] is the number of
    documents). *)
Theorem random_backtranslation_succeeds (env : Env) (self : Perturber env)
  (example : string) (perturbed_frac : float) (target : option string)
  (documents : option (list string)) (s : state env) :
  let sep := _doc_sep_token env self in
  let num_docs := get_num_docs env example sep in
  (forall (A : Type) (g : Rng env) (population : list A) (k : Z),
      0 <= k <= Z.of_nat (List.length population) ->
      rng_sample env A g population k <> None) ->
  (forall (g : Rng env) (population : list string) (k : Z) r g',
      rng_sample env string g population k = Some (r, g') ->
      forall t, (count_occ string_dec r t <= count_occ string_dec population t)%nat) ->
  num_docs = List.length (split_docs env example sep) ->
  _strategy env self = "random" ->
  _aug env self <> None ->
  (0 <? perturbed_frac)%float = true -> (perturbed_frac <=? 1)%float = true ->
  (1 <= num_docs)%nat -> Z.of_nat num_docs < 2 ^ 53 ->
  exists out s',
    backtranslation self example perturbed_frac target documents s = (Ok out, s').
Proof.
  intros sep num_docs Htotal Hcount Hnum Hs Haug H0 H1 Hn1 Hn.
  destruct (ceil_mul_bounds perturbed_frac num_docs H0 H1 Hn1 Hn) as (k & Hk & Hk1).
  unfold backtranslation, num_to_perturb. fold sep. fold num_docs.
  unfold bind at 1. rewrite Hk. cbn [or_raise ret].
  destruct (_aug env self) as [aug|]; [clear Haug | contradiction].
  destruct (k =? Z.of_nat num_docs)%Z.
  - unfold bind at 1. cbn [ret]. unfold bind at 1. cbn [or_raise ret].
    match goal with
    | |- context [backtranslate_into true ?sd ?i ?btd ?docs] =>
        destruct (backtranslate_into_total_aliased btd sd i docs s) as [docs' Hd]
    end.
    unfold bind. rewrite Hd. eexists; eexists; reflexivity.
  - rewrite Hs. cbn [String.eqb Ascii.eqb Bool.eqb].
    unfold _select_docs. rewrite Hs, candidates_of_example. fold sep.
    cbn [String.eqb Ascii.eqb Bool.eqb negb andb Py.is_not_None when].
    destruct (Z.ltb_spec (Z.of_nat (List.length (split_docs env example sep))) k)
      as [Hlt|_]; [lia|].
    destruct (rng_sample env string (self_rng env s) (split_docs env example sep) k)
      as [[sampled g]|] eqn:Hr.
    2:{ exfalso.
        apply (Htotal string (self_rng env s) (split_docs env example sep) k);
          [lia | exact Hr]. }
    unfold bind at 1. unfold bind at 1. cbn [ret]. unfold sample. rewrite Hr.
    unfold bind at 1. cbn [or_raise ret]. unfold bind.
    match goal with
    | |- context [backtranslate_into false ?sd ?i ?btd ?docs ?st] =>
        destruct (backtranslate_into_total_sampled btd sd i docs st) as [docs' Hd]
    end.
    { intros t. cbn [skipn]. eapply Hcount. exact Hr. }
    rewrite Hd. eexists; eexists; reflexivity.
Qed.

Lemma Sample_remove_nth_count (j : nat) (l : list string) (x : string) :
  nth_error l j = Some x ->
  forall t,
    count_occ string_dec l t
    = (count_occ string_dec (Sample.remove_nth j l) t
       + (if string_dec x t then 1 else 0))%nat.
Proof.
  revert j. induction l as [|y l IH]; intros [|j] H t; cbn in H; try discriminate.
  - inversion H; subst. cbn [Sample.remove_nth count_occ].
    destruct (string_dec x t); lia.
  - cbn [Sample.remove_nth count_occ]. rewrite (IH j H t).
    destruct (string_dec y t); lia.
Qed.

Lemma Sample_draw_count (k : nat) :
  forall (g : Z) (pool : list string) (t : string),
    (count_occ string_dec (fst (Sample.draw g pool k)) t
     <= count_occ string_dec pool t)%nat.
Proof.
  induction k as [|k IH]; intros g pool t; [cbn; lia|].
  cbn [Sample.draw].
  destruct (nth_error pool (Sample.randbelow (Sample.next g) (List.length pool)))
    as [x|] eqn:E; [|cbn; lia].
  specialize (IH (Sample.next g)
                (Sample.remove_nth (Sample.randbelow (Sample.next g) (List.length pool)) pool)
                t).
  destruct (Sample.draw (Sample.next g)
              (Sample.remove_nth (Sample.randbelow (Sample.next g) (List.length pool)) pool) k)
    as [l g'].
  cbn [fst count_occ] in *. rewrite (Sample_remove_nth_count _ _ _ E t).
  destruct (string_dec x t); lia.
Qed.

Lemma Sample_rng_sample_count (g : Z) (population : list string) (k : Z) r g' :
  Sample.rng_sample string g population k = Some (r, g') ->
  forall t, (count_occ string_dec r t <= count_occ string_dec population t)%nat.
Proof.
  unfold Sample.rng_sample. intros H t.
  destruct ((k <? 0)%Z || (Z.of_nat (List.length population) <? k)%Z); [discriminate H|].
  inversion H as [Hd].
  pose proof (Sample_draw_count (Z.to_nat k) g population t) as Hc.
  rewrite Hd in Hc. exact Hc.
Qed.

Lemma random_backtranslation_succeeds_witness :
  let self := Sample.perturber "backtranslation" "random" 1 in
  exists out s',
    backtranslation self "A <doc-sep> B <doc-sep> A" f_0_34 None None (fresh self)
    = (Ok out, s').
Proof.
  intros self.
  apply (random_backtranslation_succeeds Sample.env self "A <doc-sep> B <doc-sep> A"
           f_0_34 None None (fresh self)).
  - intros A g population k Hk. apply Sample_rng_sample_total. exact Hk.
  - intros g population k r g' H. eapply Sample_rng_sample_count. exact H.
  - vm_compute. reflexivity.
  - reflexivity.
  - cbn. discriminate.
  - reflexivity.
  - reflexivity.
  - vm_compute. lia.
  - vm_compute. reflexivity.
Defined.

(** ** The pool of candidates *)

(** A document seen before is skipped. *)
Lemma fromkeys_from_skip (d : string) (l2 : list string) :
  forall l1 seen : list string,
    In d seen \/ In d l1 ->
    Py.fromkeys_from seen (l1 ++ d :: l2) = Py.fromkeys_from seen (l1 ++ l2).
Proof.
  induction l1 as [|y l1 IH]; intros seen Hd.
  - destruct Hd as [Hd|[]]. cbn [app Py.fromkeys_from].
    apply contains_In in Hd. rewrite Hd. reflexivity.
  - cbn [app Py.fromkeys_from]. destruct (Py.contains seen y) eqn:E.
    + apply IH. destruct Hd as [Hd|[<-|Hd]]; auto.
      left. apply contains_In. exact E.
    + f_equal. apply IH. destruct Hd as [Hd|[<-|Hd]]; auto.
      * left. right. exact Hd.
      * left. left. reflexivity.
Qed.

Lemma fromkeys_from_idempotent (b : list string) :
  forall seen : list string,
    Py.fromkeys_from seen (Py.fromkeys_from seen b) = Py.fromkeys_from seen b.
Proof.
  induction b as [|y b IH]; intros seen; [reflexivity|].
  cbn [Py.fromkeys_from]. destruct (Py.contains seen y) eqn:E; [apply IH|].
  cbn [Py.fromkeys_from]. rewrite E. f_equal. apply IH.
Qed.

(** Deduplicating [a + pool] gives the pool of [a + b] again. *)
Lemma fromkeys_from_pool (b : list string) :
  forall a seen : list string,
    Py.fromkeys_from seen (a ++ Py.fromkeys_from seen (a ++ b))
    = Py.fromkeys_from seen (a ++ b).
Proof.
  induction a as [|y a IH]; intros seen.
  - apply fromkeys_from_idempotent.
  - cbn [app Py.fromkeys_from]. destruct (Py.contains seen y) eqn:E; [apply IH|].
    f_equal. rewrite fromkeys_from_skip by (left; left; reflexivity). apply IH.
Qed.

Lemma index_cons_other (z x : string) (l : list string) (i : nat) :
  z <> x -> Py.index l x = Some i -> Py.index (z :: l) x = Some (S i).
Proof.
  intros Hne Hi. cbn [Py.index]. apply String.eqb_neq in Hne. rewrite Hne, Hi.
  reflexivity.
Qed.

(** The pool lists the documents by their first position. *)
Lemma fromkeys_from_order (l : list string) :
  forall (seen : list string) (i j : nat) (x y : string),
    (i < j)%nat ->
    nth_error (Py.fromkeys_from seen l) i = Some x ->
    nth_error (Py.fromkeys_from seen l) j = Some y ->
    exists i' j',
      Py.index l x = Some i' /\ Py.index l y = Some j' /\ (i' < j')%nat.
Proof.
  induction l as [|z l IH]; intros seen i j x y Hij Hx Hy.
  - cbn in Hx. destruct i; discriminate Hx.
  - cbn [Py.fromkeys_from] in Hx, Hy. destruct (Py.contains seen z) eqn:E.
    + destruct (IH seen i j x y Hij Hx Hy) as (i' & j' & Hi & Hj & Hlt).
      apply contains_In in E.
      assert (Hzx : z <> x).
      { intros ->. apply nth_error_In, fromkeys_from_In in Hx. tauto. }
      assert (Hzy : z <> y).
      { intros ->. apply nth_error_In, fromkeys_from_In in Hy. tauto. }
      exists (S i'), (S j'). repeat split; try lia; apply index_cons_other; assumption.
    + destruct j as [|j]; [lia|]. cbn [nth_error] in Hy.
      assert (Hzy : z <> y).
      { intros ->. apply nth_error_In, fromkeys_from_In in Hy.
        apply (proj2 Hy). left. reflexivity. }
      destruct i as [|i].
      * cbn [nth_error] in Hx. inversion Hx; subst x.
        pose proof Hy as Hin. apply nth_error_In, fromkeys_from_In in Hin.
        destruct (Py.index l y) as [j'|] eqn:Hj;
          [|exfalso; exact (index_In l y (proj1 Hin) Hj)].
        exists O, (S j'). split; [|split; [|lia]].
        -- cbn [Py.index]. rewrite String.eqb_refl. reflexivity.
        -- apply index_cons_other; assumption.
      * cbn [nth_error] in Hx.
        assert (Hzx : z <> x).
        { intros ->. apply nth_error_In, fromkeys_from_In in Hx.
          apply (proj2 Hx). left. reflexivity. }
        destruct (IH (z :: seen) i j x y ltac:(lia) Hx Hy) as (i' & j' & Hi & Hj & Hlt).
        exists (S i'), (S j'). repeat split; try lia; apply index_cons_other; assumption.
Qed.

(** X2.  [__call__] uses [documents] only through the pool of first
    occurrences it builds from [inputs + documents]: the call on the
    pool itself is the call on [documents], and a document that repeats
    an input or an earlier document can be left out without any change
    to the outputs, the generator or the warnings.  The pool has no
    repeated entry, it has exactly the entries of [inputs + documents],
    and it lists them by their first position in [inputs + documents]. *)
Theorem call_pool_is_deduplicated (env : Env) (self : Perturber env)
  (inputs : list string) (perturbed_frac : option float)
  (targets : option (list string)) (documents : list string) :
  let all := (inputs ++ documents)%list in
  let pool := Py.fromkeys all in
  (forall s,
      call self inputs perturbed_frac targets (Some pool) s
      = call self inputs perturbed_frac targets (Some documents) s)
  /\ (forall documents1 doc documents2 s,
        documents = (documents1 ++ doc :: documents2)%list ->
        In doc (inputs ++ documents1) ->
        call self inputs perturbed_frac targets (Some (documents1 ++ documents2)%list) s
        = call self inputs perturbed_frac targets (Some documents) s)
  /\ NoDup pool
  /\ (forall example, In example pool <-> In example all)
  /\ (forall i j x y,
        (i < j)%nat -> nth_error pool i = Some x -> nth_error pool j = Some y ->
        exists i' j',
          Py.index all x = Some i' /\ Py.index all y = Some j' /\ (i' < j')%nat).
Proof.
  intros all pool. unfold pool, all, Py.fromkeys.
  split; [|split; [|split; [|split]]].
  - intros s. unfold call, Py.fromkeys. cbn [Py.is_not_None].
    rewrite fromkeys_from_pool. reflexivity.
  - intros documents1 doc documents2 s -> Hdoc. unfold call, Py.fromkeys.
    cbn [Py.is_not_None].
    rewrite !app_assoc.
    rewrite (fromkeys_from_skip doc documents2 (inputs ++ documents1) [])
      by (right; exact Hdoc).
    reflexivity.
  - apply fromkeys_from_NoDup.
  - intros example. rewrite fromkeys_from_In. cbn. tauto.
  - intros i j x y. apply fromkeys_from_order.
Qed.

(** ** The number of documents affected

    A method selects [k] documents or positions.  Where the positions
    come from a lookup by text, two selected documents with the same
    text give the same position. *)






Lemma in_map_fst_combine {A B : Type} (a : list A) (b : list B) (x : A) :
  In x (map fst (combine a b)) -> In x a.
Proof.
  intros H. apply in_map_iff in H. destruct H as ([x' y] & <- & H).
  eapply in_combine_l. exact H.
Qed.


Section Affected.

Context {env : Env}.
Variable self : Perturber env.

(** What [random.sample] and [torch.topk] promise: [k] distinct items
    of the population, [k] distinct positions. *)
Hypothesis rng_sample_distinct :
  forall (A : Type) (g : Rng env) (population : list A) (k : Z) r g',
    rng_sample env A g population k = Some (r, g') ->
    Z.of_nat (List.length r) = k
    /\ incl r population
    /\ (NoDup population -> NoDup r).
Hypothesis topk_distinct :
  forall (scores : list (Score env)) (k : Z) (largest : bool) indices,
    topk env scores k largest = Some indices ->
    Z.of_nat (List.length indices) = k /\ NoDup indices.
Hypothesis get_num_docs_length :
  forall example : string,
    get_num_docs env example (_doc_sep_token env self)
    = List.length (split_docs env example (_doc_sep_token env self)).










End Affected.





